(** * PAIR: training-loop orchestration of KAIR's ModelGAN and RNAN's Trainer

    A shallow embedding of
      - [KAIR/models/model_gan.py]      (class [ModelGAN]) and
      - [RNAN-0.4/DN_RGB/code/trainer.py] (class [Trainer]),
    the two optimisation harnesses of the repository.

    Both classes are glue over a tensor/autograd library.  The embedding
    keeps what the Python code itself decides (which loss terms are
    composed, which optimiser steps, what is logged, which exception is
    raised) and records every call into the library as an event of a trace,
    in program order.  Python methods mutate [self]; here they are
    computations of a state-and-exception monad over a record holding the
    attributes of [self] that the methods read or write. *)

From Stdlib Require Import List String Ascii ZArith QArith Bool Lia.
Import ListNotations.
Open Scope string_scope.
Open Scope list_scope.
Open Scope Z_scope.

(** ** Python exceptions and the state-and-exception monad *)

Inductive exn : Type :=
| NotImplementedError (msg : string)
| UnboundLocalError (var : string)
| AttributeError (msg : string)
| TypeError (msg : string)
| ValueError (msg : string)
| ZeroDivisionError
| IndexError
| RuntimeError (msg : string).

(** A method of an object with attributes [S]: it returns a value or raises,
    and in both cases leaves the (possibly mutated) object behind. *)
Definition M (S A : Type) : Type := S -> (A + exn) * S.

Definition ret {S A} (a : A) : M S A := fun s => (inl a, s).

Definition raise {S A} (e : exn) : M S A := fun s => (inr e, s).

Definition bind {S A B} (c : M S A) (k : A -> M S B) : M S B :=
  fun s => match c s with
           | (inl a, s') => k a s'
           | (inr e, s') => (inr e, s')
           end.

Definition get {S} : M S S := fun s => (inl s, s).

Definition modify {S} (f : S -> S) : M S unit := fun s => (inl tt, f s).

Declare Scope py_scope.
Delimit Scope py_scope with py.
Notation "x <- c ;; k" := (bind c (fun x => k))
  (at level 61, c at next level, right associativity) : py_scope.
Notation "c ;; k" := (bind c (fun _ => k))
  (at level 61, right associativity) : py_scope.
Open Scope py_scope.

(** [for x in xs: body x] *)
Fixpoint for_each {S A} (xs : list A) (body : A -> M S unit) : M S unit :=
  match xs with
  | [] => ret tt
  | x :: xs' => body x ;; for_each xs' body
  end.

(** A loop that carries a local variable [b] from one iteration to the next. *)
Fixpoint for_each_acc {S A B} (xs : list A) (body : B -> A -> M S B) (b : B) : M S B :=
  match xs with
  | [] => ret b
  | x :: xs' => b' <- body b x ;; for_each_acc xs' body b'
  end.

(** [enumerate(xs)] *)
Definition enumerate {A} (xs : list A) : list (nat * A) :=
  combine (seq 0 (List.length xs)) xs.

(** [a % b] on Python ints: floor modulo, [ZeroDivisionError] when [b = 0]. *)
Definition py_mod {S} (a b : Z) : M S Z :=
  if b =? 0 then raise ZeroDivisionError else ret (a mod b).

(** [s in [s1, ..., sn]] on strings. *)
Definition str_in (s : string) (l : list string) : bool :=
  existsb (String.eqb s) l.

(** [w > 0] on a number of the option file. *)
Definition Qpos (w : Q) : bool := negb (Qle_bool w 0).

(** ** ModelGAN  (KAIR/models/model_gan.py) *)

Module ModelGAN.

(** *** Data *)

Inductive net : Type := netG | netD.

Inductive optimizer : Type := G_optimizer | D_optimizer.

(** The pixel losses [define_loss] can build. *)
Inductive pixel_loss : Type :=
| L1Loss            (* nn.L1Loss() *)
| MSELoss           (* nn.MSELoss() *)
| MSELoss_sum       (* nn.MSELoss(reduction='sum') *)
| SSIMLoss.         (* SSIMLoss() *)

(** [PerceptualLoss(lossfn_type=...)] *)
Record PerceptualLoss : Type := { lossfn_type : string }.

(** [GANLoss(gan_type, real_label_val, fake_label_val)] *)
Record GANLoss : Type :=
  { gl_gan_type : string; real_label_val : Q; fake_label_val : Q }.

(** Tensors are kept as the expression that computes them, which is the
    graph autograd records: [backward] is called on such a graph. *)
Inductive tensor : Type :=
| Num (q : Q)                                  (* a Python number *)
| Input (name : string)                        (* a batch fed by the loader *)
| Call (n : net) (x : tensor)                  (* self.netG(x), self.netD(x) *)
| Pixel (f : pixel_loss) (x y : tensor)        (* self.G_lossfn(x, y) *)
| Perceptual (f : PerceptualLoss) (x y : tensor)   (* self.F_lossfn(x, y) *)
| GAN (f : GANLoss) (x : tensor) (target_is_real : bool) (* self.D_lossfn(x, b) *)
| Add (a b : tensor)
| Sub (a b : tensor)
| Mul (a b : tensor)
| Div (a b : tensor)
| Mean (x : tensor)                            (* torch.mean(x) *)
| Mean0 (x : tensor)                           (* torch.mean(x, 0, True) *)
| Detach (x : tensor)                          (* x.detach() *)
| Item (x : tensor).                           (* x.item() *)

(** A value of the option dictionary, which is read from a JSON file; a key
    that is unset, or set to null, reads as [None]. *)
#[local] Unset Elimination Schemes.
Inductive pyvalue : Type :=
| PyNone
| PyBool (b : bool)
| PyInt (z : Z)
| PyFloat (q : Q)
| PyStr (s : string)
| PyList (l : list pyvalue)
| PyDict (d : list (string * pyvalue)).
#[local] Set Elimination Schemes.

(** [v == s] for a string literal [s]: only that string is equal to it. *)
Definition py_eq_str (v : pyvalue) (s : string) : bool :=
  match v with
  | PyStr s' => String.eqb s' s
  | _ => false
  end.

(** [(pre + '{:s}' + post).format(v)]: the format code ['s'] is for strings;
    numbers refuse it with [ValueError], and [None], lists and dictionaries
    take no format code at all. *)
Definition format_s {S} (pre post : string) (v : pyvalue) : M S string :=
  match v with
  | PyStr s => ret (pre ++ s ++ post)%string
  | PyNone =>
      raise (TypeError "unsupported format string passed to NoneType.__format__")
  | PyBool _ =>
      raise (ValueError "Unknown format code 's' for object of type 'bool'")
  | PyInt _ =>
      raise (ValueError "Unknown format code 's' for object of type 'int'")
  | PyFloat _ =>
      raise (ValueError "Unknown format code 's' for object of type 'float'")
  | PyList _ =>
      raise (TypeError "unsupported format string passed to list.__format__")
  | PyDict _ =>
      raise (TypeError "unsupported format string passed to dict.__format__")
  end.

(** [self.opt['train']] *)
Record opt_train : Type :=
  { G_lossfn_weight : Q;
    G_lossfn_type : pyvalue;          (* None when the key is unset *)
    F_lossfn_weight : Q;
    F_lossfn_type : string;
    gan_type : string;
    D_lossfn_weight : Q;
    D_update_ratio : option Z;        (* None when the key is unset *)
    D_init_iters : option Z;
    G_optimizer_lr : Q;
    D_optimizer_lr : Q;
    G_scheduler_milestones : list Z;
    G_scheduler_gamma : Q;
    D_scheduler_milestones : list Z;
    D_scheduler_gamma : Q }.

(** [self.opt] *)
Record options : Type :=
  { dist : bool;
    train : opt_train }.

(** [lr_scheduler.MultiStepLR(optimizer, milestones, gamma)] *)
Record MultiStepLR : Type :=
  { sched_optimizer : optimizer;
    milestones : list Z;
    gamma : Q }.

(** Calls into the library, in program order. *)
Inductive event : Type :=
| Print (msg : string)
| SetRequiresGrad (n : net) (b : bool)   (* for p in n.parameters(): p.requires_grad = b *)
| ZeroGrad (o : optimizer)               (* o.zero_grad() *)
| Backward (loss : tensor)               (* loss.backward() *)
| Step (o : optimizer).                  (* o.step() *)

(** The attributes of [self] used by the methods below.  [self.opt_train] is
    the same dictionary object as [self.opt['train']]. *)
Record model : Type :=
  { opt : options;
    G_lossfn : option pixel_loss;          (* None is Python's None *)
    G_lossfn_weight_ : Q;
    F_lossfn : option PerceptualLoss;
    F_lossfn_weight_ : Q;
    D_lossfn : GANLoss;
    D_lossfn_weight_ : Q;
    D_update_ratio_ : Z;
    D_init_iters_ : Z;
    schedulers : list MultiStepLR;
    L : tensor;
    H : tensor;
    var_ref : tensor;
    E : tensor;
    log_dict : list (string * tensor);     (* OrderedDict *)
    trace : list event }.

Definition opt_train_ (m : model) : opt_train := train (opt m).

Definition emit (e : event) : M model unit :=
  modify (fun m =>
    {| opt := opt m; G_lossfn := G_lossfn m; G_lossfn_weight_ := G_lossfn_weight_ m;
       F_lossfn := F_lossfn m; F_lossfn_weight_ := F_lossfn_weight_ m;
       D_lossfn := D_lossfn m; D_lossfn_weight_ := D_lossfn_weight_ m;
       D_update_ratio_ := D_update_ratio_ m; D_init_iters_ := D_init_iters_ m;
       schedulers := schedulers m; L := L m; H := H m; var_ref := var_ref m;
       E := E m; log_dict := log_dict m; trace := trace m ++ [e] |}).

Definition set_G_lossfn (f : option pixel_loss) : M model unit :=
  modify (fun m =>
    {| opt := opt m; G_lossfn := f; G_lossfn_weight_ := G_lossfn_weight_ m;
       F_lossfn := F_lossfn m; F_lossfn_weight_ := F_lossfn_weight_ m;
       D_lossfn := D_lossfn m; D_lossfn_weight_ := D_lossfn_weight_ m;
       D_update_ratio_ := D_update_ratio_ m; D_init_iters_ := D_init_iters_ m;
       schedulers := schedulers m; L := L m; H := H m; var_ref := var_ref m;
       E := E m; log_dict := log_dict m; trace := trace m |}).

Definition set_G_lossfn_weight (w : Q) : M model unit :=
  modify (fun m =>
    {| opt := opt m; G_lossfn := G_lossfn m; G_lossfn_weight_ := w;
       F_lossfn := F_lossfn m; F_lossfn_weight_ := F_lossfn_weight_ m;
       D_lossfn := D_lossfn m; D_lossfn_weight_ := D_lossfn_weight_ m;
       D_update_ratio_ := D_update_ratio_ m; D_init_iters_ := D_init_iters_ m;
       schedulers := schedulers m; L := L m; H := H m; var_ref := var_ref m;
       E := E m; log_dict := log_dict m; trace := trace m |}).

Definition set_F_lossfn (f : option PerceptualLoss) : M model unit :=
  modify (fun m =>
    {| opt := opt m; G_lossfn := G_lossfn m; G_lossfn_weight_ := G_lossfn_weight_ m;
       F_lossfn := f; F_lossfn_weight_ := F_lossfn_weight_ m;
       D_lossfn := D_lossfn m; D_lossfn_weight_ := D_lossfn_weight_ m;
       D_update_ratio_ := D_update_ratio_ m; D_init_iters_ := D_init_iters_ m;
       schedulers := schedulers m; L := L m; H := H m; var_ref := var_ref m;
       E := E m; log_dict := log_dict m; trace := trace m |}).

Definition set_F_lossfn_weight (w : Q) : M model unit :=
  modify (fun m =>
    {| opt := opt m; G_lossfn := G_lossfn m; G_lossfn_weight_ := G_lossfn_weight_ m;
       F_lossfn := F_lossfn m; F_lossfn_weight_ := w;
       D_lossfn := D_lossfn m; D_lossfn_weight_ := D_lossfn_weight_ m;
       D_update_ratio_ := D_update_ratio_ m; D_init_iters_ := D_init_iters_ m;
       schedulers := schedulers m; L := L m; H := H m; var_ref := var_ref m;
       E := E m; log_dict := log_dict m; trace := trace m |}).

Definition set_D_loss (f : GANLoss) (w : Q) (ratio iters : Z) : M model unit :=
  modify (fun m =>
    {| opt := opt m; G_lossfn := G_lossfn m; G_lossfn_weight_ := G_lossfn_weight_ m;
       F_lossfn := F_lossfn m; F_lossfn_weight_ := F_lossfn_weight_ m;
       D_lossfn := f; D_lossfn_weight_ := w;
       D_update_ratio_ := ratio; D_init_iters_ := iters;
       schedulers := schedulers m; L := L m; H := H m; var_ref := var_ref m;
       E := E m; log_dict := log_dict m; trace := trace m |}).

Definition set_schedulers (l : list MultiStepLR) : M model unit :=
  modify (fun m =>
    {| opt := opt m; G_lossfn := G_lossfn m; G_lossfn_weight_ := G_lossfn_weight_ m;
       F_lossfn := F_lossfn m; F_lossfn_weight_ := F_lossfn_weight_ m;
       D_lossfn := D_lossfn m; D_lossfn_weight_ := D_lossfn_weight_ m;
       D_update_ratio_ := D_update_ratio_ m; D_init_iters_ := D_init_iters_ m;
       schedulers := l; L := L m; H := H m; var_ref := var_ref m;
       E := E m; log_dict := log_dict m; trace := trace m |}).

Definition set_data (l h r : tensor) : M model unit :=
  modify (fun m =>
    {| opt := opt m; G_lossfn := G_lossfn m; G_lossfn_weight_ := G_lossfn_weight_ m;
       F_lossfn := F_lossfn m; F_lossfn_weight_ := F_lossfn_weight_ m;
       D_lossfn := D_lossfn m; D_lossfn_weight_ := D_lossfn_weight_ m;
       D_update_ratio_ := D_update_ratio_ m; D_init_iters_ := D_init_iters_ m;
       schedulers := schedulers m; L := l; H := h; var_ref := r;
       E := E m; log_dict := log_dict m; trace := trace m |}).

Definition set_E (e : tensor) : M model unit :=
  modify (fun m =>
    {| opt := opt m; G_lossfn := G_lossfn m; G_lossfn_weight_ := G_lossfn_weight_ m;
       F_lossfn := F_lossfn m; F_lossfn_weight_ := F_lossfn_weight_ m;
       D_lossfn := D_lossfn m; D_lossfn_weight_ := D_lossfn_weight_ m;
       D_update_ratio_ := D_update_ratio_ m; D_init_iters_ := D_init_iters_ m;
       schedulers := schedulers m; L := L m; H := H m; var_ref := var_ref m;
       E := e; log_dict := log_dict m; trace := trace m |}).

(** [d[k] = v] on an OrderedDict: an existing key keeps its position. *)
Fixpoint dict_set (k : string) (v : tensor) (d : list (string * tensor))
  : list (string * tensor) :=
  match d with
  | [] => [(k, v)]
  | (k', v') :: d' =>
      if String.eqb k k' then (k, v) :: d' else (k', v') :: dict_set k v d'
  end.

Definition log_set (k : string) (v : tensor) : M model unit :=
  modify (fun m =>
    {| opt := opt m; G_lossfn := G_lossfn m; G_lossfn_weight_ := G_lossfn_weight_ m;
       F_lossfn := F_lossfn m; F_lossfn_weight_ := F_lossfn_weight_ m;
       D_lossfn := D_lossfn m; D_lossfn_weight_ := D_lossfn_weight_ m;
       D_update_ratio_ := D_update_ratio_ m; D_init_iters_ := D_init_iters_ m;
       schedulers := schedulers m; L := L m; H := H m; var_ref := var_ref m;
       E := E m; log_dict := dict_set k v (log_dict m); trace := trace m |}).

(** *** define_loss *)

(** The pixel-loss part of [define_loss] (the [G_loss] block). *)
Definition define_loss_G : M model unit :=
  m <- get ;;
  if Qpos (G_lossfn_weight (opt_train_ m)) then
    let G_lossfn_type := G_lossfn_type (opt_train_ m) in
    (if py_eq_str G_lossfn_type "l1" then set_G_lossfn (Some L1Loss)
     else if py_eq_str G_lossfn_type "l2" then set_G_lossfn (Some MSELoss)
     else if py_eq_str G_lossfn_type "l2sum" then set_G_lossfn (Some MSELoss_sum)
     else if py_eq_str G_lossfn_type "ssim" then set_G_lossfn (Some SSIMLoss)
     else
       msg <- format_s "Loss type [" "] is not found." G_lossfn_type ;;
       raise (NotImplementedError msg)) ;;
    set_G_lossfn_weight (G_lossfn_weight (opt_train_ m))
  else
    emit (Print "Do not use pixel loss.") ;;
    set_G_lossfn None.

(** The perceptual-loss part (the [F_loss] block).  Both branches on
    [opt['dist']] build the same [PerceptualLoss]; they differ only in how it
    is moved to the device, which is not modelled. *)
Definition define_loss_F : M model unit :=
  m <- get ;;
  if Qpos (F_lossfn_weight (opt_train_ m)) then
    let F_lossfn_type := F_lossfn_type (opt_train_ m) in
    set_F_lossfn (Some {| lossfn_type := F_lossfn_type |}) ;;
    set_F_lossfn_weight (F_lossfn_weight (opt_train_ m))
  else
    emit (Print "Do not use feature loss.") ;;
    set_F_lossfn None.

(** [x if x else d] on an optional integer: [None] and [0] are falsy. *)
Definition or_default (x : option Z) (d : Z) : Z :=
  match x with
  | Some v => if v =? 0 then d else v
  | None => d
  end.

(** The [D_loss] block and the update schedule. *)
Definition define_loss_D : M model unit :=
  m <- get ;;
  set_D_loss {| gl_gan_type := gan_type (opt_train_ m);
                real_label_val := 1; fake_label_val := 0 |}
             (D_lossfn_weight (opt_train_ m))
             (or_default (D_update_ratio (opt_train_ m)) 1)
             (or_default (D_init_iters (opt_train_ m)) 0).

Definition define_loss : M model unit :=
  define_loss_G ;; define_loss_F ;; define_loss_D.

(** *** define_scheduler *)

Definition define_scheduler : M model unit :=
  m <- get ;;
  set_schedulers (schedulers m ++
    [ {| sched_optimizer := G_optimizer;
         milestones := G_scheduler_milestones (opt_train_ m);
         gamma := G_scheduler_gamma (opt_train_ m) |} ]) ;;
  m <- get ;;
  set_schedulers (schedulers m ++
    [ {| sched_optimizer := D_optimizer;
         milestones := D_scheduler_milestones (opt_train_ m);
         gamma := D_scheduler_gamma (opt_train_ m) |} ]).

(** *** feed_data *)

(** The dictionary [data]: key ['ref'] may be absent. *)
Record data : Type :=
  { data_L : tensor; data_H : tensor; data_ref : option tensor }.

Definition feed_data (d : data) (need_H : bool) : M model unit :=
  m <- get ;;
  if need_H then
    let input_ref := match data_ref d with Some r => r | None => data_H d end in
    set_data (data_L d) (data_H d) input_ref
  else
    set_data (data_L d) (H m) (var_ref m).

(** *** optimize_parameters *)

(** The local variables of [optimize_parameters] that are bound in some
    branches only; [None] is "not bound". *)
Record locals : Type :=
  { G_loss : option tensor;
    F_loss : option tensor;
    D_loss : option tensor;
    pred_d_real : option tensor;
    pred_d_fake : option tensor;
    l_d_real : option tensor;
    l_d_fake : option tensor }.

Definition no_locals : locals :=
  {| G_loss := None; F_loss := None; D_loss := None; pred_d_real := None;
     pred_d_fake := None; l_d_real := None; l_d_fake := None |}.

(** Reading a local variable. *)
Definition local {S} (name : string) (v : option tensor) : M S tensor :=
  match v with
  | Some t => ret t
  | None => raise (UnboundLocalError name)
  end.

(** [t.backward()]: a Python number has no such method. *)
Definition backward (t : tensor) : M model unit :=
  match t with
  | Num _ => raise (AttributeError "'int' object has no attribute 'backward'")
  | _ => emit (Backward t)
  end.

(** [self.G_lossfn(x, y)] and [self.F_lossfn(x, y)]: [None] is not callable. *)
Definition call_G_lossfn (x y : tensor) : M model tensor :=
  m <- get ;;
  match G_lossfn m with
  | Some f => ret (Pixel f x y)
  | None => raise (TypeError "'NoneType' object is not callable")
  end.

Definition call_F_lossfn (x y : tensor) : M model tensor :=
  m <- get ;;
  match F_lossfn m with
  | Some f => ret (Perceptual f x y)
  | None => raise (TypeError "'NoneType' object is not callable")
  end.

(** [current_step % self.D_update_ratio == 0 and current_step > self.D_init_iters] *)
Definition G_update_due (current_step : Z) : M model bool :=
  m <- get ;;
  r <- py_mod current_step (D_update_ratio_ m) ;;
  ret ((r =? 0) && (current_step >? D_init_iters_ m)).

(** "optimize G": lines 167-193. *)
Definition optimize_G (current_step : Z) : M model locals :=
  emit (SetRequiresGrad netD false) ;;
  emit (ZeroGrad G_optimizer) ;;
  m <- get ;;
  set_E (Call netG (L m)) ;;
  m <- get ;;
  let loss_G_total := Num 0 in
  due <- G_update_due current_step ;;
  if due then
    r1 <- (if Qpos (G_lossfn_weight (opt_train_ m)) then
             l <- call_G_lossfn (E m) (H m) ;;
             let G_loss := Mul (Num (G_lossfn_weight_ m)) l in
             ret (Add loss_G_total G_loss, Some G_loss)
           else ret (loss_G_total, None)) ;;
    let '(loss_G_total, G_loss) := r1 in
    r2 <- (if Qpos (F_lossfn_weight (opt_train_ m)) then
             l <- call_F_lossfn (E m) (H m) ;;
             let F_loss := Mul (Num (F_lossfn_weight_ m)) l in
             ret (Add loss_G_total F_loss, Some F_loss)
           else ret (loss_G_total, None)) ;;
    let '(loss_G_total, F_loss) := r2 in
    let pred_g_fake := Call netD (E m) in
    let r3 :=
      if str_in (gan_type (train (opt m))) ["gan"; "lsgan"; "wgangp"] then
        (Some (Mul (Num (D_lossfn_weight_ m)) (GAN (D_lossfn m) pred_g_fake true)),
         None)
      else if String.eqb (gan_type (train (opt m))) "ragan" then
        let pred_d_real := Detach (Call netD (var_ref m)) in
        (Some (Div (Mul (Num (D_lossfn_weight_ m))
                        (Add (GAN (D_lossfn m) (Sub pred_d_real (Mean pred_g_fake)) false)
                             (GAN (D_lossfn m) (Sub pred_g_fake (Mean pred_d_real)) true)))
                   (Num 2)),
         Some pred_d_real)
      else (None, None) in
    let '(D_loss, pred_d_real) := r3 in
    d <- local "D_loss" D_loss ;;
    let loss_G_total := Add loss_G_total d in
    backward loss_G_total ;;
    emit (Step G_optimizer) ;;
    ret {| G_loss := G_loss; F_loss := F_loss; D_loss := D_loss;
           pred_d_real := pred_d_real; pred_d_fake := None;
           l_d_real := None; l_d_fake := None |}
  else ret no_locals.

(** "optimize D": lines 198-242. *)
Definition optimize_D (lc : locals) : M model locals :=
  emit (SetRequiresGrad netD true) ;;
  emit (ZeroGrad D_optimizer) ;;
  m <- get ;;
  lc' <-
    (if dist (opt m) then
       if str_in (gan_type (opt_train_ m)) ["gan"; "lsgan"; "wgangp"; "wgansoftplus"] then
         let pred_d_real := Call netD (var_ref m) in
         let l_d_real := GAN (D_lossfn m) pred_d_real true in
         backward l_d_real ;;
         let pred_d_fake := Call netD (Detach (E m)) in
         let l_d_fake := GAN (D_lossfn m) pred_d_fake false in
         backward l_d_fake ;;
         ret {| G_loss := G_loss lc; F_loss := F_loss lc; D_loss := D_loss lc;
                pred_d_real := Some pred_d_real; pred_d_fake := Some pred_d_fake;
                l_d_real := Some l_d_real; l_d_fake := Some l_d_fake |}
       else if String.eqb (gan_type (opt_train_ m)) "ragan" then
         let pred_d_real := Call netD (var_ref m) in
         let pred_d_fake := Detach (Call netD (E m)) in
         let l_d_real :=
           Mul (Num (1 # 2)) (GAN (D_lossfn m) (Sub pred_d_real (Mean0 pred_d_fake)) true) in
         let pred_d_fake := Call netD (Detach (E m)) in
         let l_d_fake :=
           Mul (Num (1 # 2)) (GAN (D_lossfn m) (Sub pred_d_fake (Mean0 pred_d_real)) false) in
         backward l_d_fake ;;
         ret {| G_loss := G_loss lc; F_loss := F_loss lc; D_loss := D_loss lc;
                pred_d_real := Some pred_d_real; pred_d_fake := Some pred_d_fake;
                l_d_real := Some l_d_real; l_d_fake := Some l_d_fake |}
       else ret lc
     else
       let loss_D_total := Num 0 in
       let pred_d_real := Call netD (var_ref m) in
       let pred_d_fake := Call netD (Detach (E m)) in
       let '(loss_D_total, l_d_real, l_d_fake) :=
         if str_in (gan_type (opt_train_ m)) ["gan"; "lsgan"; "wgangp"; "wgansoftplus"] then
           let l_d_real := GAN (D_lossfn m) pred_d_real true in
           let l_d_fake := GAN (D_lossfn m) pred_d_fake false in
           (Add l_d_real l_d_fake, Some l_d_real, Some l_d_fake)
         else if String.eqb (gan_type (opt_train_ m)) "ragan" then
           let l_d_real := GAN (D_lossfn m) (Sub pred_d_real (Mean0 pred_d_fake)) true in
           let l_d_fake := GAN (D_lossfn m) (Sub pred_d_fake (Mean0 pred_d_real)) false in
           (Div (Add l_d_real l_d_fake) (Num 2), Some l_d_real, Some l_d_fake)
         else (loss_D_total, None, None) in
       backward loss_D_total ;;
       ret {| G_loss := G_loss lc; F_loss := F_loss lc; D_loss := D_loss lc;
              pred_d_real := Some pred_d_real; pred_d_fake := Some pred_d_fake;
              l_d_real := l_d_real; l_d_fake := l_d_fake |}) ;;
  emit (Step D_optimizer) ;;
  ret lc'.

(** "record log": lines 247-257. *)
Definition record_log (current_step : Z) (lc : locals) : M model unit :=
  m <- get ;;
  due <- G_update_due current_step ;;
  (if due then
     (if Qpos (G_lossfn_weight (opt_train_ m)) then
        g <- local "G_loss" (G_loss lc) ;; log_set "G_loss" (Item g)
      else ret tt) ;;
     (if Qpos (F_lossfn_weight (opt_train_ m)) then
        f <- local "F_loss" (F_loss lc) ;; log_set "F_loss" (Item f)
      else ret tt) ;;
     d <- local "D_loss" (D_loss lc) ;; log_set "D_loss" (Item d)
   else ret tt) ;;
  r <- local "pred_d_real" (pred_d_real lc) ;;
  log_set "D_real" (Mean (Detach r)) ;;
  f <- local "pred_d_fake" (pred_d_fake lc) ;;
  log_set "D_fake" (Mean (Detach f)).

(** The method, returning its local variables as well, for the statements
    that speak about them. *)
Definition optimize_parameters_locals (current_step : Z) : M model locals :=
  lc <- optimize_G current_step ;;
  lc <- optimize_D lc ;;
  record_log current_step lc ;;
  ret lc.

Definition optimize_parameters (current_step : Z) : M model unit :=
  optimize_parameters_locals current_step ;; ret tt.

(** *** Terms used to state the properties of [optimize_parameters] *)

(** [0 + t1 + ... + tn], as [loss_G_total = 0] followed by [+=] builds it. *)
Definition tsum (ts : list tensor) : tensor := fold_left Add ts (Num 0).

(** The generated image of a call: [self.E = self.netG(self.L)]. *)
Definition generated (m : model) : tensor := Call netG (L m).

(** [self.G_lossfn_weight * self.G_lossfn(self.E, self.H)], present when the
    option's weight is positive. *)
Definition pixel_terms (m : model) : list tensor :=
  if Qpos (G_lossfn_weight (opt_train_ m)) then
    match G_lossfn m with
    | Some f => [Mul (Num (G_lossfn_weight_ m)) (Pixel f (generated m) (H m))]
    | None => []
    end
  else [].

(** [self.F_lossfn_weight * self.F_lossfn(self.E, self.H)], likewise. *)
Definition perceptual_terms (m : model) : list tensor :=
  if Qpos (F_lossfn_weight (opt_train_ m)) then
    match F_lossfn m with
    | Some f => [Mul (Num (F_lossfn_weight_ m)) (Perceptual f (generated m) (H m))]
    | None => []
    end
  else [].

(** The adversarial term for 'gan', 'lsgan' and 'wgangp': the GAN loss of
    the discriminator's prediction on the generated image, target real. *)
Definition adversarial_plain (m : model) : tensor :=
  Mul (Num (D_lossfn_weight_ m))
      (GAN (D_lossfn m) (Call netD (generated m)) true).

(** The adversarial term for 'ragan': relativistic average, which also
    takes the (detached) prediction on the reference image. *)
Definition adversarial_ragan (m : model) : tensor :=
  let pred_g_fake := Call netD (generated m) in
  let pred_d_real := Detach (Call netD (var_ref m)) in
  Div (Mul (Num (D_lossfn_weight_ m))
           (Add (GAN (D_lossfn m) (Sub pred_d_real (Mean pred_g_fake)) false)
                (GAN (D_lossfn m) (Sub pred_g_fake (Mean pred_d_real)) true)))
      (Num 2).

Definition adversarial_term (m : model) : tensor :=
  if String.eqb (gan_type (opt_train_ m)) "ragan" then adversarial_ragan m
  else adversarial_plain m.

(** The total generator loss with the adversarial term as one weighted
    value of the GAN loss, [D_lossfn_weight * D_lossfn(x, b)], for an
    argument [x] and a target [b]; with [x] the prediction of [netD] for
    the generated image this is the one-term reading of the adversarial
    loss. *)
Definition one_term_loss_G_total (m : model) (x : tensor) (b : bool) : tensor :=
  tsum (pixel_terms m ++ perceptual_terms m
        ++ [Mul (Num (D_lossfn_weight_ m)) (GAN (D_lossfn m) x b)]).

(** The total generator loss by GAN type. *)
Definition loss_G_total (m : model) : tensor :=
  tsum (pixel_terms m ++ perceptual_terms m ++ [adversarial_term m]).

(** The condition under which the generator is updated. *)
Definition G_due (m : model) (current_step : Z) : bool :=
  (current_step mod D_update_ratio_ m =? 0) && (current_step >? D_init_iters_ m).

(** The GAN types the generator phase knows, and those the discriminator
    phase knows. *)
Definition G_gan_types : list string := ["gan"; "lsgan"; "wgangp"; "ragan"].

Definition D_gan_types : list string :=
  ["gan"; "lsgan"; "wgangp"; "wgansoftplus"; "ragan"].

(** The attributes [define_loss] assigns. *)
Definition loss_attributes (m : model) :=
  (opt m, G_lossfn m, G_lossfn_weight_ m, F_lossfn m, F_lossfn_weight_ m,
   D_lossfn m, D_lossfn_weight_ m, D_update_ratio_ m, D_init_iters_ m).

(** [m] carries the loss attributes a successful [define_loss] left. *)
Definition configured (m : model) : Prop :=
  exists m0, fst (define_loss m0) = inl tt /\
             loss_attributes (snd (define_loss m0)) = loss_attributes m.

(** The losses of the discriminator phase for 'ragan' under [opt['dist']]. *)
Definition ragan_dist_l_d_real (m : model) : tensor :=
  Mul (Num (1 # 2))
      (GAN (D_lossfn m)
           (Sub (Call netD (var_ref m)) (Mean0 (Detach (Call netD (generated m)))))
           true).

Definition ragan_dist_l_d_fake (m : model) : tensor :=
  Mul (Num (1 # 2))
      (GAN (D_lossfn m)
           (Sub (Call netD (Detach (generated m))) (Mean0 (Call netD (var_ref m))))
           false).

(** *** Concrete models, to run the methods on *)

Definition example_train (gan : string) (wG wF : Q) (ratio iters : option Z)
  : opt_train :=
  {| G_lossfn_weight := wG; G_lossfn_type := PyStr "l1";
     F_lossfn_weight := wF; F_lossfn_type := "l1";
     gan_type := gan; D_lossfn_weight := 5 # 1000;
     D_update_ratio := ratio; D_init_iters := iters;
     G_optimizer_lr := 1 # 10000; D_optimizer_lr := 1 # 10000;
     G_scheduler_milestones := [200000; 800000]; G_scheduler_gamma := 1 # 2;
     D_scheduler_milestones := [200000; 800000]; D_scheduler_gamma := 1 # 2 |}.

(** A model right after construction, fed with one batch. *)
Definition fresh_model (o : options) : model :=
  {| opt := o; G_lossfn := None; G_lossfn_weight_ := 0;
     F_lossfn := None; F_lossfn_weight_ := 0;
     D_lossfn := {| gl_gan_type := EmptyString; real_label_val := 0;
                    fake_label_val := 0 |};
     D_lossfn_weight_ := 0; D_update_ratio_ := 0; D_init_iters_ := 0;
     schedulers := []; L := Input "L"; H := Input "H"; var_ref := Input "H";
     E := Input "E"; log_dict := []; trace := [] |}.

(** The same model after [define_loss]. *)
Definition example_model (is_dist : bool) (gan : string) (wG wF : Q)
    (ratio iters : option Z) : model :=
  snd (define_loss
         (fresh_model {| dist := is_dist;
                         train := example_train gan wG wF ratio iters |})).

(** The events of one call, phase by phase. *)
Definition G_events (m : model) (current_step : Z) : list event :=
  if G_due m current_step
  then [Backward (loss_G_total m); Step G_optimizer]
  else [].

Definition D_backwards (m : model) : list event :=
  let real := Call netD (var_ref m) in
  let fake := Call netD (Detach (generated m)) in
  let ragan := String.eqb (gan_type (opt_train_ m)) "ragan" in
  if dist (opt m) then
    if ragan then [Backward (ragan_dist_l_d_fake m)]
    else [Backward (GAN (D_lossfn m) real true);
          Backward (GAN (D_lossfn m) fake false)]
  else
    if ragan then
      [Backward (Div (Add (GAN (D_lossfn m) (Sub real (Mean0 fake)) true)
                          (GAN (D_lossfn m) (Sub fake (Mean0 real)) false))
                     (Num 2))]
    else
      [Backward (Add (GAN (D_lossfn m) real true)
                     (GAN (D_lossfn m) fake false))].

Definition call_events (m : model) (current_step : Z) : list event :=
  [SetRequiresGrad netD false; ZeroGrad G_optimizer]
  ++ G_events m current_step
  ++ [SetRequiresGrad netD true; ZeroGrad D_optimizer]
  ++ D_backwards m
  ++ [Step D_optimizer].

(** A fresh model whose option file asks for pixel loss [ty] with weight [wG]. *)
Definition pixel_model (ty : pyvalue) (wG : Q) : model :=
  fresh_model
    {| dist := false;
       train :=
         {| G_lossfn_weight := wG; G_lossfn_type := ty;
            F_lossfn_weight := 1; F_lossfn_type := "l1";
            gan_type := "gan"; D_lossfn_weight := 5 # 1000;
            D_update_ratio := None; D_init_iters := None;
            G_optimizer_lr := 1 # 10000; D_optimizer_lr := 1 # 10000;
            G_scheduler_milestones := [200000; 800000]; G_scheduler_gamma := 1 # 2;
            D_scheduler_milestones := [200000; 800000]; D_scheduler_gamma := 1 # 2 |} |}.

(** *** define_optimizer *)

(** One entry of [net.named_parameters()]. *)
Record parameter : Type := { p_name : string; p_requires_grad : bool }.

(** An [Adam] optimiser, as its constructor leaves it. *)
Record Adam : Type :=
  { adam_params : list parameter; adam_lr : Q; adam_weight_decay : Q }.

(** [Adam(params, lr=lr, weight_decay=0)].  The constructor of the library
    checks its hyper-parameters first (of those passed here only [lr] can
    fail the check, the others being constants it accepts) and then refuses
    an empty list of parameters.  The message for [lr] also shows the
    number, which is left out here. *)
Definition new_Adam {S} (params : list parameter) (lr : Q) : M S Adam :=
  if negb (Qle_bool 0 lr) then raise (ValueError "Invalid learning rate")
  else
    match params with
    | [] => raise (ValueError "optimizer got an empty parameter list")
    | _ :: _ =>
        ret {| adam_params := params; adam_lr := lr; adam_weight_decay := 0 |}
    end.

(** What [define_optimizer] writes to: the two attributes it sets ([None]
    while an attribute is not set) and the lines it prints. *)
Record optimizers : Type :=
  { self_G_optimizer : option Adam;
    self_D_optimizer : option Adam;
    printed : list string }.

Definition print_line (msg : string) : M optimizers unit :=
  modify (fun s =>
    {| self_G_optimizer := self_G_optimizer s;
       self_D_optimizer := self_D_optimizer s;
       printed := printed s ++ [msg] |}).

Definition set_G_optimizer (a : Adam) : M optimizers unit :=
  modify (fun s =>
    {| self_G_optimizer := Some a;
       self_D_optimizer := self_D_optimizer s;
       printed := printed s |}).

Definition set_D_optimizer (a : Adam) : M optimizers unit :=
  modify (fun s =>
    {| self_G_optimizer := self_G_optimizer s;
       self_D_optimizer := Some a;
       printed := printed s |}).

(** The body of the loop over [self.netG.named_parameters()]: a parameter
    is appended to [G_optim_params] or reported by a [print]. *)
Definition collect_G_param (G_optim_params : list parameter) (v : parameter)
  : M optimizers (list parameter) :=
  if p_requires_grad v then ret (G_optim_params ++ [v])
  else
    print_line ("Params [" ++ p_name v ++ "] will not optimize.")%string ;;
    ret G_optim_params.

(** [define_optimizer], given the parameters of the two networks. *)
Definition define_optimizer (netG_params netD_params : list parameter)
    (o : opt_train) : M optimizers unit :=
  G_optim_params <- for_each_acc netG_params collect_G_param [] ;;
  g <- new_Adam G_optim_params (G_optimizer_lr o) ;;
  set_G_optimizer g ;;
  d <- new_Adam netD_params (D_optimizer_lr o) ;;
  set_D_optimizer d.

(** The line printed for a parameter that is not optimised. *)
Definition not_optimized (v : parameter) : string :=
  ("Params [" ++ p_name v ++ "] will not optimize.")%string.

(** No attribute set, nothing printed. *)
Definition no_optimizers : optimizers :=
  {| self_G_optimizer := None; self_D_optimizer := None; printed := [] |}.

(** *** Further terms for the properties of the methods *)

(** [d[k]] on the OrderedDict, [None] for a missing key. *)
Fixpoint dict_get (k : string) (d : list (string * tensor)) : option tensor :=
  match d with
  | [] => None
  | (k', v) :: d' => if String.eqb k k' then Some v else dict_get k d'
  end.

(** Whether gradients can flow from [t] back into the generator: [t] holds
    a call of [netG] that is under no [detach()]. *)
Fixpoint reaches_netG (t : tensor) : bool :=
  match t with
  | Num _ | Input _ => false
  | Call netG _ => true
  | Call netD x => reaches_netG x
  | Pixel _ x y | Perceptual _ x y => reaches_netG x || reaches_netG y
  | GAN _ x _ => reaches_netG x
  | Add a b | Sub a b | Mul a b | Div a b => reaches_netG a || reaches_netG b
  | Mean x | Mean0 x | Item x => reaches_netG x
  | Detach _ => false
  end.

(** The losses of a list of events that are backpropagated. *)
Definition backward_losses (evs : list event) : list tensor :=
  flat_map (fun e => match e with Backward t => [t] | _ => [] end) evs.

(** How often optimiser [o] steps in a list of events. *)
Definition steps_of (o : optimizer) (evs : list event) : nat :=
  List.length
    (filter (fun e => match e, o with
                      | Step G_optimizer, G_optimizer => true
                      | Step D_optimizer, D_optimizer => true
                      | _, _ => false
                      end) evs).

(** A stretch of training: for every [(current_step, batch)], the batch is
    fed and the parameters are optimised. *)
Definition train_iterations (its : list (Z * data)) : M model unit :=
  for_each its (fun '(current_step, d) =>
    feed_data d true ;; optimize_parameters current_step).

(** How a call of [optimize_parameters] on a configured model ends, read
    off the branches on the GAN type: the generator phase binds [D_loss]
    for four types only, the discriminator phase binds its predictions (and
    a loss that has [backward]) for five. *)
Definition call_outcome (m : model) (current_step : Z) : unit + exn :=
  let gan := gan_type (opt_train_ m) in
  if G_due m current_step && negb (str_in gan G_gan_types) then
    inr (UnboundLocalError "D_loss")
  else if negb (str_in gan D_gan_types) then
    if dist (opt m) then inr (UnboundLocalError "pred_d_real")
    else inr (AttributeError "'int' object has no attribute 'backward'")
  else inl tt.

End ModelGAN.

(** ** Trainer  (RNAN-0.4/DN_RGB/code/trainer.py) *)

Module Trainer.

(** *** The collaborators of the trainer

    The model, the loss module, the optimiser, the scheduler, the checkpoint
    manager and [utility] live outside [trainer.py].  They are an interface
    here; no law is assumed about them, so what is proved holds for
    floating-point arithmetic as it holds for any other instance.  Python
    floats are double precision; [ckp.log] is a float tensor, which holds
    single-precision numbers: [float32 x] is what such a tensor holds once
    [x] is stored in it. *)

Class Collaborators : Type :=
  { (* Python floats *)
    pyfloat : Type;
    F_of_Z : Z -> pyfloat;                       (* the float of an int *)
    fadd : pyfloat -> pyfloat -> pyfloat;
    fmul : pyfloat -> pyfloat -> pyfloat;
    fdiv : pyfloat -> pyfloat -> pyfloat;        (* by a non-zero divisor *)
    flt : pyfloat -> pyfloat -> bool;            (* x < y *)
    float32 : pyfloat -> pyfloat;                (* x, stored in a float tensor *)
    (* tensors *)
    Tensor : Type;
    cuda : Tensor -> Tensor;                     (* t.cuda() *)
    half : Tensor -> Tensor;                     (* t.half() *)
    mkVariable : Tensor -> bool -> Tensor;       (* Variable(t, volatile=b) *)
    (* self.model *)
    Params : Type;
    forward : Params -> Tensor -> Z -> Tensor;   (* self.model(x, s) *)
    (* utility *)
    quantize : Tensor -> Z -> Tensor;
    calc_psnr : Tensor -> Tensor -> Z -> Z -> bool -> pyfloat;
    (* self.loss *)
    LossModule : Type;
    LossVal : Type;
    loss_step : LossModule -> LossModule;
    loss_start_log : LossModule -> LossModule;
    loss_call : LossModule -> Tensor -> Tensor -> LossVal * LossModule;
    loss_end_log : LossModule -> nat -> LossModule;
    loss_log_last : LossModule -> pyfloat;       (* self.loss.log[-1, -1] *)
    display_loss : LossModule -> nat -> string;
    loss_data0 : LossVal -> pyfloat;             (* loss.data[0] *)
    (* autograd and the optimiser *)
    Grads : Type;
    Optimizer : Type;
    zero_grad : Grads -> Grads;
    autograd : Params -> LossVal -> Grads -> Grads;      (* loss.backward() *)
    optimizer_step : Optimizer -> Grads -> Params -> Optimizer * Params;
    load_state_dict : Optimizer -> string -> Optimizer;  (* from the file at a path *)
    make_optimizer : Params -> Optimizer;
    (* the scheduler: its constructor and the learning rates it sets *)
    make_scheduler : Optimizer -> Optimizer * Z;         (* with its last_epoch *)
    scheduler_set_lr : Z -> Optimizer -> Optimizer;
    get_lr0 : Z -> pyfloat }.                            (* get_lr()[0] at an epoch *)

Section WithCollaborators.

Context {C : Collaborators}.

(** *** Data *)

(** [self.args] *)
Record args : Type :=
  { load : string;
    scale : list Z;
    skip_threshold : pyfloat;
    print_every : Z;
    batch_size : Z;
    rgb_range : Z;
    save_results : bool;
    test_only : bool;
    epochs : Z;
    cpu : bool;
    precision : string;
    data_test : string }.

(** One item of [loader_train]: [(lr, hr, _, idx_scale)]. *)
Record train_item : Type :=
  { tr_lr : Tensor; tr_hr : Tensor; tr_idx_scale : nat }.

(** One item of [loader_test]: [(lr, hr, filename, _)]; [hr] is [None] where
    the dataset has no ground truth ([isinstance(hr[0], int)]). *)
Record test_item : Type :=
  { te_lr : Tensor; te_hr : option Tensor; te_filename : string }.

(** What the constructor receives besides the model and the loss. *)
Record config : Type :=
  { cargs : args;
    ckp_dir : string;
    loader_train : list train_item;
    len_train_dataset : Z;              (* len(self.loader_train.dataset) *)
    loader_test : nat -> list test_item;  (* after dataset.set_scale(i) *)
    benchmark : bool }.

(** The messages handed to [ckp.write_log]; wall-clock times are left out. *)
Inductive log_msg : Type :=
| MsgEpoch (epoch : Z) (lr : pyfloat)
| MsgBatch (seen : Z) (total : Z) (losses : string)
| MsgEvaluation
| MsgPSNR (data : string) (scale : Z) (psnr best : pyfloat) (best_epoch : Z)
| MsgTotalTime.

Inductive event : Type :=
| LoadStateDict (path : string)      (* optimizer.load_state_dict(torch.load(path)) *)
| SchedulerStep                      (* scheduler.step() *)
| LossStep                           (* loss.step() *)
| LossStartLog
| LossEndLog (n : nat)
| ModelTrain                         (* model.train() *)
| ModelEval                          (* model.eval() *)
| WriteLog (msg : log_msg)
| Print (batch : Z) (loss : pyfloat) (* 'Skip this batch ...' *)
| ZeroGrad                           (* optimizer.zero_grad() *)
| Backward (loss : LossVal)          (* loss.backward() *)
| Step                               (* optimizer.step() *)
| SetScale (idx_scale : nat)         (* dataset.set_scale(idx_scale) *)
| SaveResultsTest (filename : string) (save_list : list Tensor) (scale : Z)
| SaveResults (filename : string) (save_list : list Tensor) (scale : Z)
| Save (epoch : Z) (is_best : bool). (* ckp.save(self, epoch, is_best=...) *)

(** The mutable state reachable from [self]. *)
Record trainer : Type :=
  { params : Params;                   (* the parameters of self.model *)
    grads : Grads;
    optimizer : Optimizer;
    last_epoch : Z;                    (* self.scheduler.last_epoch *)
    loss : LossModule;
    error_last : pyfloat;
    ckp_log : list (list pyfloat);     (* self.ckp.log, a 2-D tensor, by rows *)
    idx_scale : nat;                   (* self.loader_test.dataset's scale index *)
    trace : list event }.

Definition emit (e : event) : M trainer unit :=
  modify (fun t =>
    {| params := params t; grads := grads t; optimizer := optimizer t;
       last_epoch := last_epoch t; loss := loss t; error_last := error_last t;
       ckp_log := ckp_log t; idx_scale := idx_scale t; trace := trace t ++ [e] |}).

Definition set_params (p : Params) : M trainer unit :=
  modify (fun t =>
    {| params := p; grads := grads t; optimizer := optimizer t;
       last_epoch := last_epoch t; loss := loss t; error_last := error_last t;
       ckp_log := ckp_log t; idx_scale := idx_scale t; trace := trace t |}).

Definition set_grads (g : Grads) : M trainer unit :=
  modify (fun t =>
    {| params := params t; grads := g; optimizer := optimizer t;
       last_epoch := last_epoch t; loss := loss t; error_last := error_last t;
       ckp_log := ckp_log t; idx_scale := idx_scale t; trace := trace t |}).

Definition set_optimizer (o : Optimizer) : M trainer unit :=
  modify (fun t =>
    {| params := params t; grads := grads t; optimizer := o;
       last_epoch := last_epoch t; loss := loss t; error_last := error_last t;
       ckp_log := ckp_log t; idx_scale := idx_scale t; trace := trace t |}).

Definition set_last_epoch (e : Z) : M trainer unit :=
  modify (fun t =>
    {| params := params t; grads := grads t; optimizer := optimizer t;
       last_epoch := e; loss := loss t; error_last := error_last t;
       ckp_log := ckp_log t; idx_scale := idx_scale t; trace := trace t |}).

Definition set_loss (l : LossModule) : M trainer unit :=
  modify (fun t =>
    {| params := params t; grads := grads t; optimizer := optimizer t;
       last_epoch := last_epoch t; loss := l; error_last := error_last t;
       ckp_log := ckp_log t; idx_scale := idx_scale t; trace := trace t |}).

Definition set_error_last (e : pyfloat) : M trainer unit :=
  modify (fun t =>
    {| params := params t; grads := grads t; optimizer := optimizer t;
       last_epoch := last_epoch t; loss := loss t; error_last := e;
       ckp_log := ckp_log t; idx_scale := idx_scale t; trace := trace t |}).

Definition set_ckp_log (l : list (list pyfloat)) : M trainer unit :=
  modify (fun t =>
    {| params := params t; grads := grads t; optimizer := optimizer t;
       last_epoch := last_epoch t; loss := loss t; error_last := error_last t;
       ckp_log := l; idx_scale := idx_scale t; trace := trace t |}).

Definition set_idx_scale (i : nat) : M trainer unit :=
  modify (fun t =>
    {| params := params t; grads := grads t; optimizer := optimizer t;
       last_epoch := last_epoch t; loss := loss t; error_last := error_last t;
       ckp_log := ckp_log t; idx_scale := i; trace := trace t |}).

(** *** Helpers: paths and the log tensor *)

Fixpoint ends_with_slash (s : string) : bool :=
  match s with
  | EmptyString => false
  | String c EmptyString => Ascii.eqb c "/"%char
  | String _ s' => ends_with_slash s'
  end.

(** [os.path.join(a, b)] on POSIX paths. *)
Definition os_path_join (a b : string) : string :=
  if String.prefix "/" b then b
  else if String.eqb a EmptyString || ends_with_slash a then (a ++ b)%string
  else (a ++ "/" ++ b)%string.

(** Replace the element at index [i], if there is one. *)
Fixpoint list_set {A} (l : list A) (i : nat) (v : A) : option (list A) :=
  match l, i with
  | [], _ => None
  | _ :: l', O => Some (v :: l')
  | x :: l', S i' => option_map (cons x) (list_set l' i' v)
  end.

(** [log[-1, j]] *)
Definition log_get_last {A} (log : list (list A)) (j : nat) : option A :=
  match rev log with
  | [] => None
  | row :: _ => nth_error row j
  end.

(** [log[-1, j] = v] *)
Definition log_set_last {A} (log : list (list A)) (j : nat) (v : A)
  : option (list (list A)) :=
  match rev log with
  | [] => None
  | row :: before =>
      option_map (fun row' => rev before ++ [row']) (list_set row j v)
  end.

Definition index_or_raise {S A} (o : option A) : M S A :=
  match o with
  | Some a => ret a
  | None => raise IndexError
  end.

(** Every row of the log has [n] entries: the log is a tensor of shape
    [(k, n)]. *)
Definition rows_of_width (n : nat) (log : list (list pyfloat)) : bool :=
  forallb (fun r => Nat.eqb (List.length r) n) log.

(** [self.ckp.add_log(row)] for a tensor [row] of one line.  The checkpoint
    manager is outside [trainer.py]; it keeps its log by concatenating each
    new line to it ([torch.cat]).  A log without rows takes any line; a log
    with rows takes a line as wide as they are and refuses any other (the
    message of the library goes on with the two sizes). *)
Definition add_log (row : list pyfloat) : M trainer unit :=
  t <- get ;;
  match ckp_log t with
  | [] => set_ckp_log [row]
  | r :: _ =>
      if Nat.eqb (List.length r) (List.length row)
      then set_ckp_log (ckp_log t ++ [row])
      else raise (RuntimeError "Sizes of tensors must match except in dimension 0")
  end.

(** Column [j] of the log. *)
Definition column (log : list (list pyfloat)) (j : nat) : list pyfloat :=
  flat_map (fun row => match nth_error row j with
                       | Some x => [x]
                       | None => []
                       end) log.

(** The maximum of a column and the row it is found in, scanning down from
    row [i] with the largest value so far, [best], found in row [at_]: a
    later row takes over only with a strictly larger value, so that of equal
    values the first one is kept. *)
Fixpoint max_from (xs : list pyfloat) (i : nat) (best : pyfloat) (at_ : nat)
  : pyfloat * nat :=
  match xs with
  | [] => (best, at_)
  | x :: xs' =>
      if flt best x then max_from xs' (S i) x i
      else max_from xs' (S i) best at_
  end.

(** [log.max(0)] on a log that has rows and holds no NaN: for every column,
    its maximum and the index of the first row that holds it ([best[0][j]]
    and [best[1][j]] are the components of entry [j]). *)
Definition log_max0 (log : list (list pyfloat)) : list (pyfloat * nat) :=
  match log with
  | [] => []
  | row0 :: rows =>
      map (fun '(j, x0) => max_from (column rows j) 1 x0 0) (enumerate row0)
  end.

(** *** __init__ *)

(** [self.scheduler.step()]: the scheduler moves to the next epoch and sets
    the learning rate of that epoch in the optimiser it was built on. *)
Definition scheduler_step : M trainer unit :=
  emit SchedulerStep ;;
  t <- get ;;
  set_last_epoch (last_epoch t + 1) ;;
  set_optimizer (scheduler_set_lr (last_epoch t + 1) (optimizer t)).

(** [Trainer(args, loader, my_model, my_loss, ckp)], run on the fresh [self].
    The loaders and [args] stay in [cfg]; [ckp] brings its log. *)
Definition __init__ (cfg : config) (my_model : Params) (my_loss : LossModule)
    (ckp : list (list pyfloat)) : M trainer unit :=
  set_ckp_log ckp ;;
  set_params my_model ;;
  set_loss my_loss ;;
  let '(o, e) := make_scheduler (make_optimizer my_model) in
  set_optimizer o ;;
  set_last_epoch e ;;
  (if negb (String.eqb (load (cargs cfg)) ".") then
     t <- get ;;
     let path := os_path_join (ckp_dir cfg) "optimizer.pt" in
     emit (LoadStateDict path) ;;
     set_optimizer (load_state_dict (optimizer t) path) ;;
     t <- get ;;
     for_each (seq 0 (List.length (ckp_log t))) (fun _ => scheduler_step)
   else ret tt) ;;
  set_error_last (F_of_Z 100000000).

(** *** prepare *)

Definition _prepare (a : args) (volatile : bool) (idx : nat) (tensor : Tensor)
  : Tensor :=
  let tensor := if negb (cpu a) then cuda tensor else tensor in
  let tensor := if String.eqb (precision a) "half" then half tensor else tensor in
  mkVariable tensor (volatile && Nat.eqb idx 0).

Definition prepare (a : args) (l : list Tensor) (volatile : bool) : list Tensor :=
  map (fun '(i, _l) => _prepare a volatile i _l) (enumerate l).

(** *** train *)

(** The body of the loop over [loader_train]; timers are left out. *)
Definition train_batch (cfg : config) (batch : nat) (it : train_item)
  : M trainer unit :=
  let a := cargs cfg in
  r <- (match prepare a [tr_lr it; tr_hr it] false with
        | [lr; hr] => ret (lr, hr)
        | _ => raise (ValueError "not enough values to unpack")
        end) ;;
  let '(lr, hr) := r in
  emit ZeroGrad ;;
  t <- get ;;
  set_grads (zero_grad (grads t)) ;;
  s <- index_or_raise (nth_error (scale a) (tr_idx_scale it)) ;;
  t <- get ;;
  let sr := forward (params t) lr s in
  let '(loss_, lm) := loss_call (loss t) sr hr in
  set_loss lm ;;
  t <- get ;;
  (if flt (loss_data0 loss_) (fmul (skip_threshold a) (error_last t)) then
     emit (Backward loss_) ;;
     set_grads (autograd (params t) loss_ (grads t)) ;;
     emit Step ;;
     t <- get ;;
     let '(o, p) := optimizer_step (optimizer t) (grads t) (params t) in
     set_optimizer o ;;
     set_params p
   else
     emit (Print (Z.of_nat batch + 1) (loss_data0 loss_))) ;;
  r <- py_mod (Z.of_nat batch + 1) (print_every a) ;;
  if r =? 0 then
    t <- get ;;
    emit (WriteLog (MsgBatch ((Z.of_nat batch + 1) * batch_size a)
                             (len_train_dataset cfg)
                             (display_loss (loss t) batch)))
  else ret tt.

Definition train (cfg : config) : M trainer unit :=
  scheduler_step ;;
  emit LossStep ;;
  t <- get ;;
  set_loss (loss_step (loss t)) ;;
  t <- get ;;
  let epoch := last_epoch t + 1 in
  let lr := get_lr0 (last_epoch t) in
  emit (WriteLog (MsgEpoch epoch lr)) ;;
  emit LossStartLog ;;
  set_loss (loss_start_log (loss t)) ;;
  emit ModelTrain ;;
  for_each (enumerate (loader_train cfg))
           (fun '(batch, it) => train_batch cfg batch it) ;;
  emit (LossEndLog (List.length (loader_train cfg))) ;;
  t <- get ;;
  set_loss (loss_end_log (loss t) (List.length (loader_train cfg))) ;;
  t <- get ;;
  set_error_last (loss_log_last (loss t)).

(** *** test *)

(** [len(self.loader_test)] with the dataset at its current scale. *)
Definition len_loader_test (cfg : config) (t : trainer) : nat :=
  List.length (loader_test cfg (idx_scale t)).

(** The body of the loop over the test images; [eval_acc] is carried. *)
Definition test_image (cfg : config) (idx_scale_ : nat) (scale_ : Z)
    (eval_acc : pyfloat) (it : test_item) : M trainer pyfloat :=
  let a := cargs cfg in
  let filename := te_filename it in
  r <- (match te_hr it with
        | None =>
            lr <- index_or_raise (nth_error (prepare a [te_lr it] true) 0) ;;
            ret (lr, None)
        | Some hr =>
            match prepare a [te_lr it; hr] true with
            | [lr; hr] => ret (lr, Some hr)
            | _ => raise (ValueError "not enough values to unpack")
            end
        end) ;;
  let '(lr, hr) := r in
  t <- get ;;
  let sr := forward (params t) lr (Z.of_nat idx_scale_) in
  let sr := quantize sr (rgb_range a) in
  let save_list := [sr] in
  let '(eval_acc, save_list) :=
    match hr with
    | Some hr =>
        (fadd eval_acc (calc_psnr sr hr scale_ (rgb_range a) (benchmark cfg)),
         save_list ++ [lr; hr])
    | None => (eval_acc, save_list)
    end in
  (if save_results a then
     if test_only a then emit (SaveResultsTest filename save_list scale_)
     else emit (SaveResults filename save_list scale_)
   else ret tt) ;;
  ret eval_acc.

(** What [best = self.ckp.log.max(0)] holds: value and index, by column. *)
Definition best_t : Type := list (pyfloat * nat).

(** The body of the loop over the scales; the local [best] is carried and
    is [None] until the first iteration binds it. *)
Definition test_scale (cfg : config) (best : option best_t) (s : nat * Z)
  : M trainer (option best_t) :=
  let a := cargs cfg in
  let '(idx_scale_, scale_) := s in
  let eval_acc := F_of_Z 0 in
  emit (SetScale idx_scale_) ;;
  set_idx_scale idx_scale_ ;;
  t <- get ;;
  eval_acc <- for_each_acc (loader_test cfg (idx_scale t))
                           (test_image cfg idx_scale_ scale_) eval_acc ;;
  t <- get ;;
  v <- (if Nat.eqb (len_loader_test cfg t) 0 then raise ZeroDivisionError
        else ret (fdiv eval_acc (F_of_Z (Z.of_nat (len_loader_test cfg t))))) ;;
  log' <- index_or_raise (log_set_last (ckp_log t) idx_scale_ (float32 v)) ;;
  set_ckp_log log' ;;
  t <- get ;;
  let best := log_max0 (ckp_log t) in
  cur <- index_or_raise (log_get_last (ckp_log t) idx_scale_) ;;
  b <- index_or_raise (nth_error best idx_scale_) ;;
  emit (WriteLog (MsgPSNR (data_test a) scale_ cur
                          (fst b) (Z.of_nat (snd b) + 1))) ;;
  ret (Some best).

Definition test (cfg : config) : M trainer unit :=
  let a := cargs cfg in
  t <- get ;;
  let epoch := last_epoch t + 1 in
  emit (WriteLog MsgEvaluation) ;;
  add_log (repeat (F_of_Z 0) (List.length (scale a))) ;;
  emit ModelEval ;;
  best <- for_each_acc (enumerate (scale a)) (test_scale cfg) None ;;
  t <- get ;;
  (if Nat.eqb (len_loader_test cfg t) 0 then raise ZeroDivisionError
   else emit (WriteLog MsgTotalTime)) ;;
  if negb (test_only a) then
    match best with
    | Some best =>
        b <- index_or_raise (nth_error best 0) ;;
        emit (Save epoch (Z.of_nat (snd b) + 1 =? epoch))
    | None => raise (UnboundLocalError "best")
    end
  else ret tt.

(** *** terminate *)

Definition terminate (cfg : config) : M trainer bool :=
  if test_only (cargs cfg) then
    test cfg ;;
    ret true
  else
    t <- get ;;
    let epoch := last_epoch t + 1 in
    ret (epoch >=? epochs (cargs cfg)).

(** *** Terms used to state the properties of the trainer *)

(** The PSNR of one test image: none where there is no ground truth, else
    [calc_psnr] of the quantized output of the model against it. *)
Definition image_psnr (cfg : config) (p : Params) (idx_scale_ : nat) (scale_ : Z)
    (it : test_item) : list pyfloat :=
  let a := cargs cfg in
  match te_hr it with
  | Some hr =>
      let lr := _prepare a true 0 (te_lr it) in
      let hr := _prepare a true 1 hr in
      let sr := quantize (forward p lr (Z.of_nat idx_scale_)) (rgb_range a) in
      [calc_psnr sr hr scale_ (rgb_range a) (benchmark cfg)]
  | None => []
  end.

(** The PSNR values of the images of scale [idx_scale_], in loader order. *)
Definition test_psnrs (cfg : config) (p : Params) (idx_scale_ : nat) (scale_ : Z)
  : list pyfloat :=
  flat_map (image_psnr cfg p idx_scale_ scale_) (loader_test cfg idx_scale_).

(** [0 + x1 + ... + xn], added in this order. *)
Definition fsum (xs : list pyfloat) : pyfloat := fold_left fadd xs (F_of_Z 0).

(** The sum of the PSNR values over the number of items of the loader. *)
Definition mean_psnr (cfg : config) (p : Params) (idx_scale_ : nat) (scale_ : Z)
  : pyfloat :=
  fdiv (fsum (test_psnrs cfg p idx_scale_ scale_))
       (F_of_Z (Z.of_nat (List.length (loader_test cfg idx_scale_)))).

(** The optimiser after [n] steps of a scheduler that is at epoch [e]. *)
Fixpoint advance (n : nat) (e : Z) (o : Optimizer) : Optimizer :=
  match n with
  | O => o
  | S n' => advance n' (e + 1) (scheduler_set_lr (e + 1) o)
  end.

(** The loss of a training batch on the state [t] it meets: lines 52-53. *)
Definition batch_loss (cfg : config) (t : trainer) (it : train_item)
  : option LossVal :=
  let a := cargs cfg in
  match nth_error (scale a) (tr_idx_scale it) with
  | Some s =>
      let lr := _prepare a false 0 (tr_lr it) in
      let hr := _prepare a false 1 (tr_hr it) in
      Some (fst (loss_call (loss t) (forward (params t) lr s) hr))
  | None => None
  end.

(** Events that update the parameters of the model. *)
Definition updates_model (e : event) : bool :=
  match e with
  | Backward _ | Step => true
  | _ => false
  end.

Definition is_save (e : event) : bool :=
  match e with
  | Save _ _ => true
  | _ => false
  end.

(** No event of [evs] is a call of [ckp.save]. *)
Definition no_save (evs : list event) : Prop :=
  forall e, In e evs -> is_save e = false.

(** [flt] orders the values of [xs] as [<] orders numbers: nothing is below
    itself, and being below, as well as not being below, carries over.  This
    is so for floats that are not NaN. *)
Definition ordered_on (xs : list pyfloat) : Prop :=
  (forall x, In x xs -> flt x x = false) /\
  (forall x y z, In x xs -> In y xs -> In z xs ->
     flt x y = true -> flt y z = true -> flt x z = true) /\
  (forall x y z, In x xs -> In y xs -> In z xs ->
     flt x y = false -> flt y z = false -> flt x z = false).



(** What neither [test] nor the loop of [train] assigns. *)
Definition fixed_part (t : trainer) :=
  (params t, grads t, optimizer t, last_epoch t, loss t, error_last t).

(** *** Further terms for the properties of the trainer *)




(** How many events of a list satisfy [p]. *)
Definition count_events (p : event -> bool) (evs : list event) : nat :=
  List.length (filter p evs).

Definition is_zero_grad (e : event) : bool :=
  match e with ZeroGrad => true | _ => false end.

Definition is_backward (e : event) : bool :=
  match e with Backward _ => true | _ => false end.

Definition is_step (e : event) : bool :=
  match e with Step => true | _ => false end.

Definition is_skip (e : event) : bool :=
  match e with Print _ _ => true | _ => false end.

(** What [train] leaves alone but for the epoch counter. *)
Definition epoch_part (t : trainer) := (last_epoch t, ckp_log t, idx_scale t).

End WithCollaborators.

(** *** An instance to run the trainer on

    One-pixel images over the rationals, a model that scales its input by a
    gain, a squared-error loss and plain gradient steps. *)

Definition Qlt_bool (x y : Q) : bool := negb (Qle_bool y x).

(** The single-precision number nearest to a rational, ties going to the
    even significand: [m * 2^e] with [m] of 24 bits.  The range of the
    exponent is not limited. *)
Definition Q_float32 (q : Q) : Q :=
  let n := Qnum q in
  let d := Zpos (Qden q) in
  if n =? 0 then 0%Q
  else
    let a := Z.abs n in
    let scaled (e : Z) : Z * Z :=      (* a / d / 2^e as a fraction *)
      if 0 <=? e then (a, d * 2 ^ e) else (a * 2 ^ (- e), d) in
    let e0 := Z.log2 a - Z.log2 d - 24 in
    let e := if fst (scaled e0) / snd (scaled e0) <? 2 ^ 24 then e0 else e0 + 1 in
    let '(num, den) := scaled e in
    let p := num / den in
    let r := num mod den in
    let m := if 2 * r <? den then p
             else if den <? 2 * r then p + 1
             else if Z.even p then p else p + 1 in
    let m := Z.sgn n * m in
    if 0 <=? e then inject_Z (m * 2 ^ e)
    else Qred (Qmake m (Z.to_pos (2 ^ (- e)))).

#[local] Instance Q_collaborators : Collaborators :=
  {| pyfloat := Q;
     F_of_Z := inject_Z;
     fadd := fun x y => Qred (x + y);
     fmul := fun x y => Qred (x * y);
     fdiv := fun x y => Qred (x / y);
     flt := Qlt_bool;
     float32 := Q_float32;
     Tensor := Q;
     cuda := fun x => x;
     half := fun x => x;
     mkVariable := fun x _ => x;
     Params := Q;
     forward := fun p x _ => Qred (p * x);
     quantize := fun x _ => x;
     calc_psnr := fun sr hr _ _ _ => Qred (40 - (sr - hr) * (sr - hr));
     LossModule := list Q;
     LossVal := Q;
     loss_step := fun l => l;
     loss_start_log := fun l => 0%Q :: l;
     loss_call := fun l sr hr =>
       let v := Qred ((sr - hr) * (sr - hr)) in
       (v, match l with [] => [v] | x :: l' => Qred (x + v) :: l' end);
     loss_end_log := fun l n =>
       match l with
       | [] => []
       | x :: l' => Qred (x / inject_Z (Z.of_nat n)) :: l'
       end;
     loss_log_last := fun l => hd 0%Q l;
     display_loss := fun _ _ => "[L2]";
     loss_data0 := fun v => v;
     Grads := Q;
     Optimizer := Q;
     zero_grad := fun _ => 0%Q;
     autograd := fun _ v g => Qred (g + v);
     optimizer_step := fun o g p => (o, Qred (p - o * g));
     load_state_dict := fun o _ => o;
     make_optimizer := fun _ => (1 # 10)%Q;
     make_scheduler := fun o => (o, -1);
     scheduler_set_lr := fun _ o => o;
     get_lr0 := fun _ => (1 # 10)%Q |}.

Definition example_args (is_test_only : bool) (from : string) : @args Q_collaborators :=
  {| load := from; scale := [2; 3]; skip_threshold := 10%Q; print_every := 100;
     batch_size := 16; rgb_range := 255; save_results := true;
     test_only := is_test_only; epochs := 300; cpu := true;
     precision := "single"; data_test := "Set5" |}.

Definition example_config (is_test_only : bool) (from : string)
  : @config Q_collaborators :=
  {| cargs := example_args is_test_only from;
     ckp_dir := "../experiment/RNAN";
     loader_train :=
       [ {| tr_lr := 1%Q; tr_hr := 2%Q; tr_idx_scale := 0%nat |};
         {| tr_lr := 1%Q; tr_hr := 1000000%Q; tr_idx_scale := 0%nat |} ];
     len_train_dataset := 2;
     loader_test := fun i =>
       [ {| te_lr := 1%Q; te_hr := Some (3 # 1)%Q; te_filename := "baby" |};
         {| te_lr := 2%Q; te_hr := None; te_filename := "bird" |};
         {| te_lr := inject_Z (Z.of_nat i); te_hr := Some 1%Q;
            te_filename := "head" |} ];
     benchmark := true |}.

(** A trainer at epoch [e] with one logged epoch behind it. *)
Definition example_trainer (e : Z) : @trainer Q_collaborators :=
  {| params := 2%Q; grads := 0%Q; optimizer := (1 # 10)%Q; last_epoch := e;
     loss := []; error_last := 100000000%Q; ckp_log := [[30%Q; 28%Q]];
     idx_scale := 0%nat; trace := [] |}.

(** The example configuration with other scales, another logging period
    and another test loader. *)
Definition example_config_with (scales : list Z) (every : Z)
    (tests : nat -> list (@test_item Q_collaborators)) (is_test_only : bool)
  : @config Q_collaborators :=
  {| cargs :=
       {| load := "."; scale := scales; skip_threshold := 10%Q;
          print_every := every; batch_size := 16; rgb_range := 255;
          save_results := false; test_only := is_test_only; epochs := 300;
          cpu := false; precision := "half"; data_test := "Set5" |};
     ckp_dir := "../experiment/RNAN";
     loader_train :=
       [ {| tr_lr := 1%Q; tr_hr := 2%Q; tr_idx_scale := 0%nat |};
         {| tr_lr := 1%Q; tr_hr := 1000000%Q; tr_idx_scale := 0%nat |} ];
     len_train_dataset := 2;
     loader_test := tests;
     benchmark := false |}.

(** Test images without ground truth. *)
Definition unlabelled_images : list (@test_item Q_collaborators) :=
  [ {| te_lr := 1%Q; te_hr := None; te_filename := "a" |};
    {| te_lr := 2%Q; te_hr := None; te_filename := "b" |} ].

(** Three test images with ground truth; under the model of the example
    trainer their PSNR values are 39, 31 and 39. *)
Definition labelled_images : list (@test_item Q_collaborators) :=
  [ {| te_lr := 1%Q; te_hr := Some 3%Q; te_filename := "a" |};
    {| te_lr := 1%Q; te_hr := Some 5%Q; te_filename := "b" |};
    {| te_lr := 2%Q; te_hr := Some 3%Q; te_filename := "c" |} ].

(** The example trainer at epoch 1 with another log behind it. *)
Definition example_trainer_logged (log : list (list Q))
  : @trainer Q_collaborators :=
  {| params := 2%Q; grads := 0%Q; optimizer := (1 # 10)%Q; last_epoch := 1;
     loss := []; error_last := 100000000%Q; ckp_log := log;
     idx_scale := 0%nat; trace := [] |}.

End Trainer.

(** * Properties of ModelGAN *)

Module ModelGAN_Theorems.

Import ModelGAN.

Lemma or_default_nonzero x d : d <> 0 -> or_default x d <> 0.
Proof.
  intros Hd. unfold or_default. destruct x as [v|]; [|exact Hd].
  destruct (Z.eqb_spec v 0); auto.
Qed.

(** What a successful [define_loss] leaves in the attributes. *)
Lemma configured_inv m :
  configured m ->
  (Qpos (G_lossfn_weight (opt_train_ m)) = true ->
     (exists f, G_lossfn m = Some f) /\
     G_lossfn_weight_ m = G_lossfn_weight (opt_train_ m)) /\
  (Qpos (F_lossfn_weight (opt_train_ m)) = true ->
     F_lossfn m = Some {| lossfn_type := F_lossfn_type (opt_train_ m) |} /\
     F_lossfn_weight_ m = F_lossfn_weight (opt_train_ m)) /\
  D_lossfn m = {| gl_gan_type := gan_type (opt_train_ m);
                  real_label_val := 1; fake_label_val := 0 |} /\
  D_lossfn_weight_ m = D_lossfn_weight (opt_train_ m) /\
  D_update_ratio_ m = or_default (D_update_ratio (opt_train_ m)) 1 /\
  D_init_iters_ m = or_default (D_init_iters (opt_train_ m)) 0.
Proof.
  intros (m0 & Hok & Hattr).
  unfold loss_attributes in Hattr. unfold opt_train_.
  injection Hattr as <- <- <- <- <- <- <- <- <-.
  revert Hok.
  unfold define_loss, define_loss_G, define_loss_F, define_loss_D, opt_train_.
  unfold bind, get, ret, raise, emit, modify, set_G_lossfn, set_G_lossfn_weight,
    set_F_lossfn, set_F_lossfn_weight, set_D_loss.
  cbn.
  destruct (Qpos (G_lossfn_weight (train (opt m0)))) eqn:HG; cbn.
  - destruct (py_eq_str (G_lossfn_type (train (opt m0))) "l1"); cbn;
      [|destruct (py_eq_str (G_lossfn_type (train (opt m0))) "l2"); cbn;
        [|destruct (py_eq_str (G_lossfn_type (train (opt m0))) "l2sum"); cbn;
          [|destruct (py_eq_str (G_lossfn_type (train (opt m0))) "ssim"); cbn;
            [|destruct (G_lossfn_type (train (opt m0))); cbn]]]].
    all: destruct (Qpos (F_lossfn_weight (train (opt m0)))) eqn:HF; cbn.
    all: intros Hok; try discriminate Hok.
    all: repeat split; intros; try congruence; eauto.
  - destruct (Qpos (F_lossfn_weight (train (opt m0)))) eqn:HF; cbn.
    all: intros Hok; try discriminate Hok.
    all: repeat split; intros; try congruence; eauto.
Qed.

(** The update ratio is never zero once [define_loss] has run, so the
    modulo of [optimize_parameters] cannot divide by zero. *)
Lemma configured_ratio_nonzero m : configured m -> D_update_ratio_ m <> 0.
Proof.
  intros Hc. destruct (configured_inv m Hc) as (_ & _ & _ & _ & -> & _).
  apply or_default_nonzero. discriminate.
Qed.

(** The three kinds of GAN type the discriminator phase accepts: the ones
    both phases know, 'ragan', and 'wgansoftplus', which the generator
    phase does not know. *)
Lemma gan_cases g :
  str_in g D_gan_types = true ->
  (str_in g ["gan"; "lsgan"; "wgangp"] = true /\ (g =? "ragan")%string = false /\
   str_in g ["gan"; "lsgan"; "wgangp"; "wgansoftplus"] = true /\
   str_in g G_gan_types = true) \/
  (str_in g ["gan"; "lsgan"; "wgangp"] = false /\ (g =? "ragan")%string = true /\
   str_in g ["gan"; "lsgan"; "wgangp"; "wgansoftplus"] = false /\
   str_in g G_gan_types = true) \/
  (str_in g ["gan"; "lsgan"; "wgangp"] = false /\ (g =? "ragan")%string = false /\
   str_in g ["gan"; "lsgan"; "wgangp"; "wgansoftplus"] = true /\
   str_in g G_gan_types = false).
Proof.
  unfold str_in, D_gan_types, G_gan_types. cbn [existsb].
  destruct (String.eqb_spec g "gan") as [->|]; [vm_compute; intuition congruence|].
  destruct (String.eqb_spec g "lsgan") as [->|]; [vm_compute; intuition congruence|].
  destruct (String.eqb_spec g "wgangp") as [->|]; [vm_compute; intuition congruence|].
  destruct (String.eqb_spec g "wgansoftplus") as [->|]; [vm_compute; intuition congruence|].
  destruct (String.eqb_spec g "ragan") as [->|]; [vm_compute; intuition congruence|].
  cbn. discriminate.
Qed.

Lemma G_gan_types_D g :
  str_in g G_gan_types = true -> str_in g D_gan_types = true.
Proof.
  unfold str_in, D_gan_types, G_gan_types. cbn [existsb].
  destruct (g =? "gan")%string, (g =? "lsgan")%string, (g =? "wgangp")%string,
    (g =? "wgansoftplus")%string, (g =? "ragan")%string; cbn; congruence.
Qed.

(** Symbolic execution of the methods: the monad and the field accesses
    are unfolded, tests on the options stay as they are. *)
Ltac run :=
  cbv beta iota zeta delta
    [optimize_parameters optimize_parameters_locals optimize_G optimize_D
     record_log G_update_due call_G_lossfn call_F_lossfn local backward
     py_mod log_set set_E emit bind get ret raise modify opt_train_
     str_in existsb no_locals fst snd
     opt G_lossfn G_lossfn_weight_ F_lossfn F_lossfn_weight_ D_lossfn
     D_lossfn_weight_ D_update_ratio_ D_init_iters_ schedulers L H var_ref E
     log_dict trace
     G_loss F_loss D_loss pred_d_real pred_d_fake l_d_real l_d_fake].

(** One call on a configured model whose GAN type the phases it runs know:
    the call returns, and its events are [call_events]. *)
Lemma optimize_parameters_run m step :
  configured m ->
  str_in (gan_type (opt_train_ m)) D_gan_types = true ->
  (G_due m step = true -> str_in (gan_type (opt_train_ m)) G_gan_types = true) ->
  exists lc m',
    optimize_parameters_locals step m = (inl lc, m') /\
    trace m' = trace m ++ call_events m step /\
    loss_attributes m' = loss_attributes m /\
    E m' = generated m /\
    (L m', H m', var_ref m') = (L m, H m, var_ref m) /\
    (dist (opt m) = true ->
     (gan_type (opt_train_ m) =? "ragan")%string = true ->
     l_d_real lc = Some (ragan_dist_l_d_real m) /\
     l_d_fake lc = Some (ragan_dist_l_d_fake m)).
Proof.
  intros Hc Hg Hdue.
  destruct (configured_inv m Hc) as (HG & HF & HD & HDw & Hr & Hi).
  assert (Hr0 : (D_update_ratio_ m =? 0) = false).
  { apply Z.eqb_neq. now apply configured_ratio_nonzero. }
  clear HD HDw Hr Hi Hc.
  unfold call_events, G_events, D_backwards, loss_G_total, adversarial_term,
    adversarial_plain, adversarial_ragan, ragan_dist_l_d_real, ragan_dist_l_d_fake,
    pixel_terms, perceptual_terms, generated, G_due, loss_attributes, tsum in *.
  unfold opt_train_ in *.
  destruct m as [o gl glw fl flw dl dlw dr di sch l h vr e ld tr].
  cbn [opt G_lossfn G_lossfn_weight_ F_lossfn F_lossfn_weight_ D_lossfn
       D_lossfn_weight_ D_update_ratio_ D_init_iters_ schedulers L H var_ref E
       log_dict trace] in *.
  destruct (gan_cases _ Hg)
    as [(H3 & Hra & H4 & HGt)|[(H3 & Hra & H4 & HGt)|(H3 & Hra & H4 & HGt)]];
    unfold str_in in H3, H4; cbn [existsb] in H3, H4; clear Hg.
  all: destruct ((step mod dr =? 0) && (step >? di)) eqn:Hd;
    [specialize (Hdue eq_refl)|clear Hdue]; try congruence.
  all: destruct (Qpos (G_lossfn_weight (train o))) eqn:EG;
    [destruct (HG eq_refl) as ((fG & EfG) & _)|]; clear HG.
  all: destruct (Qpos (F_lossfn_weight (train o))) eqn:EF;
    [destruct (HF eq_refl) as (EfF & _)|]; clear HF.
  all: destruct (dist o) eqn:Edist.
  all: run;
    repeat (progress (rewrite ?Hr0, ?EG, ?EF, ?Hd, ?Edist, ?H3, ?Hra, ?H4, ?EfG, ?EfF;
                      run)).
  all: do 2 eexists; split; [reflexivity|]; run.
  all: rewrite ?EfG, ?EfF, <- ?app_assoc; cbn [app fold_left].
  all: repeat split; try reflexivity; try congruence.
Qed.

Lemma optimize_parameters_of_locals step m lc m' :
  optimize_parameters_locals step m = (inl lc, m') ->
  optimize_parameters step m = (inl tt, m').
Proof. intros Hrun. unfold optimize_parameters, bind. now rewrite Hrun. Qed.

Lemma tsum_snoc ts t : tsum (ts ++ [t]) = Add (tsum ts) t.
Proof. unfold tsum. now rewrite fold_left_app. Qed.

Lemma loss_G_total_is_Add m :
  loss_G_total m =
  Add (tsum (pixel_terms m ++ perceptual_terms m)) (adversarial_term m).
Proof. unfold loss_G_total. now rewrite app_assoc, tsum_snoc. Qed.

Lemma example_configured d g wG wF r i :
  fst (define_loss
         (fresh_model {| dist := d; train := example_train g wG wF r i |})) = inl tt ->
  configured (example_model d g wG wF r i).
Proof. intros Hok. eexists. split; [exact Hok|reflexivity]. Defined.

(** ** The generator loss *)

(** C1, as amended.  On a model configured by [define_loss] whose GAN type
    is one the generator phase handles ('gan', 'lsgan', 'wgangp', 'ragan'),
    a call in which the generator update is due returns normally, and the
    loss it backpropagates right before [G_optimizer.step()] is
    [0 + pixel + perceptual + adversarial], where the weighted pixel loss is
    a term exactly when [opt_train['G_lossfn_weight'] > 0], the weighted
    perceptual loss exactly when [opt_train['F_lossfn_weight'] > 0], and
    the adversarial term is [D_lossfn_weight * D_lossfn(netD(E), True)] for
    'gan', 'lsgan' and 'wgangp', and for 'ragan' the relativistic average
    [D_lossfn_weight * (D_lossfn(netD(var_ref).detach() - mean(netD(E)), False)
     + D_lossfn(netD(E) - mean(netD(var_ref).detach()), True)) / 2]. *)
Theorem C1_generator_loss_composition m current_step :
  configured m ->
  str_in (gan_type (opt_train_ m)) G_gan_types = true ->
  G_due m current_step = true ->
  (exists m' later,
     optimize_parameters current_step m = (inl tt, m') /\
     trace m' =
       trace m
       ++ [SetRequiresGrad netD false; ZeroGrad G_optimizer;
           Backward
             (tsum (pixel_terms m ++ perceptual_terms m
                    ++ [if (gan_type (opt_train_ m) =? "ragan")%string
                        then adversarial_ragan m
                        else adversarial_plain m]));
           Step G_optimizer]
       ++ later) /\
  (if Qpos (G_lossfn_weight (opt_train_ m))
   then exists f, pixel_terms m =
          [Mul (Num (G_lossfn_weight_ m)) (Pixel f (generated m) (H m))]
   else pixel_terms m = []) /\
  (if Qpos (F_lossfn_weight (opt_train_ m))
   then exists f, perceptual_terms m =
          [Mul (Num (F_lossfn_weight_ m)) (Perceptual f (generated m) (H m))]
   else perceptual_terms m = []).
Proof.
  intros Hc Hg Hdue.
  destruct (optimize_parameters_run m current_step Hc (G_gan_types_D _ Hg) (fun _ => Hg))
    as (lc & m' & Hrun & Htr & _).
  split; [|split].
  - exists m'. eexists. split.
    + exact (optimize_parameters_of_locals _ _ _ _ Hrun).
    + rewrite Htr. unfold call_events, G_events. rewrite Hdue.
      cbn [app]. reflexivity.
  - destruct (configured_inv m Hc) as (HG & _).
    unfold pixel_terms.
    destruct (Qpos (G_lossfn_weight (opt_train_ m))); [|reflexivity].
    destruct (HG eq_refl) as ((f & ->) & _). now exists f.
  - destruct (configured_inv m Hc) as (_ & HF & _).
    unfold perceptual_terms.
    destruct (Qpos (F_lossfn_weight (opt_train_ m))); [|reflexivity].
    destruct (HF eq_refl) as (-> & _). eexists; reflexivity.
Qed.

(** The theorem at a 'ragan' model with both weights positive, step 1. *)
Lemma C1_generator_loss_composition_witness :
  let m := example_model false "ragan" 1 1 None None in
  exists m' later,
     optimize_parameters 1 m = (inl tt, m') /\
     trace m' =
       trace m
       ++ [SetRequiresGrad netD false; ZeroGrad G_optimizer;
           Backward
             (tsum (pixel_terms m ++ perceptual_terms m ++ [adversarial_ragan m]));
           Step G_optimizer]
       ++ later.
Proof.
  exact (proj1 (C1_generator_loss_composition
                  (example_model false "ragan" 1 1 None None) 1
                  (example_configured false "ragan" 1 1 None None eq_refl)
                  eq_refl eq_refl)).
Defined.

(** C1 as the specification words it fails for 'ragan': in a call in which
    the generator update is due, no loss of the form
    [pixel + perceptual + D_lossfn_weight * D_lossfn(x, b)] is backpropagated,
    whatever the argument [x] and the target [b] of the GAN loss. *)
Lemma C1_ragan_counterexample :
  let m := example_model false "ragan" 1 1 None None in
  configured m /\ G_due m 1 = true /\
  forall x b,
    ~ In (Backward (one_term_loss_G_total m x b))
         (trace (snd (optimize_parameters 1 m))).
Proof.
  split; [|split].
  - apply example_configured. reflexivity.
  - reflexivity.
  - intros x b. vm_compute. intros Hin.
    repeat (destruct Hin as [Hin|Hin]; [discriminate Hin|]). exact Hin.
Qed.

(** ** The order of the updates *)

(** C2, at the input where the code departs from it.  With the GAN type
    'wgansoftplus', which the discriminator phase lists, and
    [D_init_iters = 1]: the call at step 1 updates the discriminator only
    and returns; the call at step 2, where the generator update is due,
    raises [UnboundLocalError] for [D_loss] in the generator phase, so that
    neither [requires_grad] is restored nor [D_optimizer] steps. *)
Theorem C2_wgansoftplus_generator_update_raises :
  let m := example_model false "wgansoftplus" 1 1 None (Some 1) in
  configured m /\
  G_due m 1 = false /\
  (exists m1,
     optimize_parameters 1 m = (inl tt, m1) /\
     trace m1 = trace m ++ call_events m 1 /\
     G_due m1 2 = true /\
     exists m2,
       optimize_parameters 2 m1 = (inr (UnboundLocalError "D_loss"), m2) /\
       trace m2 = trace m1 ++ [SetRequiresGrad netD false; ZeroGrad G_optimizer]).
Proof.
  split; [|split].
  - apply example_configured. reflexivity.
  - reflexivity.
  - eexists. split; [vm_compute; reflexivity|].
    split; [reflexivity|]. split; [reflexivity|].
    eexists. split; [vm_compute; reflexivity|]. reflexivity.
Qed.

(** The same for every configured model: when the generator update is due
    and the GAN type is none the generator phase tests for, the call stops
    in the generator phase, before the discriminator is touched. *)
Lemma generator_update_unknown_gan_type m current_step :
  configured m ->
  str_in (gan_type (opt_train_ m)) G_gan_types = false ->
  G_due m current_step = true ->
  exists m',
    optimize_parameters current_step m = (inr (UnboundLocalError "D_loss"), m') /\
    trace m' = trace m ++ [SetRequiresGrad netD false; ZeroGrad G_optimizer].
Proof.
  intros Hc Hg Hdue.
  destruct (configured_inv m Hc) as (HG & HF & _).
  assert (Hr0 : (D_update_ratio_ m =? 0) = false).
  { apply Z.eqb_neq. now apply configured_ratio_nonzero. }
  clear Hc. unfold G_due, opt_train_ in *.
  destruct m as [o gl glw fl flw dl dlw dr di sch l h vr e ld tr].
  cbn [opt G_lossfn G_lossfn_weight_ F_lossfn F_lossfn_weight_ D_lossfn
       D_lossfn_weight_ D_update_ratio_ D_init_iters_ schedulers L H var_ref E
       log_dict trace] in *.
  unfold str_in, G_gan_types in Hg. cbn [existsb] in Hg.
  destruct (gan_type (train o) =? "gan")%string eqn:E1; [discriminate|].
  destruct (gan_type (train o) =? "lsgan")%string eqn:E2; [discriminate|].
  destruct (gan_type (train o) =? "wgangp")%string eqn:E3; [discriminate|].
  destruct (gan_type (train o) =? "ragan")%string eqn:E4; [discriminate|].
  destruct (Qpos (G_lossfn_weight (train o))) eqn:EG;
    [destruct (HG eq_refl) as ((fG & EfG) & _)|]; clear HG.
  all: destruct (Qpos (F_lossfn_weight (train o))) eqn:EF;
    [destruct (HF eq_refl) as (EfF & _)|]; clear HF.
  all: run;
    repeat (progress (rewrite ?Hr0, ?EG, ?EF, ?Hdue, ?E1, ?E2, ?E3, ?E4, ?EfG, ?EfF;
                      run)).
  all: eexists; split; [reflexivity|]; run.
  all: rewrite <- ?app_assoc; reflexivity.
Qed.

(** For the GAN types the generator phase handles, every call does what C2
    says: the flags of [netD] are cleared, the generator steps exactly when
    its update is due, the flags are set again, and the discriminator
    steps last. *)
Lemma optimize_parameters_alternates m current_step :
  configured m ->
  str_in (gan_type (opt_train_ m)) G_gan_types = true ->
  exists m' G_backward D_backward,
    optimize_parameters current_step m = (inl tt, m') /\
    trace m' =
      trace m
      ++ [SetRequiresGrad netD false; ZeroGrad G_optimizer]
      ++ (if G_due m current_step then [Backward G_backward; Step G_optimizer] else [])
      ++ [SetRequiresGrad netD true; ZeroGrad D_optimizer]
      ++ map Backward D_backward
      ++ [Step D_optimizer] /\
    configured m'.
Proof.
  intros Hc Hg.
  destruct (optimize_parameters_run m current_step Hc (G_gan_types_D _ Hg) (fun _ => Hg))
    as (lc & m' & Hrun & Htr & Hattr & _).
  exists m', (loss_G_total m).
  exists (match D_backwards m with
          | [Backward a] => [a]
          | [Backward a; Backward b] => [a; b]
          | _ => []
          end).
  split; [exact (optimize_parameters_of_locals _ _ _ _ Hrun)|].
  split.
  - rewrite Htr. unfold call_events, G_events, D_backwards.
    destruct (G_due m current_step), (dist (opt m)),
      (gan_type (opt_train_ m) =? "ragan")%string; reflexivity.
  - destruct Hc as (m0 & Hok & Hm0). exists m0. split; [exact Hok|].
    now rewrite Hattr.
Qed.

(** ** The schedulers *)

(** C5.  [define_scheduler] appends exactly two [MultiStepLR] schedulers to
    [self.schedulers]: first the one on [G_optimizer] with the milestones
    and gamma of the G options, then the one on [D_optimizer] with those of
    the D options; it never raises and touches nothing else. *)
Theorem C5_define_scheduler_appends_two m :
  exists m',
    define_scheduler m = (inl tt, m') /\
    schedulers m' =
      schedulers m
      ++ [ {| sched_optimizer := G_optimizer;
              milestones := G_scheduler_milestones (opt_train_ m);
              gamma := G_scheduler_gamma (opt_train_ m) |};
           {| sched_optimizer := D_optimizer;
              milestones := D_scheduler_milestones (opt_train_ m);
              gamma := D_scheduler_gamma (opt_train_ m) |} ] /\
    List.length (schedulers m') = (List.length (schedulers m) + 2)%nat /\
    trace m' = trace m /\
    loss_attributes m' = loss_attributes m.
Proof.
  eexists. split; [reflexivity|]. cbn.
  rewrite <- app_assoc. cbn [app].
  repeat split. rewrite length_app. reflexivity.
Qed.

(** ** The discriminator phase of 'ragan' under [opt['dist']] *)

(** C9.  On a configured model with [opt['dist']] true and GAN type
    'ragan', a call returns normally; both [l_d_real] and [l_d_fake] are
    computed; the discriminator phase is [requires_grad = True],
    [D_optimizer.zero_grad()], [l_d_fake.backward()], [D_optimizer.step()];
    and [backward] is called on [l_d_real] nowhere in the call. *)
Theorem C9_ragan_dist_backward_fake_only m current_step :
  configured m ->
  dist (opt m) = true ->
  gan_type (opt_train_ m) = "ragan" ->
  exists lc m' events,
    optimize_parameters_locals current_step m = (inl lc, m') /\
    optimize_parameters current_step m = (inl tt, m') /\
    l_d_real lc = Some (ragan_dist_l_d_real m) /\
    l_d_fake lc = Some (ragan_dist_l_d_fake m) /\
    trace m' = trace m ++ events /\
    events =
      ([SetRequiresGrad netD false; ZeroGrad G_optimizer]
       ++ G_events m current_step)
      ++ [SetRequiresGrad netD true; ZeroGrad D_optimizer;
          Backward (ragan_dist_l_d_fake m); Step D_optimizer] /\
    ~ In (Backward (ragan_dist_l_d_real m)) events.
Proof.
  intros Hc Hdist Hgan.
  assert (Hra : (gan_type (opt_train_ m) =? "ragan")%string = true)
    by (rewrite Hgan; reflexivity).
  assert (HG : str_in (gan_type (opt_train_ m)) G_gan_types = true)
    by (rewrite Hgan; reflexivity).
  destruct (optimize_parameters_run m current_step Hc (G_gan_types_D _ HG) (fun _ => HG))
    as (lc & m' & Hrun & Htr & _ & _ & _ & Hl).
  destruct (Hl Hdist Hra) as (Hreal & Hfake).
  exists lc, m'. eexists.
  split; [exact Hrun|].
  split; [exact (optimize_parameters_of_locals _ _ _ _ Hrun)|].
  split; [exact Hreal|]. split; [exact Hfake|].
  split; [exact Htr|].
  unfold call_events, D_backwards. rewrite Hdist, Hra.
  split; [now rewrite <- app_assoc|].
  unfold G_events. rewrite loss_G_total_is_Add.
  unfold ragan_dist_l_d_real, ragan_dist_l_d_fake.
  destruct (G_due m current_step); cbn [app In]; intuition congruence.
Qed.

(** The theorem at a distributed 'ragan' model, step 1. *)
Lemma C9_ragan_dist_backward_fake_only_witness :
  let m := example_model true "ragan" 1 1 None None in
  exists lc m' events,
    optimize_parameters_locals 1 m = (inl lc, m') /\
    optimize_parameters 1 m = (inl tt, m') /\
    l_d_real lc = Some (ragan_dist_l_d_real m) /\
    l_d_fake lc = Some (ragan_dist_l_d_fake m) /\
    trace m' = trace m ++ events /\
    events =
      ([SetRequiresGrad netD false; ZeroGrad G_optimizer] ++ G_events m 1)
      ++ [SetRequiresGrad netD true; ZeroGrad D_optimizer;
          Backward (ragan_dist_l_d_fake m); Step D_optimizer] /\
    ~ In (Backward (ragan_dist_l_d_real m)) events.
Proof.
  exact (C9_ragan_dist_backward_fake_only
           (example_model true "ragan" 1 1 None None) 1
           (example_configured true "ragan" 1 1 None None eq_refl)
           eq_refl eq_refl).
Defined.

(** ** The pixel loss of [define_loss] *)

(** X22.  The outcome of the pixel-loss block by the kind of value found
    under ['G_lossfn_type'], for a positive weight and a value that is none
    of the four known types: a string is reported by [NotImplementedError],
    which names it; for any other value the formatting of the message fails
    first, with [TypeError] ([None], a list, a dictionary) or [ValueError]
    (a number).  In both cases [self] is left as it was.  With a weight
    that is not positive the type is not looked at: [define_loss] returns
    with [G_lossfn] set to [None]. *)
Theorem define_loss_pixel_type m :
  (Qpos (G_lossfn_weight (opt_train_ m)) = true ->
   forall s,
     G_lossfn_type (opt_train_ m) = PyStr s ->
     str_in s ["l1"; "l2"; "l2sum"; "ssim"] = false ->
     define_loss m =
       (inr (NotImplementedError ("Loss type [" ++ s ++ "] is not found.")%string),
        m)) /\
  (Qpos (G_lossfn_weight (opt_train_ m)) = true ->
   (forall s, G_lossfn_type (opt_train_ m) <> PyStr s) ->
   exists msg,
     define_loss m =
       (inr (match G_lossfn_type (opt_train_ m) with
             | PyBool _ | PyInt _ | PyFloat _ => ValueError msg
             | _ => TypeError msg
             end), m)) /\
  (Qpos (G_lossfn_weight (opt_train_ m)) = false ->
   exists m', define_loss m = (inl tt, m') /\ G_lossfn m' = None).
Proof.
  unfold define_loss, define_loss_G, define_loss_F, define_loss_D, opt_train_.
  unfold bind, get, ret, raise, emit, modify, set_G_lossfn, set_G_lossfn_weight,
    set_F_lossfn, set_F_lossfn_weight, set_D_loss, format_s.
  split; [|split].
  - intros Hw s Hs Hty. unfold str_in in Hty. cbn [existsb] in Hty.
    rewrite Hw, Hs. cbn [py_eq_str].
    destruct (s =? "l1")%string; [discriminate|].
    destruct (s =? "l2")%string; [discriminate|].
    destruct (s =? "l2sum")%string; [discriminate|].
    destruct (s =? "ssim")%string; [discriminate|].
    reflexivity.
  - intros Hw Hns. rewrite Hw.
    destruct (G_lossfn_type (train (opt m))) as [|b|z|q|s|l|d];
      cbn [py_eq_str]; try (eexists; reflexivity).
    now destruct (Hns s).
  - intros Hw. rewrite Hw. cbn.
    destruct (Qpos (F_lossfn_weight (train (opt m)))); cbn;
      eexists; split; reflexivity.
Qed.

(** C10, at the input where the code departs from it.  With the key
    ['G_lossfn_type'] unset, so that it reads as [None], and the weight 1,
    the type is none of 'l1', 'l2', 'l2sum', 'ssim' and [define_loss]
    reaches line 85, which means to raise [NotImplementedError]; building
    its message with ['{:s}'.format(None)] raises [TypeError] instead. *)
Theorem C10_unset_pixel_type_raises_TypeError :
  Qpos (G_lossfn_weight (opt_train_ (pixel_model PyNone 1))) = true /\
  (forall s, In s ["l1"; "l2"; "l2sum"; "ssim"] ->
             py_eq_str (G_lossfn_type (opt_train_ (pixel_model PyNone 1))) s = false) /\
  define_loss (pixel_model PyNone 1) =
    (inr (TypeError "unsupported format string passed to NoneType.__format__"),
     pixel_model PyNone 1).
Proof. repeat split. Qed.

(** X22 at a string that names no loss, at a number, and at weight 0. *)
Lemma define_loss_pixel_type_witness :
  define_loss (pixel_model (PyStr "charbonnier") 1) =
    (inr (NotImplementedError "Loss type [charbonnier] is not found."),
     pixel_model (PyStr "charbonnier") 1) /\
  (exists msg,
     define_loss (pixel_model (PyInt 1) 1) =
       (inr (ValueError msg), pixel_model (PyInt 1) 1)) /\
  exists m', define_loss (pixel_model PyNone 0) = (inl tt, m') /\
             G_lossfn m' = None.
Proof.
  split; [|split].
  - exact (proj1 (define_loss_pixel_type (pixel_model (PyStr "charbonnier") 1))
                 eq_refl "charbonnier" eq_refl eq_refl).
  - exact (proj1 (proj2 (define_loss_pixel_type (pixel_model (PyInt 1) 1)))
                 eq_refl ltac:(discriminate)).
  - exact (proj2 (proj2 (define_loss_pixel_type (pixel_model PyNone 0))) eq_refl).
Defined.

End ModelGAN_Theorems.

(** * Properties of Trainer *)

Module Trainer_Theorems.

Import Trainer.

Section WithCollaborators.

Context {C : Collaborators}.

Ltac trun :=
  cbv beta iota zeta delta
    [test_image test_scale test terminate train_batch scheduler_step
     prepare _prepare enumerate index_or_raise len_loader_test
     emit set_params set_grads set_optimizer set_last_epoch set_loss
     set_error_last set_ckp_log set_idx_scale
     bind get ret raise modify py_mod fst snd fixed_part
     params grads optimizer last_epoch loss error_last ckp_log idx_scale trace
     List.length seq combine map nth_error].

Ltac tstep :=
  cbv beta iota zeta delta
    [index_or_raise emit set_params set_grads set_optimizer set_last_epoch
     set_loss set_error_last set_ckp_log set_idx_scale
     bind get ret raise modify py_mod fst snd
     params grads optimizer last_epoch loss error_last ckp_log idx_scale trace].

Lemma no_save_app a b : no_save a -> no_save b -> no_save (a ++ b).
Proof. intros Ha Hb e Hin. apply in_app_or in Hin. destruct Hin; auto. Qed.

Lemma test_image_run cfg i s acc it t :
  exists t' evs,
    test_image cfg i s acc it t =
      (inl (fold_left fadd (image_psnr cfg (params t) i s it) acc), t') /\
    fixed_part t' = fixed_part t /\
    ckp_log t' = ckp_log t /\
    idx_scale t' = idx_scale t /\
    trace t' = trace t ++ evs /\
    no_save evs.
Proof.
  destruct t as [p g o le lm el log ix tr].
  unfold image_psnr. trun.
  destruct (te_hr it) as [hr|]; trun;
    destruct (save_results (cargs cfg)); trun;
    try destruct (test_only (cargs cfg)); trun.
  all: do 2 eexists; split; [reflexivity|]; trun.
  all: repeat split; try reflexivity.
  all: try (symmetry; apply app_nil_r).
  all: intros e Hin; cbn in Hin; intuition (subst; reflexivity).
Qed.


Lemma fixed_part_params (t t' : trainer) :
  fixed_part t' = fixed_part t -> params t' = params t.
Proof. unfold fixed_part. congruence. Qed.

Lemma test_images_run cfg i s items :
  forall acc t,
  exists t' evs,
    for_each_acc items (test_image cfg i s) acc t =
      (inl (fold_left fadd (flat_map (image_psnr cfg (params t) i s) items) acc), t') /\
    fixed_part t' = fixed_part t /\
    ckp_log t' = ckp_log t /\
    idx_scale t' = idx_scale t /\
    trace t' = trace t ++ evs /\
    no_save evs.
Proof.
  induction items as [|it items IH]; intros acc t.
  - exists t, []. cbn. rewrite app_nil_r. repeat split. intros e [].
  - destruct (test_image_run cfg i s acc it t)
      as (t1 & ev1 & Hrun & Hfix & Hlog & Hix & Htr & Hns).
    destruct (IH (fold_left fadd (image_psnr cfg (params t) i s it) acc) t1)
      as (t2 & ev2 & Hrun2 & Hfix2 & Hlog2 & Hix2 & Htr2 & Hns2).
    exists t2, (ev1 ++ ev2).
    cbn [for_each_acc flat_map]. unfold bind at 1. rewrite Hrun, Hrun2.
    rewrite fold_left_app, (fixed_part_params _ _ Hfix).
    repeat split; try congruence.
    + now rewrite Htr2, Htr, app_assoc.
    + now apply no_save_app.
Qed.

Lemma list_set_spec {A} (row : list A) i v :
  (i < List.length row)%nat ->
  exists row',
    list_set row i v = Some row' /\
    List.length row' = List.length row /\
    nth_error row' i = Some v /\
    forall j, j <> i -> nth_error row' j = nth_error row j.
Proof.
  revert i. induction row as [|x row IH]; intros i Hi; cbn in Hi; [lia|].
  destruct i as [|i].
  - exists (v :: row). cbn. repeat split. intros [|j] Hj; [congruence|reflexivity].
  - destruct (IH i ltac:(lia)) as (row' & Hset & Hlen & Hget & Hother).
    exists (x :: row'). cbn. rewrite Hset. cbn. repeat split; auto.
    intros [|j] Hj; [reflexivity|]. cbn. apply Hother. congruence.
Qed.

Lemma log_set_last_snoc {A} (base : list (list A)) row i v :
  log_set_last (base ++ [row]) i v =
  option_map (fun row' => base ++ [row']) (list_set row i v).
Proof.
  unfold log_set_last. rewrite rev_app_distr. cbn. now rewrite rev_involutive.
Qed.

Lemma log_get_last_snoc {A} (base : list (list A)) row i :
  log_get_last (base ++ [row]) i = nth_error row i.
Proof. unfold log_get_last. rewrite rev_app_distr. reflexivity. Qed.

(** *** The log tensor *)


(** On a log whose rows are as wide as the new line, [add_log] appends it. *)
Lemma add_log_run row t :
  rows_of_width (List.length row) (ckp_log t) = true ->
  add_log row t =
    (inl tt,
     {| params := params t; grads := grads t; optimizer := optimizer t;
        last_epoch := last_epoch t; loss := loss t; error_last := error_last t;
        ckp_log := ckp_log t ++ [row]; idx_scale := idx_scale t;
        trace := trace t |}).
Proof.
  destruct t as [p g o le lm el log ix tr]. cbn [ckp_log].
  unfold add_log. tstep.
  destruct log as [|r log]; [reflexivity|].
  cbn [rows_of_width forallb]. intros H. apply andb_prop in H as [-> _].
  reflexivity.
Qed.

(** On a log with a row of another width, [add_log] raises and changes
    nothing. *)
Lemma add_log_refuses row t r rest :
  ckp_log t = r :: rest ->
  List.length r <> List.length row ->
  add_log row t =
    (inr (RuntimeError "Sizes of tensors must match except in dimension 0"), t).
Proof.
  destruct t as [p g o le lm el log ix tr]. cbn [ckp_log]. intros -> Hne.
  unfold add_log. tstep.
  apply Nat.eqb_neq in Hne. rewrite Hne. reflexivity.
Qed.

Lemma nth_error_combine_seq {A} (l : list A) :
  forall k j x,
    nth_error l j = Some x ->
    nth_error (combine (seq k (List.length l)) l) j = Some ((k + j)%nat, x).
Proof.
  induction l as [|y l IH]; intros k [|j] x Hx; try discriminate Hx; cbn in *.
  - injection Hx as ->. now rewrite Nat.add_0_r.
  - rewrite (IH (S k) j x Hx). f_equal. f_equal. lia.
Qed.

(** Entry [j] of [log.max(0)]: the scan of column [j] from its first row. *)
Lemma log_max0_nth r0 rest j x0 :
  nth_error r0 j = Some x0 ->
  nth_error (log_max0 (r0 :: rest)) j = Some (max_from (column rest j) 1 x0 0).
Proof.
  intros Hx. unfold log_max0, enumerate.
  now rewrite (map_nth_error _ _ _ (nth_error_combine_seq r0 0 j x0 Hx)).
Qed.

Lemma nth_error_in_range {A} (l : list A) j :
  (j < List.length l)%nat -> exists x, nth_error l j = Some x.
Proof.
  intros Hj. destruct (nth_error l j) as [x|] eqn:Hx; [now exists x|].
  apply nth_error_None in Hx. lia.
Qed.

(** On a tensor of [n] columns, [log.max(0)] has an entry for each. *)
Lemma log_max0_in_range n base (row : list pyfloat) j :
  rows_of_width n base = true ->
  List.length row = n ->
  (j < n)%nat ->
  exists b, nth_error (log_max0 (base ++ [row])) j = Some b.
Proof.
  intros Hbase Hrow Hj. destruct base as [|r0 base]; cbn [app].
  - destruct (nth_error_in_range row j ltac:(lia)) as (x0 & Hx).
    eexists. apply log_max0_nth. exact Hx.
  - cbn [rows_of_width forallb] in Hbase. apply andb_prop in Hbase as [Hr0 _].
    apply Nat.eqb_eq in Hr0.
    destruct (nth_error_in_range r0 j ltac:(lia)) as (x0 & Hx).
    eexists. apply log_max0_nth. exact Hx.
Qed.

Lemma ordered_on_incl xs ys :
  incl xs ys -> ordered_on ys -> ordered_on xs.
Proof.
  intros Hincl (Hirr & Htr & Hneg). repeat split.
  - intros x Hx. apply Hirr. now apply Hincl.
  - intros x y z Hx Hy Hz. apply Htr; now apply Hincl.
  - intros x y z Hx Hy Hz. apply Hneg; now apply Hincl.
Qed.




(** *** One scale, all scales, the whole evaluation *)

Lemma test_scale_run cfg best i s t base row :
  ckp_log t = base ++ [row] ->
  rows_of_width (List.length row) base = true ->
  (i < List.length row)%nat ->
  loader_test cfg i <> [] ->
  exists t' row' evs,
    test_scale cfg best (i, s) t = (inl (Some (log_max0 (base ++ [row']))), t') /\
    fixed_part t' = fixed_part t /\
    ckp_log t' = base ++ [row'] /\
    idx_scale t' = i /\
    List.length row' = List.length row /\
    nth_error row' i = Some (float32 (mean_psnr cfg (params t) i s)) /\
    (forall j, j <> i -> nth_error row' j = nth_error row j) /\
    trace t' = trace t ++ evs /\
    no_save evs.
Proof.
  intros Hlog Hbase Hi Hne.
  destruct (list_set_spec row i (float32 (mean_psnr cfg (params t) i s)) Hi)
    as (row' & Hset & Hlen & Hget & Hother).
  destruct (log_max0_in_range (List.length row) base row' i Hbase Hlen Hi)
    as (b & Hb).
  destruct t as [p g o le lm el log ix tr]. cbn [ckp_log] in Hlog. subst log.
  destruct (test_images_run cfg i s (loader_test cfg i) (F_of_Z 0)
              {| params := p; grads := g; optimizer := o; last_epoch := le;
                 loss := lm; error_last := el; ckp_log := base ++ [row];
                 idx_scale := i; trace := tr ++ [SetScale i] |})
    as (t1 & ev1 & Hrun & Hfix & Hlog1 & Hix1 & Htr1 & Hns1).
  destruct t1 as [p1 g1 o1 le1 lm1 el1 log1 ix1 tr1].
  cbn [params ckp_log idx_scale trace] in *.
  unfold fixed_part in Hfix. cbn [params grads optimizer last_epoch loss error_last] in Hfix.
  injection Hfix as -> -> -> -> -> ->. subst log1 ix1 tr1.
  unfold test_scale.
  tstep.
  rewrite Hrun.
  unfold len_loader_test. tstep.
  destruct (Nat.eqb_spec (List.length (loader_test cfg i)) 0) as [H0|_].
  { destruct (loader_test cfg i); [congruence|discriminate]. }
  fold (test_psnrs cfg p i s). fold (fsum (test_psnrs cfg p i s)).
  fold (mean_psnr cfg p i s).
  rewrite log_set_last_snoc, Hset. cbn [option_map].
  rewrite log_get_last_snoc, Hget, Hb.
  do 3 eexists. split; [reflexivity|].
  cbn [params grads optimizer last_epoch loss error_last ckp_log idx_scale trace].
  split; [reflexivity|]. split; [reflexivity|]. split; [reflexivity|].
  split; [exact Hlen|]. split; [exact Hget|]. split; [exact Hother|].
  split.
  - rewrite <- !app_assoc. reflexivity.
  - apply no_save_app; [intros e [<-|[]]; reflexivity|].
    apply no_save_app; [exact Hns1|intros e [<-|[]]; reflexivity].
Qed.

Lemma test_scales_run cfg ss :
  forall k best t base row,
  ckp_log t = base ++ [row] ->
  rows_of_width (List.length row) base = true ->
  (k + List.length ss <= List.length row)%nat ->
  (forall i, (k <= i < k + List.length ss)%nat -> loader_test cfg i <> []) ->
  exists t' row' evs,
    for_each_acc (combine (seq k (List.length ss)) ss) (test_scale cfg) best t =
      (inl (match ss with
            | [] => best
            | _ => Some (log_max0 (base ++ [row']))
            end), t') /\
    fixed_part t' = fixed_part t /\
    ckp_log t' = base ++ [row'] /\
    idx_scale t' = match ss with
                   | [] => idx_scale t
                   | _ => (k + List.length ss - 1)%nat
                   end /\
    List.length row' = List.length row /\
    (forall j, (j < k)%nat -> nth_error row' j = nth_error row j) /\
    (forall j s, nth_error ss j = Some s ->
       nth_error row' (k + j) =
         Some (float32 (mean_psnr cfg (params t) (k + j) s))) /\
    trace t' = trace t ++ evs /\
    no_save evs.
Proof.
  induction ss as [|s ss IH]; intros k best t base row Hlog Hbase Hk Hne.
  - exists t, row, []. cbn. rewrite app_nil_r.
    repeat split; auto.
    + intros [|j] s' Hj; discriminate Hj.
    + intros e [].
  - cbn [List.length] in Hk, Hne.
    destruct (test_scale_run cfg best k s t base row Hlog Hbase ltac:(lia)
                (Hne k ltac:(lia)))
      as (t1 & row1 & ev1 & Hrun1 & Hfix1 & Hlog1 & Hix1 & Hlen1 & Hget1
          & Hother1 & Htr1 & Hns1).
    destruct (IH (S k) (Some (log_max0 (base ++ [row1]))) t1 base row1 Hlog1
                ltac:(rewrite Hlen1; exact Hbase)
                ltac:(lia) ltac:(intros i Hi; apply Hne; lia))
      as (t2 & row2 & ev2 & Hrun2 & Hfix2 & Hlog2 & Hix2 & Hlen2 & Hlow2
          & Hget2 & Htr2 & Hns2).
    exists t2, row2, (ev1 ++ ev2).
    cbn [List.length seq combine for_each_acc]. unfold bind at 1.
    rewrite Hrun1, Hrun2.
    split.
    { destruct ss as [|s' ss]; [|reflexivity].
      cbn in Hrun2. injection Hrun2 as <-.
      rewrite Hlog1 in Hlog2. apply app_inj_tail in Hlog2 as [_ <-]. reflexivity. }
    split; [congruence|]. split; [exact Hlog2|].
    split.
    { rewrite Hix2. destruct ss as [|s' ss]; cbn [List.length]; [rewrite Hix1|]; lia. }
    split; [congruence|].
    split.
    { intros j Hj. rewrite Hlow2 by lia. apply Hother1. lia. }
    split.
    { intros [|j] s' Hj.
      - cbn in Hj. injection Hj as <-. rewrite Nat.add_0_r.
        rewrite Hlow2 by lia. exact Hget1.
      - cbn in Hj. replace (k + S j)%nat with (S k + j)%nat by lia.
        rewrite (Hget2 j s' Hj). now rewrite (fixed_part_params _ _ Hfix1). }
    split.
    { now rewrite Htr2, Htr1, app_assoc. }
    now apply no_save_app.
Qed.

(** What [test] does when [ckp.log] has one column per scale, every test
    loader has items and there is a scale to test. *)
Lemma test_spec cfg t :
  (forall i, (i < List.length (scale (cargs cfg)))%nat -> loader_test cfg i <> []) ->
  scale (cargs cfg) <> [] ->
  rows_of_width (List.length (scale (cargs cfg))) (ckp_log t) = true ->
  exists t' row evs b,
    test cfg t = (inl tt, t') /\
    fixed_part t' = fixed_part t /\
    ckp_log t' = ckp_log t ++ [row] /\
    List.length row = List.length (scale (cargs cfg)) /\
    (forall j s, nth_error (scale (cargs cfg)) j = Some s ->
       nth_error row j = Some (float32 (mean_psnr cfg (params t) j s))) /\
    nth_error (log_max0 (ckp_log t')) 0 = Some b /\
    trace t' =
      trace t ++ evs
      ++ (if test_only (cargs cfg) then []
          else [Save (last_epoch t + 1)
                     (Z.of_nat (snd b) + 1 =? last_epoch t + 1)]) /\
    no_save evs.
Proof.
  intros Hne Hsc Hshape.
  destruct t as [p g o le lm el log ix tr]. cbn [ckp_log] in Hshape.
  pose (zeros := repeat (F_of_Z 0) (List.length (scale (cargs cfg)))).
  assert (Hzeros : List.length zeros = List.length (scale (cargs cfg)))
    by apply repeat_length.
  pose (t0 := {| params := p; grads := g; optimizer := o; last_epoch := le;
                 loss := lm; error_last := el;
                 ckp_log := log ++ [zeros];
                 idx_scale := ix;
                 trace := (tr ++ [WriteLog MsgEvaluation]) ++ [ModelEval] |}).
  destruct (test_scales_run cfg (scale (cargs cfg)) 0 None t0 log zeros eq_refl
              ltac:(rewrite Hzeros; exact Hshape)
              ltac:(rewrite Hzeros; cbn; lia)
              ltac:(intros i Hi; apply Hne; cbn in Hi; lia))
    as (t1 & row1 & ev1 & Hrun & Hfix & Hlog & Hix & Hlen & _ & Hget & Htr & Hns).
  rewrite Hzeros in Hlen.
  assert (Hpos : (0 < List.length (scale (cargs cfg)))%nat).
  { destruct (scale (cargs cfg)); [congruence|cbn; lia]. }
  destruct (log_max0_in_range _ log row1 0%nat Hshape Hlen Hpos) as (b & Hb).
  destruct t1 as [p1 g1 o1 le1 lm1 el1 log1 ix1 tr1].
  subst t0. unfold fixed_part in Hfix.
  cbn [params grads optimizer last_epoch loss error_last ckp_log idx_scale trace] in *.
  injection Hfix as -> -> -> -> -> ->. subst log1 tr1.
  unfold test, enumerate.
  tstep.
  rewrite add_log_run by (cbn [ckp_log]; fold zeros; rewrite Hzeros; exact Hshape).
  tstep. fold zeros.
  rewrite Hrun.
  unfold len_loader_test. tstep.
  destruct (scale (cargs cfg)) as [|s0 ss] eqn:Hscale; [congruence|].
  assert (Hlast : loader_test cfg ix1 <> []).
  { apply Hne. rewrite Hix. cbn [List.length]. lia. }
  destruct (Nat.eqb_spec (List.length (loader_test cfg ix1)) 0) as [H0|_].
  { destruct (loader_test cfg ix1); [congruence|discriminate]. }
  destruct (test_only (cargs cfg)); cbn [negb].
  - eexists. exists row1, ([WriteLog MsgEvaluation; ModelEval] ++ ev1 ++ [WriteLog MsgTotalTime]), b.
    split; [reflexivity|].
    cbn [params grads optimizer last_epoch loss error_last ckp_log idx_scale trace].
    split; [reflexivity|]. split; [reflexivity|]. split; [exact Hlen|].
    split; [exact Hget|]. split; [exact Hb|].
    split; [rewrite app_nil_r, <- !app_assoc; reflexivity|].
    repeat apply no_save_app; try exact Hns; intros e Hin; cbn in Hin;
      intuition (subst; reflexivity).
  - rewrite Hb. tstep.
    eexists. exists row1, ([WriteLog MsgEvaluation; ModelEval] ++ ev1 ++ [WriteLog MsgTotalTime]), b.
    split; [reflexivity|].
    cbn [params grads optimizer last_epoch loss error_last ckp_log idx_scale trace].
    split; [reflexivity|]. split; [reflexivity|]. split; [exact Hlen|].
    split; [exact Hget|]. split; [exact Hb|].
    split; [rewrite <- !app_assoc; reflexivity|].
    repeat apply no_save_app; try exact Hns; intros e Hin; cbn in Hin;
      intuition (subst; reflexivity).
Qed.


(** ** The logged PSNR *)

(** C3, as amended.  When [ckp.log] has one column per scale and every test
    loader has at least one item, [test] completes (given a scale to test)
    and, for every scale index, the value it leaves in
    [ckp.log[-1, idx_scale]] is the single-precision rounding, made by the
    float tensor that takes it, of: the sum of the PSNR values of the images
    that have a ground truth, each computed by [calc_psnr] on the quantized
    output of the model, divided by the number of items of the test loader
    ([len(self.loader_test)], images without ground truth included). *)
Theorem C3_logged_psnr_is_mean cfg t :
  rows_of_width (List.length (scale (cargs cfg))) (ckp_log t) = true ->
  (forall i, (i < List.length (scale (cargs cfg)))%nat -> loader_test cfg i <> []) ->
  (scale (cargs cfg) <> [] -> fst (test cfg t) = inl tt) /\
  forall idx_scale_ scale_,
    nth_error (scale (cargs cfg)) idx_scale_ = Some scale_ ->
    log_get_last (ckp_log (snd (test cfg t))) idx_scale_ =
      Some (float32
              (fdiv (fsum (test_psnrs cfg (params t) idx_scale_ scale_))
                    (F_of_Z (Z.of_nat (List.length (loader_test cfg idx_scale_)))))).
Proof.
  intros Hshape Hne.
  destruct (scale (cargs cfg)) as [|s0 ss] eqn:Hscale.
  - split; [congruence|]. intros [|j] s Hj; discriminate Hj.
  - assert (Hsc : scale (cargs cfg) <> []) by (rewrite Hscale; discriminate).
    rewrite <- Hscale in *.
    destruct (test_spec cfg t Hne Hsc Hshape)
      as (t' & row & evs & b & Hrun & _ & Hlog & _ & Hget & _).
    rewrite Hrun. split; [reflexivity|].
    intros j s Hj. cbn [snd]. rewrite Hlog, log_get_last_snoc.
    exact (Hget j s Hj).
Qed.

(** ** The checkpoint *)


Lemma scheduler_steps_run n :
  forall a t,
  exists t',
    for_each (seq a n) (fun _ => scheduler_step) t = (inl tt, t') /\
    last_epoch t' = last_epoch t + Z.of_nat n /\
    optimizer t' = advance n (last_epoch t) (optimizer t) /\
    trace t' = trace t ++ repeat SchedulerStep n /\
    (params t', grads t', loss t', error_last t', ckp_log t', idx_scale t') =
    (params t, grads t, loss t, error_last t, ckp_log t, idx_scale t).
Proof.
  induction n as [|n IH]; intros a t.
  - exists t. cbn. rewrite Z.add_0_r, app_nil_r. repeat split.
  - destruct t as [p g o le lm el log ix tr].
    cbn [seq for_each]. unfold bind at 1, scheduler_step at 1.
    tstep.
    match goal with
    | |- context [for_each _ _ ?t1] => destruct (IH (S a) t1) as (t' & Hrun & Hle & Ho & Htr & Hrest)
    end.
    exists t'. rewrite Hrun. destruct t' as [p' g' o' le' lm' el' log' ix' tr'].
    tstep.
    cbn [params grads optimizer last_epoch loss error_last ckp_log idx_scale trace] in *.
    split; [reflexivity|]. split; [lia|]. split; [exact Ho|].
    split; [|exact Hrest].
    rewrite Htr, <- app_assoc. reflexivity.
Qed.

(** ** Resuming *)

(** C6.  When [args.load != '.'], the constructor loads the optimiser state
    from [os.path.join(ckp.dir, 'optimizer.pt')] and then steps the
    scheduler exactly [len(ckp.log)] times, which moves [last_epoch] forward
    by the number of logged epochs; it ends with [error_last = 1e8]. *)
Theorem C6_init_resumes cfg my_model my_loss ckp t :
  load (cargs cfg) <> "." ->
  let path := os_path_join (ckp_dir cfg) "optimizer.pt" in
  let fresh := make_scheduler (make_optimizer my_model) in
  exists t',
    __init__ cfg my_model my_loss ckp t = (inl tt, t') /\
    trace t' =
      trace t ++ LoadStateDict path :: repeat SchedulerStep (List.length ckp) /\
    last_epoch t' = snd fresh + Z.of_nat (List.length ckp) /\
    optimizer t' =
      advance (List.length ckp) (snd fresh) (load_state_dict (fst fresh) path) /\
    error_last t' = F_of_Z 100000000.
Proof.
  intros Hload path fresh.
  apply String.eqb_neq in Hload.
  destruct t as [p g o le lm el log ix tr].
  unfold __init__. fold fresh. destruct fresh as [o0 e0] eqn:Hfresh.
  rewrite Hload. cbn [negb].
  tstep.
  fold path.
  match goal with
  | |- context [for_each _ _ ?t1] =>
      destruct (scheduler_steps_run (List.length ckp) 0%nat t1)
        as (t' & Hrun & Hle & Ho & Htr & Hrest)
  end.
  rewrite Hrun. destruct t' as [p' g' o' le' lm' el' log' ix' tr'].
  cbn [params grads optimizer last_epoch loss error_last ckp_log idx_scale trace fst snd] in *.
  eexists. split; [reflexivity|].
  cbn [params grads optimizer last_epoch loss error_last ckp_log idx_scale trace].
  split; [rewrite Htr, <- app_assoc; reflexivity|].
  split; [exact Hle|]. split; [exact Ho|]. reflexivity.
Qed.

(** With [args.test_only], [test] never calls [ckp.save]. *)
Lemma test_only_never_saves cfg t :
  test_only (cargs cfg) = true ->
  scale (cargs cfg) <> [] ->
  (forall i, (i < List.length (scale (cargs cfg)))%nat -> loader_test cfg i <> []) ->
  rows_of_width (List.length (scale (cargs cfg))) (ckp_log t) = true ->
  exists t' evs,
    test cfg t = (inl tt, t') /\
    trace t' = trace t ++ evs /\
    no_save evs.
Proof.
  intros Hto Hsc Hne Hshape.
  destruct (test_spec cfg t Hne Hsc Hshape)
    as (t' & row & evs & b & Hrun & _ & _ & _ & _ & _ & Htr & Hns).
  rewrite Hto, app_nil_r in Htr. now exists t', evs.
Qed.

(** ** Termination *)

(** C7.  With [args.test_only], [terminate] runs [test] once and then
    returns [True]; otherwise it returns whether
    [scheduler.last_epoch + 1 >= args.epochs], without touching the trainer.
    So whenever it returns, it returns [True] exactly if [args.test_only]
    is true or the epoch has reached [args.epochs]. *)
Theorem C7_terminate cfg t :
  (test_only (cargs cfg) = true ->
   terminate cfg t =
     (match fst (test cfg t) with inl _ => inl true | inr e => inr e end,
      snd (test cfg t))) /\
  (test_only (cargs cfg) = false ->
   terminate cfg t = (inl (last_epoch t + 1 >=? epochs (cargs cfg)), t)) /\
  (forall b t',
     terminate cfg t = (inl b, t') ->
     (b = true <->
      test_only (cargs cfg) = true \/ last_epoch t + 1 >= epochs (cargs cfg))).
Proof.
  unfold terminate.
  destruct (test_only (cargs cfg)) eqn:Hto.
  - split; [|split].
    + intros _. unfold bind. destruct (test cfg t) as [[[]|e] t']; reflexivity.
    + discriminate.
    + intros b t'. unfold bind. destruct (test cfg t) as [[[]|e] t1]; [|discriminate].
      unfold ret. intros [= <- <-]. tauto.
  - split; [|split].
    + discriminate.
    + reflexivity.
    + intros b t'. unfold bind, get, ret. intros [= <- <-].
      rewrite Z.geb_le. split; [intros Hle; right; lia|].
      intros [Habs|Hge]; [discriminate|lia].
Qed.

(** ** Skipped batches *)

(** C8.  For a training batch whose loss is not strictly below
    [args.skip_threshold * error_last], the loop body calls neither
    [loss.backward()] nor [optimizer.step()], and leaves the parameters of
    the model and the optimiser as they were; [error_last] is not assigned
    in the loop. *)
Theorem C8_skipped_batch_leaves_model cfg batch it t loss_ :
  batch_loss cfg t it = Some loss_ ->
  flt (loss_data0 loss_) (fmul (skip_threshold (cargs cfg)) (error_last t)) = false ->
  exists evs,
    params (snd (train_batch cfg batch it t)) = params t /\
    optimizer (snd (train_batch cfg batch it t)) = optimizer t /\
    error_last (snd (train_batch cfg batch it t)) = error_last t /\
    trace (snd (train_batch cfg batch it t)) = trace t ++ evs /\
    forall e, In e evs -> updates_model e = false.
Proof.
  intros Hloss Hskip.
  destruct t as [p g o le lm el log ix tr].
  unfold batch_loss in Hloss. unfold train_batch.
  cbn [params grads optimizer last_epoch loss error_last ckp_log idx_scale trace
       prepare enumerate List.length seq combine map] in *.
  destruct (nth_error (scale (cargs cfg)) (tr_idx_scale it)) as [s|]; [|discriminate].
  injection Hloss as Hloss. revert Hloss.
  tstep.
  match goal with
  | |- context [loss_call ?a ?b ?c] => destruct (loss_call a b c) as [l lm'] eqn:Hcall
  end.
  cbn [fst]. intros ->. tstep. rewrite Hskip. tstep.
  destruct (print_every (cargs cfg) =? 0); tstep.
  - eexists. repeat split; try reflexivity.
    + rewrite <- !app_assoc. reflexivity.
    + intros e Hin. cbn in Hin. intuition (subst; reflexivity).
  - destruct ((Z.of_nat batch + 1) mod print_every (cargs cfg) =? 0); tstep.
    + eexists. repeat split; try reflexivity.
      * rewrite <- !app_assoc. reflexivity.
      * intros e Hin. cbn in Hin. intuition (subst; reflexivity).
    + eexists. repeat split; try reflexivity.
      * rewrite <- !app_assoc. reflexivity.
      * intros e Hin. cbn in Hin. intuition (subst; reflexivity).
Qed.

(** [error_last] is assigned nowhere in the loop body, so during an epoch it
    is the value the previous epoch left (or the initial [1e8]). *)
Lemma train_batch_error_last cfg batch it t :
  error_last (snd (train_batch cfg batch it t)) = error_last t.
Proof.
  destruct t as [p g o le lm el log ix tr].
  unfold train_batch.
  cbn [prepare enumerate List.length seq combine map].
  tstep.
  destruct (nth_error (scale (cargs cfg)) (tr_idx_scale it)) as [s|]; tstep;
    [|reflexivity].
  match goal with
  | |- context [loss_call ?a ?b ?c] => destruct (loss_call a b c) as [l lm']
  end.
  tstep.
  match goal with
  | |- context [flt ?a ?b] => destruct (flt a b)
  end; tstep.
  - match goal with
    | |- context [optimizer_step ?a ?b ?c] =>
        destruct (optimizer_step a b c) as [o' p']
    end.
    tstep.
    destruct (print_every (cargs cfg) =? 0); tstep; [reflexivity|].
    destruct ((Z.of_nat batch + 1) mod print_every (cargs cfg) =? 0); reflexivity.
  - destruct (print_every (cargs cfg) =? 0); tstep; [reflexivity|].
    destruct ((Z.of_nat batch + 1) mod print_every (cargs cfg) =? 0); reflexivity.
Qed.

Lemma train_loop_error_last cfg (items : list (nat * train_item)) :
  forall t,
    error_last
      (snd (for_each items (fun '(batch, it) => train_batch cfg batch it) t)) =
    error_last t.
Proof.
  induction items as [|[batch it] items IH]; intros t; [reflexivity|].
  cbn [for_each]. unfold bind.
  pose proof (train_batch_error_last cfg batch it t) as Hb.
  destruct (train_batch cfg batch it t) as [[[]|e] t1]; cbn [snd] in *.
  - now rewrite IH.
  - exact Hb.
Qed.

(** An epoch that completes leaves its final logged error in [error_last]. *)
Lemma train_sets_error_last cfg t t' :
  train cfg t = (inl tt, t') ->
  error_last t' = loss_log_last (loss t').
Proof.
  destruct t as [p g o le lm el log ix tr].
  unfold train, scheduler_step. tstep.
  match goal with
  | |- context [for_each ?l ?f ?t0] => destruct (for_each l f t0) as [[[]|e] t1]
  end; tstep; [|discriminate].
  intros [= <-]. reflexivity.
Qed.

(** Without a checkpoint to resume from, the constructor neither loads nor
    steps. *)
Lemma init_fresh cfg my_model my_loss ckp t :
  load (cargs cfg) = "." ->
  exists t',
    __init__ cfg my_model my_loss ckp t = (inl tt, t') /\
    trace t' = trace t /\
    last_epoch t' = snd (make_scheduler (make_optimizer my_model)) /\
    error_last t' = F_of_Z 100000000.
Proof.
  intros Hload. destruct t as [p g o le lm el log ix tr].
  unfold __init__. rewrite Hload.
  destruct (make_scheduler (make_optimizer my_model)) as [o0 e0].
  cbn [String.eqb Ascii.eqb Bool.eqb negb andb]. tstep.
  eexists. repeat split.
Qed.

End WithCollaborators.

(** ** The theorems at the example trainer *)

#[local] Existing Instance Q_collaborators.

Lemma example_loaders_nonempty to from i :
  (i < List.length (scale (cargs (example_config to from))))%nat ->
  loader_test (example_config to from) i <> [].
Proof. intros _. discriminate. Defined.

Lemma example_scale_nonempty to from :
  scale (cargs (example_config to from)) <> [].
Proof. discriminate. Defined.




(** C3 at the example: the rounded mean over the three items of scale
    index 0. *)
Lemma C3_logged_psnr_is_mean_witness :
  log_get_last
    (ckp_log (snd (test (example_config false ".") (example_trainer 1)))) 0 =
  Some (float32 (fdiv (fsum (test_psnrs (example_config false ".") 2%Q 0 2))
                      (F_of_Z 3))).
Proof.
  exact (proj2 (C3_logged_psnr_is_mean (example_config false ".")
                  (example_trainer 1) eq_refl (example_loaders_nonempty false "."))
               0%nat 2 eq_refl).
Defined.

(** C3 as the specification words it fails where the mean is no
    single-precision number.  Three images with PSNR 39, 31 and 39 have the
    mean 109/3; the float tensor [ckp.log] holds 9524565 / 2^18 (about
    36.333332) for it, the nearest number of 24 significant bits. *)
Lemma C3_float32_counterexample :
  let cfg := example_config_with [2; 3] 100 (fun _ => labelled_images) true in
  let t := example_trainer 1 in
  fst (test cfg t) = inl tt /\
  test_psnrs cfg (params t) 0 2 = [39; 31; 39]%Q /\
  fdiv (fsum (test_psnrs cfg (params t) 0 2))
       (F_of_Z (Z.of_nat (List.length (loader_test cfg 0)))) = (109 # 3)%Q /\
  log_get_last (ckp_log (snd (test cfg t))) 0 = Some (9524565 # 262144)%Q /\
  log_get_last (ckp_log (snd (test cfg t))) 0 <>
    Some (fdiv (fsum (test_psnrs cfg (params t) 0 2))
               (F_of_Z (Z.of_nat (List.length (loader_test cfg 0))))).
Proof.
  intros cfg t.
  assert (Hlogged : log_get_last (ckp_log (snd (test cfg t))) 0 =
                    Some (9524565 # 262144)%Q) by reflexivity.
  assert (Hmean : fdiv (fsum (test_psnrs cfg (params t) 0 2))
                       (F_of_Z (Z.of_nat (List.length (loader_test cfg 0)))) =
                  (109 # 3)%Q) by reflexivity.
  split; [reflexivity|]. split; [reflexivity|]. split; [exact Hmean|].
  split; [exact Hlogged|].
  rewrite Hlogged, Hmean. discriminate.
Qed.



Lemma example_load_not_dot : load (cargs (example_config false "RNAN")) <> ".".
Proof. discriminate. Defined.

(** C6 at the example, with two logged epochs. *)
Lemma C6_init_resumes_witness :
  exists t',
    __init__ (example_config false "RNAN") 2%Q [] [[30%Q; 28%Q]; [31%Q; 29%Q]]
             (example_trainer 0) = (inl tt, t') /\
    trace t' =
      [LoadStateDict "../experiment/RNAN/optimizer.pt"; SchedulerStep; SchedulerStep] /\
    last_epoch t' = 1 /\
    optimizer t' = (1 # 10)%Q /\
    error_last t' = 100000000%Q.
Proof.
  exact (C6_init_resumes (example_config false "RNAN") 2%Q []
           [[30%Q; 28%Q]; [31%Q; 29%Q]] (example_trainer 0) example_load_not_dot).
Defined.

(** C7 at the example: at epoch 300 of 300 the trainer terminates, at epoch
    2 it does not. *)
Lemma C7_terminate_witness :
  terminate (example_config false ".") (example_trainer 299) =
    (inl true, example_trainer 299) /\
  terminate (example_config false ".") (example_trainer 1) =
    (inl false, example_trainer 1).
Proof.
  split.
  - exact (proj1 (proj2 (C7_terminate (example_config false ".")
                                      (example_trainer 299))) eq_refl).
  - exact (proj1 (proj2 (C7_terminate (example_config false ".")
                                      (example_trainer 1))) eq_refl).
Defined.

(** C8 at the example: the second batch has loss 999996000004, which is not
    below 10 * 1e8. *)
Lemma C8_skipped_batch_leaves_model_witness :
  let cfg := example_config false "." in
  let it := {| tr_lr := 1%Q; tr_hr := 1000000%Q; tr_idx_scale := 0%nat |} in
  let t := example_trainer 1 in
  exists evs,
    params (snd (train_batch cfg 1 it t)) = params t /\
    optimizer (snd (train_batch cfg 1 it t)) = optimizer t /\
    error_last (snd (train_batch cfg 1 it t)) = error_last t /\
    trace (snd (train_batch cfg 1 it t)) = trace t ++ evs /\
    forall e, In e evs -> updates_model e = false.
Proof.
  exact (C8_skipped_batch_leaves_model (example_config false ".") 1%nat
           {| tr_lr := 1%Q; tr_hr := 1000000%Q; tr_idx_scale := 0%nat |}
           (example_trainer 1) 999996000004%Q eq_refl eq_refl).
Defined.

End Trainer_Theorems.

(** * Further properties of ModelGAN *)

Module ModelGAN_More.

Import ModelGAN ModelGAN_Theorems.

Lemma gan_classes g :
  (str_in g ["gan"; "lsgan"; "wgangp"] = true /\ (g =? "ragan")%string = false /\
   str_in g ["gan"; "lsgan"; "wgangp"; "wgansoftplus"] = true /\
   str_in g G_gan_types = true /\ str_in g D_gan_types = true) \/
  (str_in g ["gan"; "lsgan"; "wgangp"] = false /\ (g =? "ragan")%string = true /\
   str_in g ["gan"; "lsgan"; "wgangp"; "wgansoftplus"] = false /\
   str_in g G_gan_types = true /\ str_in g D_gan_types = true) \/
  (str_in g ["gan"; "lsgan"; "wgangp"] = false /\ (g =? "ragan")%string = false /\
   str_in g ["gan"; "lsgan"; "wgangp"; "wgansoftplus"] = true /\
   str_in g G_gan_types = false /\ str_in g D_gan_types = true) \/
  (str_in g ["gan"; "lsgan"; "wgangp"] = false /\ (g =? "ragan")%string = false /\
   str_in g ["gan"; "lsgan"; "wgangp"; "wgansoftplus"] = false /\
   str_in g G_gan_types = false /\ str_in g D_gan_types = false).
Proof.
  unfold str_in, D_gan_types, G_gan_types. cbn [existsb].
  destruct (String.eqb_spec g "gan") as [->|]; [vm_compute; intuition congruence|].
  destruct (String.eqb_spec g "lsgan") as [->|]; [vm_compute; intuition congruence|].
  destruct (String.eqb_spec g "wgangp") as [->|]; [vm_compute; intuition congruence|].
  destruct (String.eqb_spec g "wgansoftplus") as [->|]; [vm_compute; intuition congruence|].
  destruct (String.eqb_spec g "ragan") as [->|]; [vm_compute; intuition congruence|].
  cbn. intuition congruence.
Qed.

(** ** How a call ends *)

(** X1.  On a model configured by [define_loss], a call of
    [optimize_parameters] raises in exactly these cases: [UnboundLocalError]
    for [D_loss] when the generator update is due and the GAN type is none
    of 'gan', 'lsgan', 'wgangp', 'ragan'; otherwise, when the GAN type is
    none of those nor 'wgansoftplus', [UnboundLocalError] for [pred_d_real]
    under [opt['dist']] and [AttributeError] ([0.backward()]) without it.
    In every other case it returns; it never divides by zero. *)
Theorem optimize_parameters_outcome m current_step :
  configured m ->
  fst (optimize_parameters current_step m) = call_outcome m current_step.
Proof.
  intros Hc.
  destruct (configured_inv m Hc) as (HG & HF & _).
  assert (Hr0 : (D_update_ratio_ m =? 0) = false).
  { apply Z.eqb_neq. now apply configured_ratio_nonzero. }
  clear Hc. unfold call_outcome, G_due, opt_train_ in *.
  destruct m as [o gl glw fl flw dl dlw dr di sch l h vr e ld tr].
  cbn [opt G_lossfn G_lossfn_weight_ F_lossfn F_lossfn_weight_ D_lossfn
       D_lossfn_weight_ D_update_ratio_ D_init_iters_ schedulers L H var_ref E
       log_dict trace] in *.
  destruct (gan_classes (gan_type (train o)))
    as [(H3 & Hra & H4 & HGt & HDt)|[(H3 & Hra & H4 & HGt & HDt)
       |[(H3 & Hra & H4 & HGt & HDt)|(H3 & Hra & H4 & HGt & HDt)]]];
    rewrite HGt, HDt; unfold str_in in H3, H4; cbn [existsb] in H3, H4.
  all: destruct ((current_step mod dr =? 0) && (current_step >? di)) eqn:Hd.
  all: destruct (Qpos (G_lossfn_weight (train o))) eqn:EG;
    [destruct (HG eq_refl) as ((fG & EfG) & _)|]; clear HG.
  all: destruct (Qpos (F_lossfn_weight (train o))) eqn:EF;
    [destruct (HF eq_refl) as (EfF & _)|]; clear HF.
  all: destruct (dist o) eqn:Edist.
  all: run;
    repeat (progress (rewrite ?Hr0, ?EG, ?EF, ?Hd, ?Edist, ?H3, ?Hra, ?H4, ?EfG, ?EfF;
                      run)).
  all: reflexivity.
Qed.


(** X2.  With a GAN type the discriminator phase does not know (and the
    generator update not due), the distributed branch backpropagates
    nothing and still calls [D_optimizer.step()] before the logging raises;
    the other branch raises at [loss_D_total.backward()], before the step.
    In both, [log_dict] is left as it was. *)
Theorem discriminator_phase_unknown_gan_type m current_step :
  configured m ->
  str_in (gan_type (opt_train_ m)) D_gan_types = false ->
  G_due m current_step = false ->
  exists m',
    optimize_parameters current_step m =
      (inr (if dist (opt m) then UnboundLocalError "pred_d_real"
            else AttributeError "'int' object has no attribute 'backward'"), m') /\
    trace m' =
      trace m
      ++ [SetRequiresGrad netD false; ZeroGrad G_optimizer;
          SetRequiresGrad netD true; ZeroGrad D_optimizer]
      ++ (if dist (opt m) then [Step D_optimizer] else []) /\
    log_dict m' = log_dict m.
Proof.
  intros Hc Hg Hdue.
  assert (Hr0 : (D_update_ratio_ m =? 0) = false).
  { apply Z.eqb_neq. now apply configured_ratio_nonzero. }
  clear Hc. unfold G_due, opt_train_ in *.
  destruct m as [o gl glw fl flw dl dlw dr di sch l h vr e ld tr].
  cbn [opt G_lossfn G_lossfn_weight_ F_lossfn F_lossfn_weight_ D_lossfn
       D_lossfn_weight_ D_update_ratio_ D_init_iters_ schedulers L H var_ref E
       log_dict trace] in *.
  unfold str_in, D_gan_types in Hg. cbn [existsb] in Hg.
  destruct (gan_type (train o) =? "gan")%string eqn:E1; [discriminate|].
  destruct (gan_type (train o) =? "lsgan")%string eqn:E2; [discriminate|].
  destruct (gan_type (train o) =? "wgangp")%string eqn:E3; [discriminate|].
  destruct (gan_type (train o) =? "wgansoftplus")%string eqn:E4; [discriminate|].
  destruct (gan_type (train o) =? "ragan")%string eqn:E5; [discriminate|].
  destruct (dist o) eqn:Edist.
  all: run;
    repeat (progress (rewrite ?Hr0, ?Hdue, ?Edist, ?E1, ?E2, ?E3, ?E4, ?E5;
                      cbn [orb]; run)).
  all: eexists; split; [reflexivity|]; run.
  all: rewrite <- ?app_assoc; split; reflexivity.
Qed.

Lemma dict_get_set k k' v d :
  dict_get k (dict_set k' v d) =
  if String.eqb k k' then Some v else dict_get k d.
Proof.
  induction d as [|[k0 v0] d IH]; cbn; [reflexivity|].
  destruct (String.eqb_spec k' k0) as [->|Hk'].
  - cbn. destruct (String.eqb k k0); reflexivity.
  - cbn. rewrite IH.
    destruct (String.eqb_spec k k0) as [->|]; [|reflexivity].
    destruct (String.eqb_spec k0 k'); [congruence|reflexivity].
Qed.

(** ** The log of a call *)

(** X3.  A call that returns logs [D_real] and [D_fake], the means of the
    detached predictions of [netD] for the reference and for the detached
    generated image.  When the generator update is due it also logs
    [D_loss], and [G_loss] and [F_loss] when their weights are positive;
    when it is not due, the entries [G_loss], [F_loss] and [D_loss] keep
    what an earlier call left there. *)
Theorem optimize_parameters_log m current_step :
  configured m ->
  str_in (gan_type (opt_train_ m)) D_gan_types = true ->
  (G_due m current_step = true ->
   str_in (gan_type (opt_train_ m)) G_gan_types = true) ->
  exists m',
    optimize_parameters current_step m = (inl tt, m') /\
    dict_get "D_real" (log_dict m') =
      Some (Mean (Detach (Call netD (var_ref m)))) /\
    dict_get "D_fake" (log_dict m') =
      Some (Mean (Detach (Call netD (Detach (generated m))))) /\
    (if G_due m current_step then
       dict_get "D_loss" (log_dict m') = Some (Item (adversarial_term m)) /\
       dict_get "G_loss" (log_dict m') =
         match pixel_terms m with
         | [] => dict_get "G_loss" (log_dict m)
         | t :: _ => Some (Item t)
         end /\
       dict_get "F_loss" (log_dict m') =
         match perceptual_terms m with
         | [] => dict_get "F_loss" (log_dict m)
         | t :: _ => Some (Item t)
         end
     else
       forall k, In k ["G_loss"; "F_loss"; "D_loss"] ->
         dict_get k (log_dict m') = dict_get k (log_dict m)).
Proof.
  intros Hc Hg Hdue.
  destruct (configured_inv m Hc) as (HG & HF & HD & HDw & Hr & Hi).
  assert (Hr0 : (D_update_ratio_ m =? 0) = false).
  { apply Z.eqb_neq. now apply configured_ratio_nonzero. }
  clear HD HDw Hr Hi Hc.
  unfold adversarial_term, adversarial_plain, adversarial_ragan,
    pixel_terms, perceptual_terms, generated, G_due in *.
  unfold opt_train_ in *.
  destruct m as [o gl glw fl flw dl dlw dr di sch l h vr e ld tr].
  cbn [opt G_lossfn G_lossfn_weight_ F_lossfn F_lossfn_weight_ D_lossfn
       D_lossfn_weight_ D_update_ratio_ D_init_iters_ schedulers L H var_ref E
       log_dict trace] in *.
  destruct (gan_cases _ Hg)
    as [(H3 & Hra & H4 & HGt)|[(H3 & Hra & H4 & HGt)|(H3 & Hra & H4 & HGt)]];
    unfold str_in in H3, H4; cbn [existsb] in H3, H4; clear Hg.
  all: destruct ((current_step mod dr =? 0) && (current_step >? di)) eqn:Hd;
    [specialize (Hdue eq_refl)|clear Hdue]; try congruence.
  all: destruct (Qpos (G_lossfn_weight (train o))) eqn:EG;
    [destruct (HG eq_refl) as ((fG & EfG) & _)|]; clear HG.
  all: destruct (Qpos (F_lossfn_weight (train o))) eqn:EF;
    [destruct (HF eq_refl) as (EfF & _)|]; clear HF.
  all: destruct (dist o) eqn:Edist.
  all: run;
    repeat (progress (rewrite ?Hr0, ?EG, ?EF, ?Hd, ?Edist, ?H3, ?Hra, ?H4, ?EfG, ?EfF;
                      run)).
  all: eexists; split; [reflexivity|]; run.
  all: rewrite ?EfG, ?EfF, ?Hra, !dict_get_set; cbn [String.eqb Ascii.eqb Bool.eqb].
  all: repeat split; try reflexivity.
  all: intros k Hk; cbn in Hk;
    repeat (destruct Hk as [<-|Hk]; [rewrite !dict_get_set; reflexivity|]);
    destruct Hk.
Qed.

(** ** The losses [define_loss] builds *)

(** X4.  With a positive pixel weight and one of the four known types,
    [define_loss] returns, having built the loss of that type ('l1' the L1
    loss, 'l2' the MSE loss, 'l2sum' the summed MSE loss, 'ssim' the SSIM
    loss) and copied the weight; the model is then configured. *)
Theorem define_loss_builds_pixel_loss m f :
  Qpos (G_lossfn_weight (opt_train_ m)) = true ->
  In (G_lossfn_type (opt_train_ m), f)
     [(PyStr "l1", L1Loss); (PyStr "l2", MSELoss); (PyStr "l2sum", MSELoss_sum);
      (PyStr "ssim", SSIMLoss)] ->
  exists m',
    define_loss m = (inl tt, m') /\
    G_lossfn m' = Some f /\
    G_lossfn_weight_ m' = G_lossfn_weight (opt_train_ m) /\
    configured m'.
Proof.
  intros Hw Hin.
  assert (Hrun : exists m', define_loss m = (inl tt, m') /\ G_lossfn m' = Some f /\
                            G_lossfn_weight_ m' = G_lossfn_weight (opt_train_ m)).
  { revert Hw Hin.
    unfold define_loss, define_loss_G, define_loss_F, define_loss_D, opt_train_.
    unfold bind, get, ret, raise, emit, modify, set_G_lossfn, set_G_lossfn_weight,
      set_F_lossfn, set_F_lossfn_weight, set_D_loss.
    intros Hw Hin. rewrite Hw. cbn in Hin.
    destruct Hin as [Hin|[Hin|[Hin|[Hin|[]]]]]; injection Hin as Hty <-;
      rewrite <- Hty; cbn;
      destruct (Qpos (F_lossfn_weight (train (opt m)))); cbn;
      eexists; repeat split. }
  destruct Hrun as (m' & Hrun & Hf & Hwt).
  exists m'. repeat split; auto.
  exists m. rewrite Hrun. split; reflexivity.
Qed.

(** X5.  When [D_update_ratio] is unset or 0 and [D_init_iters] is unset or
    0, [define_loss] sets them to 1 and 0, so that the generator is updated
    in every call with a positive step, and in no call at step 0 or
    below. *)
Theorem default_update_schedule m current_step :
  fst (define_loss m) = inl tt ->
  (D_update_ratio (opt_train_ m) = None \/ D_update_ratio (opt_train_ m) = Some 0) ->
  (D_init_iters (opt_train_ m) = None \/ D_init_iters (opt_train_ m) = Some 0) ->
  D_update_ratio_ (snd (define_loss m)) = 1 /\
  D_init_iters_ (snd (define_loss m)) = 0 /\
  G_due (snd (define_loss m)) current_step = (current_step >? 0).
Proof.
  intros Hrun Hr Hi.
  assert (Hc : configured (snd (define_loss m))).
  { exists m. split; [exact Hrun|reflexivity]. }
  destruct (configured_inv _ Hc) as (_ & _ & _ & _ & Hr' & Hi').
  assert (Hopt : opt (snd (define_loss m)) = opt m).
  { clear.
    unfold define_loss, define_loss_G, define_loss_F, define_loss_D, opt_train_.
    unfold bind, get, ret, raise, emit, modify, set_G_lossfn, set_G_lossfn_weight,
      set_F_lossfn, set_F_lossfn_weight, set_D_loss. cbn.
    destruct (Qpos (G_lossfn_weight (train (opt m)))); cbn;
      [destruct (py_eq_str (G_lossfn_type (train (opt m))) "l1"); cbn;
       [|destruct (py_eq_str (G_lossfn_type (train (opt m))) "l2"); cbn;
         [|destruct (py_eq_str (G_lossfn_type (train (opt m))) "l2sum"); cbn;
           [|destruct (py_eq_str (G_lossfn_type (train (opt m))) "ssim"); cbn;
             [|destruct (G_lossfn_type (train (opt m))); cbn]]]]|];
      try destruct (Qpos (F_lossfn_weight (train (opt m)))); reflexivity. }
  unfold opt_train_ in *. rewrite Hopt in Hr', Hi'.
  assert (Hr1 : D_update_ratio_ (snd (define_loss m)) = 1).
  { rewrite Hr'. destruct Hr as [-> | ->]; reflexivity. }
  assert (Hi0 : D_init_iters_ (snd (define_loss m)) = 0).
  { rewrite Hi'. destruct Hi as [-> | ->]; reflexivity. }
  repeat split; auto.
  unfold G_due. rewrite Hr1, Hi0, Z.mod_1_r. reflexivity.
Qed.

(** ** Where gradients flow *)

(** X6.  In a call that returns, every loss backpropagated in the
    discriminator phase holds the generated image only below a
    [detach()], so that it sends no gradient into [netG] (given a
    reference batch that does not come from [netG]); the loss of the
    generator phase does reach [netG]. *)
Theorem gradients_reach_generator_only_from_its_loss m current_step :
  configured m ->
  str_in (gan_type (opt_train_ m)) G_gan_types = true ->
  reaches_netG (var_ref m) = false ->
  exists m' before,
    optimize_parameters current_step m = (inl tt, m') /\
    trace m' =
      trace m ++ before
      ++ [SetRequiresGrad netD true; ZeroGrad D_optimizer]
      ++ D_backwards m ++ [Step D_optimizer] /\
    before = [SetRequiresGrad netD false; ZeroGrad G_optimizer]
             ++ G_events m current_step /\
    (forall t, In t (backward_losses (D_backwards m)) -> reaches_netG t = false) /\
    (forall t, In t (backward_losses (G_events m current_step)) ->
               reaches_netG t = true).
Proof.
  intros Hc Hg Hvr.
  destruct (optimize_parameters_run m current_step Hc (G_gan_types_D _ Hg) (fun _ => Hg))
    as (lc & m' & Hrun & Htr & _).
  exists m'. eexists.
  split; [exact (optimize_parameters_of_locals _ _ _ _ Hrun)|].
  split; [|split; [reflexivity|split]].
  - rewrite Htr. unfold call_events. now rewrite <- !app_assoc.
  - intros t. unfold D_backwards, ragan_dist_l_d_fake, generated.
    destruct (dist (opt m)), (gan_type (opt_train_ m) =? "ragan")%string;
      cbn; rewrite ?Hvr; cbn; intuition (subst; cbn; rewrite ?Hvr; reflexivity).
  - intros t. unfold G_events.
    destruct (G_due m current_step); cbn; [|tauto].
    intros [<-|[]]. rewrite loss_G_total_is_Add. cbn.
    unfold adversarial_term, adversarial_ragan, adversarial_plain, generated.
    destruct (gan_type (opt_train_ m) =? "ragan")%string; cbn;
      rewrite ?orb_true_r; reflexivity.
Qed.

Lemma collect_G_params_run named :
  forall acc s,
    for_each_acc named collect_G_param acc s =
    (inl (acc ++ filter p_requires_grad named),
     {| self_G_optimizer := self_G_optimizer s;
        self_D_optimizer := self_D_optimizer s;
        printed := printed s
                   ++ map not_optimized
                          (filter (fun v => negb (p_requires_grad v)) named) |}).
Proof.
  induction named as [|v named IH]; intros acc s; cbn [for_each_acc filter map].
  - destruct s. unfold ret. cbn. now rewrite !app_nil_r.
  - unfold bind at 1, collect_G_param at 1.
    destruct (p_requires_grad v); cbn [negb].
    + unfold ret at 1. rewrite IH, <- app_assoc. reflexivity.
    + unfold bind, print_line, modify, ret. rewrite IH. cbn [map printed
        self_G_optimizer self_D_optimizer].
      unfold not_optimized at 2. rewrite <- app_assoc. reflexivity.
Qed.

Lemma filter_partition_length {A} (p : A -> bool) l :
  (List.length (filter p l) + List.length (filter (fun v => negb (p v)) l) =
   List.length l)%nat.
Proof.
  induction l as [|v l IH]; cbn; [reflexivity|].
  destruct (p v); cbn; lia.
Qed.

(** ** The optimisers *)

(** X7.  [define_optimizer] prints one line for each parameter of [netG]
    that does not require gradients, however it ends, so that every
    parameter of [netG] is passed on or reported, never both.  It returns
    exactly when both learning rates are at least 0, [netG] has a parameter
    that requires gradients and [netD] has a parameter; [G_optimizer] is
    then an [Adam] over the parameters of [netG] that require gradients, in
    their order, and [D_optimizer] one over every parameter of [netD],
    whatever its flag.  With nothing to optimise in [netG] the constructor
    of [Adam] raises [ValueError] and neither attribute is set; with no
    parameter in [netD] it raises after [G_optimizer] is set. *)
Theorem define_optimizer_partition netG_params netD_params o s :
  let trainable := filter p_requires_grad netG_params in
  let frozen := filter (fun v => negb (p_requires_grad v)) netG_params in
  let G := {| adam_params := trainable; adam_lr := G_optimizer_lr o;
              adam_weight_decay := 0 |} in
  let D := {| adam_params := netD_params; adam_lr := D_optimizer_lr o;
              adam_weight_decay := 0 |} in
  let out := define_optimizer netG_params netD_params o s in
  printed (snd out) = printed s ++ map not_optimized frozen /\
  (List.length trainable + List.length frozen = List.length netG_params)%nat /\
  (fst out = inl tt <->
   Qle_bool 0 (G_optimizer_lr o) = true /\ trainable <> [] /\
   Qle_bool 0 (D_optimizer_lr o) = true /\ netD_params <> []) /\
  (fst out = inl tt ->
   self_G_optimizer (snd out) = Some G /\ self_D_optimizer (snd out) = Some D) /\
  (Qle_bool 0 (G_optimizer_lr o) = true -> trainable = [] ->
   fst out = inr (ValueError "optimizer got an empty parameter list") /\
   self_G_optimizer (snd out) = self_G_optimizer s /\
   self_D_optimizer (snd out) = self_D_optimizer s) /\
  (Qle_bool 0 (G_optimizer_lr o) = true -> trainable <> [] ->
   Qle_bool 0 (D_optimizer_lr o) = true -> netD_params = [] ->
   fst out = inr (ValueError "optimizer got an empty parameter list") /\
   self_G_optimizer (snd out) = Some G /\
   self_D_optimizer (snd out) = self_D_optimizer s).
Proof.
  intros trainable frozen G D out.
  subst out G D. unfold define_optimizer, bind.
  rewrite collect_G_params_run. cbn [app]. fold trainable frozen.
  unfold new_Adam, set_G_optimizer, set_D_optimizer, modify, ret, raise.
  split; [|split; [apply filter_partition_length|]].
  - destruct (Qle_bool 0 (G_optimizer_lr o)); cbn [negb]; [|reflexivity].
    destruct trainable; [reflexivity|].
    destruct (Qle_bool 0 (D_optimizer_lr o)); cbn [negb]; [|reflexivity].
    destruct netD_params; reflexivity.
  - destruct (Qle_bool 0 (G_optimizer_lr o)); cbn [negb].
    2:{ cbn. repeat split; try discriminate; intuition (try discriminate; try congruence). }
    destruct trainable as [|v0 tr].
    { cbn. repeat split; try discriminate; intuition (try discriminate; try congruence). }
    destruct (Qle_bool 0 (D_optimizer_lr o)); cbn [negb].
    2:{ cbn. repeat split; try discriminate; intuition (try discriminate; try congruence). }
    destruct netD_params as [|d0 ds].
    { cbn. repeat split; try discriminate; intuition (try discriminate; try congruence). }
    cbn. repeat split; try discriminate; intuition (try discriminate; try congruence).
Qed.

Lemma steps_of_app o a b :
  steps_of o (a ++ b) = (steps_of o a + steps_of o b)%nat.
Proof. unfold steps_of. now rewrite filter_app, length_app. Qed.

Lemma configured_attributes m m' :
  configured m -> loss_attributes m' = loss_attributes m -> configured m'.
Proof.
  intros (m0 & Hok & Hm0) Hattr. exists m0. split; [exact Hok|]. congruence.
Qed.

Lemma attributes_opt m m' :
  loss_attributes m' = loss_attributes m -> opt m' = opt m.
Proof. unfold loss_attributes. congruence. Qed.

Lemma attributes_G_due m m' s :
  loss_attributes m' = loss_attributes m -> G_due m' s = G_due m s.
Proof.
  unfold loss_attributes, G_due. intros [= _ _ _ _ _ _ _ -> ->]. reflexivity.
Qed.

Lemma steps_of_call_events m s :
  steps_of D_optimizer (call_events m s) = 1%nat /\
  steps_of G_optimizer (call_events m s) = if G_due m s then 1%nat else 0%nat.
Proof.
  unfold call_events, G_events, D_backwards.
  destruct (G_due m s), (dist (opt m)),
    (gan_type (opt_train_ m) =? "ragan")%string; split; reflexivity.
Qed.

(** ** A stretch of training *)

(** X8.  Feeding a batch and calling [optimize_parameters], once for every
    step of a list, on a configured model of a GAN type the generator phase
    handles: every call returns, [D_optimizer] steps once per call,
    [G_optimizer] steps once per call in which the generator update is due,
    and the model stays configured. *)
Theorem train_iterations_steps its :
  forall m,
  configured m ->
  str_in (gan_type (opt_train_ m)) G_gan_types = true ->
  exists m' evs,
    train_iterations its m = (inl tt, m') /\
    trace m' = trace m ++ evs /\
    steps_of D_optimizer evs = List.length its /\
    steps_of G_optimizer evs =
      List.length (filter (fun it => G_due m (fst it)) its) /\
    configured m'.
Proof.
  induction its as [|[s d] its IH]; intros m Hc Hg.
  - exists m, []. cbn. rewrite app_nil_r. repeat split. exact Hc.
  - unfold train_iterations. cbn [for_each].
    set (m1 := snd (feed_data d true m)).
    assert (Hfeed : feed_data d true m = (inl tt, m1)) by reflexivity.
    assert (Hattr1 : loss_attributes m1 = loss_attributes m) by reflexivity.
    assert (Htr1 : trace m1 = trace m) by reflexivity.
    assert (Hc1 : configured m1) by (eapply configured_attributes; eauto).
    assert (Hg1 : str_in (gan_type (opt_train_ m1)) G_gan_types = true).
    { unfold opt_train_. rewrite (attributes_opt _ _ Hattr1). exact Hg. }
    destruct (optimize_parameters_run m1 s Hc1 (G_gan_types_D _ Hg1) (fun _ => Hg1))
      as (lc & m2 & Hrun & Htr2 & Hattr2 & _).
    assert (Hc2 : configured m2) by (eapply configured_attributes; eauto).
    assert (Hg2 : str_in (gan_type (opt_train_ m2)) G_gan_types = true).
    { unfold opt_train_. rewrite (attributes_opt _ _ Hattr2). exact Hg1. }
    destruct (IH m2 Hc2 Hg2) as (m' & evs & Hrest & Htr & HD & HG & Hc').
    exists m', (call_events m1 s ++ evs).
    split.
    { unfold bind at 1. unfold bind at 1. rewrite Hfeed.
      rewrite (optimize_parameters_of_locals _ _ _ _ Hrun). exact Hrest. }
    destruct (steps_of_call_events m1 s) as (HD1 & HG1).
    split; [rewrite Htr, Htr2, Htr1, app_assoc; reflexivity|].
    split; [rewrite steps_of_app, HD1, HD; reflexivity|].
    split; [|exact Hc'].
    rewrite steps_of_app, HG1, HG. cbn [filter fst].
    rewrite (attributes_G_due _ _ s Hattr1).
    assert (Hsame : forall it : Z * data, G_due m2 (fst it) = G_due m (fst it)).
    { intros it. rewrite (attributes_G_due _ _ _ Hattr2).
      apply attributes_G_due. exact Hattr1. }
    rewrite (filter_ext _ _ Hsame).
    destruct (G_due m s); reflexivity.
Qed.

(** ** The theorems at the example models *)

Lemma optimize_parameters_outcome_witness :
  fst (optimize_parameters 2 (example_model false "wgansoftplus" 1 1 None (Some 1))) =
  call_outcome (example_model false "wgansoftplus" 1 1 None (Some 1)) 2.
Proof.
  exact (optimize_parameters_outcome
           (example_model false "wgansoftplus" 1 1 None (Some 1)) 2
           (example_configured false "wgansoftplus" 1 1 None (Some 1) eq_refl)).
Defined.

Lemma discriminator_phase_unknown_gan_type_witness :
  let m := example_model true "hinge" 1 1 None (Some 5) in
  exists m',
    optimize_parameters 1 m = (inr (UnboundLocalError "pred_d_real"), m') /\
    trace m' =
      trace m
      ++ [SetRequiresGrad netD false; ZeroGrad G_optimizer;
          SetRequiresGrad netD true; ZeroGrad D_optimizer]
      ++ [Step D_optimizer] /\
    log_dict m' = log_dict m.
Proof.
  exact (discriminator_phase_unknown_gan_type
           (example_model true "hinge" 1 1 None (Some 5)) 1
           (example_configured true "hinge" 1 1 None (Some 5) eq_refl)
           eq_refl eq_refl).
Defined.

Lemma optimize_parameters_log_witness :
  let m := example_model false "gan" 1 0 None None in
  exists m',
    optimize_parameters 1 m = (inl tt, m') /\
    dict_get "D_real" (log_dict m') =
      Some (Mean (Detach (Call netD (var_ref m)))) /\
    dict_get "D_fake" (log_dict m') =
      Some (Mean (Detach (Call netD (Detach (generated m))))) /\
    dict_get "D_loss" (log_dict m') = Some (Item (adversarial_term m)) /\
    dict_get "G_loss" (log_dict m') =
      match pixel_terms m with
      | [] => dict_get "G_loss" (log_dict m)
      | t :: _ => Some (Item t)
      end /\
    dict_get "F_loss" (log_dict m') =
      match perceptual_terms m with
      | [] => dict_get "F_loss" (log_dict m)
      | t :: _ => Some (Item t)
      end.
Proof.
  exact (optimize_parameters_log (example_model false "gan" 1 0 None None) 1
           (example_configured false "gan" 1 0 None None eq_refl)
           eq_refl (fun _ => eq_refl)).
Defined.

Lemma define_loss_builds_pixel_loss_witness :
  exists m',
    define_loss (pixel_model (PyStr "l2sum") 1) = (inl tt, m') /\
    G_lossfn m' = Some MSELoss_sum /\
    G_lossfn_weight_ m' =
      G_lossfn_weight (opt_train_ (pixel_model (PyStr "l2sum") 1)) /\
    configured m'.
Proof.
  exact (define_loss_builds_pixel_loss (pixel_model (PyStr "l2sum") 1) MSELoss_sum
           eq_refl (or_intror (or_intror (or_introl eq_refl)))).
Defined.

(** X7 at a generator with one trainable and one frozen parameter and a
    discriminator without parameters: the frozen one is reported,
    [G_optimizer] is built, and [Adam] refuses the empty list. *)
Lemma define_optimizer_partition_witness :
  let netG_params := [ {| p_name := "body.weight"; p_requires_grad := true |};
                       {| p_name := "tail.weight"; p_requires_grad := false |} ] in
  let out := define_optimizer netG_params [] (example_train "gan" 1 1 None None)
                              no_optimizers in
  printed (snd out) = ["Params [tail.weight] will not optimize."] /\
  fst out = inr (ValueError "optimizer got an empty parameter list") /\
  self_G_optimizer (snd out) =
    Some {| adam_params := [ {| p_name := "body.weight"; p_requires_grad := true |} ];
            adam_lr := 1 # 10000; adam_weight_decay := 0 |} /\
  self_D_optimizer (snd out) = None.
Proof.
  intros netG_params out.
  pose proof (define_optimizer_partition netG_params []
                (example_train "gan" 1 1 None None) no_optimizers)
    as (Hprinted & _ & _ & _ & _ & Hempty).
  split; [exact Hprinted|].
  exact (Hempty eq_refl ltac:(discriminate) eq_refl eq_refl).
Defined.

Lemma default_update_schedule_witness :
  let m := fresh_model {| dist := false;
                          train := example_train "gan" 1 1 None (Some 0) |} in
  D_update_ratio_ (snd (define_loss m)) = 1 /\
  D_init_iters_ (snd (define_loss m)) = 0 /\
  G_due (snd (define_loss m)) 7 = (7 >? 0).
Proof.
  exact (default_update_schedule
           (fresh_model {| dist := false;
                           train := example_train "gan" 1 1 None (Some 0) |})
           7 eq_refl (or_introl eq_refl) (or_intror eq_refl)).
Defined.

Lemma gradients_reach_generator_only_from_its_loss_witness :
  let m := example_model true "ragan" 1 1 None None in
  exists m' before,
    optimize_parameters 1 m = (inl tt, m') /\
    trace m' =
      trace m ++ before
      ++ [SetRequiresGrad netD true; ZeroGrad D_optimizer]
      ++ D_backwards m ++ [Step D_optimizer] /\
    before = [SetRequiresGrad netD false; ZeroGrad G_optimizer] ++ G_events m 1 /\
    (forall t, In t (backward_losses (D_backwards m)) -> reaches_netG t = false) /\
    (forall t, In t (backward_losses (G_events m 1)) -> reaches_netG t = true).
Proof.
  exact (gradients_reach_generator_only_from_its_loss
           (example_model true "ragan" 1 1 None None) 1
           (example_configured true "ragan" 1 1 None None eq_refl)
           eq_refl eq_refl).
Defined.

Lemma train_iterations_steps_witness :
  let m := example_model false "lsgan" 1 1 (Some 2) None in
  let d := {| data_L := Input "L1"; data_H := Input "H1"; data_ref := None |} in
  let its := [(1, d); (2, d); (3, d); (4, d)] in
  exists m' evs,
    train_iterations its m = (inl tt, m') /\
    trace m' = trace m ++ evs /\
    steps_of D_optimizer evs = List.length its /\
    steps_of G_optimizer evs =
      List.length (filter (fun it => G_due m (fst it)) its) /\
    configured m'.
Proof.
  exact (train_iterations_steps
           [(1, {| data_L := Input "L1"; data_H := Input "H1"; data_ref := None |});
            (2, {| data_L := Input "L1"; data_H := Input "H1"; data_ref := None |});
            (3, {| data_L := Input "L1"; data_H := Input "H1"; data_ref := None |});
            (4, {| data_L := Input "L1"; data_H := Input "H1"; data_ref := None |})]
           (example_model false "lsgan" 1 1 (Some 2) None)
           (example_configured false "lsgan" 1 1 (Some 2) None eq_refl)
           eq_refl).
Defined.

End ModelGAN_More.

(** * Further properties of Trainer *)

Module Trainer_More.

Import Trainer Trainer_Theorems.

Section WithCollaborators.

Context {C : Collaborators}.

Ltac tstep :=
  cbv beta iota zeta delta
    [index_or_raise emit set_params set_grads set_optimizer set_last_epoch
     set_loss set_error_last set_ckp_log set_idx_scale
     bind get ret raise modify py_mod fst snd
     params grads optimizer last_epoch loss error_last ckp_log idx_scale trace].

(** *** Evaluation only evaluates *)


















(** *** The log of an evaluation *)

(** X10.  An evaluation that completes appends exactly one row to
    [ckp.log], with one entry per scale, and leaves the earlier rows as
    they were. *)
Theorem test_appends_one_row cfg t :
  (forall i, (i < List.length (scale (cargs cfg)))%nat -> loader_test cfg i <> []) ->
  scale (cargs cfg) <> [] ->
  rows_of_width (List.length (scale (cargs cfg))) (ckp_log t) = true ->
  exists t' row,
    test cfg t = (inl tt, t') /\
    ckp_log t' = ckp_log t ++ [row] /\
    List.length row = List.length (scale (cargs cfg)).
Proof.
  intros Hne Hsc Hshape.
  destruct (test_spec cfg t Hne Hsc Hshape)
    as (t' & row & evs & b & Hrun & _ & Hlog & Hlen & _).
  now exists t', row.
Qed.

(** X11.  For a scale none of whose test images has a ground truth, the
    logged value is [0 / len(self.loader_test)], as the float tensor holds
    it: nothing was added to [eval_acc]. *)
Theorem test_without_ground_truth cfg t idx_scale_ scale_ :
  (forall i, (i < List.length (scale (cargs cfg)))%nat -> loader_test cfg i <> []) ->
  rows_of_width (List.length (scale (cargs cfg))) (ckp_log t) = true ->
  nth_error (scale (cargs cfg)) idx_scale_ = Some scale_ ->
  (forall it, In it (loader_test cfg idx_scale_) -> te_hr it = None) ->
  log_get_last (ckp_log (snd (test cfg t))) idx_scale_ =
    Some (float32
            (fdiv (F_of_Z 0)
                  (F_of_Z (Z.of_nat (List.length (loader_test cfg idx_scale_)))))).
Proof.
  intros Hne Hshape Hidx Hnone.
  assert (Hsc : scale (cargs cfg) <> []).
  { intros Heq. rewrite Heq in Hidx. destruct idx_scale_; discriminate. }
  destruct (test_spec cfg t Hne Hsc Hshape)
    as (t' & row & evs & b & Hrun & _ & Hlog & _ & Hget & _).
  rewrite Hrun. cbn [snd]. rewrite Hlog, log_get_last_snoc, (Hget _ _ Hidx).
  unfold mean_psnr, test_psnrs.
  replace (flat_map (image_psnr cfg (params t) idx_scale_ scale_)
                    (loader_test cfg idx_scale_)) with (@nil pyfloat); [reflexivity|].
  symmetry. induction (loader_test cfg idx_scale_) as [|it items IH]; [reflexivity|].
  cbn [flat_map]. unfold image_psnr at 1. rewrite (Hnone it (or_introl eq_refl)).
  cbn [app]. apply IH. intros it' Hin. apply Hnone. now right.
Qed.

(** X12.  With an empty [args.scale], the line [test] hands to [add_log] has
    no entry.  A log that has a row with entries refuses it: [test] raises
    [RuntimeError] right after the line 'Evaluation:' and leaves the log as
    it was.  A log without rows, or with rows without entries, takes it;
    [test] then (with a test loader that has items) returns under
    [args.test_only] and raises [UnboundLocalError] for [best] otherwise.
    In neither case is a checkpoint saved. *)
Theorem test_without_scales cfg t :
  scale (cargs cfg) = [] ->
  loader_test cfg (idx_scale t) <> [] ->
  (rows_of_width 0 (ckp_log t) = true ->
   exists t',
     test cfg t =
       (if test_only (cargs cfg) then inl tt else inr (UnboundLocalError "best"),
        t') /\
     ckp_log t' = ckp_log t ++ [[]] /\
     trace t' =
       trace t ++ [WriteLog MsgEvaluation; ModelEval; WriteLog MsgTotalTime]) /\
  (forall r rest,
     ckp_log t = r :: rest -> r <> [] ->
     exists t',
       test cfg t =
         (inr (RuntimeError "Sizes of tensors must match except in dimension 0"),
          t') /\
       ckp_log t' = ckp_log t /\
       trace t' = trace t ++ [WriteLog MsgEvaluation]).
Proof.
  intros Hsc Hne. destruct t as [p g o le lm el log ix tr].
  cbn [idx_scale ckp_log trace] in *.
  unfold test, enumerate, len_loader_test. rewrite Hsc.
  cbn [List.length seq combine for_each_acc repeat]. tstep.
  split.
  - intros Hshape.
    rewrite add_log_run by exact Hshape. tstep.
    destruct (Nat.eqb_spec (List.length (loader_test cfg ix)) 0) as [H0|_].
    { destruct (loader_test cfg ix); [congruence|discriminate]. }
    destruct (test_only (cargs cfg)); cbn [negb]; tstep;
      eexists; (split; [reflexivity|]); tstep;
      rewrite <- ?app_assoc; split; reflexivity.
  - intros r rest -> Hr.
    erewrite (add_log_refuses [] _ r rest);
      [|reflexivity|destruct r; [congruence|discriminate]].
    eexists. split; [reflexivity|]. split; reflexivity.
Qed.

(** X13.  With an empty test loader at the first scale, [test] raises
    [ZeroDivisionError] at the division by [len(self.loader_test)]; the row
    of zeros it had appended to [ckp.log] stays there. *)
Theorem test_with_empty_loader cfg t s0 ss :
  scale (cargs cfg) = s0 :: ss ->
  loader_test cfg 0 = [] ->
  rows_of_width (S (List.length ss)) (ckp_log t) = true ->
  exists t',
    test cfg t = (inr ZeroDivisionError, t') /\
    ckp_log t' = ckp_log t ++ [repeat (F_of_Z 0) (S (List.length ss))] /\
    trace t' = trace t ++ [WriteLog MsgEvaluation; ModelEval; SetScale 0].
Proof.
  intros Hsc Hempty Hshape. destruct t as [p g o le lm el log ix tr].
  cbn [ckp_log] in Hshape.
  unfold test, enumerate, len_loader_test. rewrite Hsc.
  cbn [List.length seq combine for_each_acc]. unfold test_scale, len_loader_test.
  tstep.
  rewrite add_log_run by (cbn [ckp_log]; rewrite repeat_length; exact Hshape).
  tstep. rewrite Hempty. cbn [for_each_acc]. tstep.
  rewrite ?Hempty. cbn [List.length Nat.eqb]. tstep.
  eexists. split; [reflexivity|]. tstep.
  rewrite <- ?app_assoc. split; reflexivity.
Qed.


(** *** Training *)

Ltac batch_cases cfg batch :=
  repeat first
    [ match goal with
      | |- context [loss_call ?a ?b ?c] => destruct (loss_call a b c) as [? ?]
      | |- context [flt ?a ?b] => destruct (flt a b) eqn:?
      | |- context [optimizer_step ?a ?b ?c] =>
          destruct (optimizer_step a b c) as [? ?]
      | |- context [print_every (cargs cfg) =? 0] =>
          destruct (print_every (cargs cfg) =? 0) eqn:?
      | |- context [(Z.of_nat batch + 1) mod print_every (cargs cfg) =? 0] =>
          destruct ((Z.of_nat batch + 1) mod print_every (cargs cfg) =? 0) eqn:?
      end; tstep ].

Lemma train_batch_epoch_part cfg batch it t :
  epoch_part (snd (train_batch cfg batch it t)) = epoch_part t.
Proof.
  destruct t as [p g o le lm el log ix tr].
  unfold train_batch, epoch_part.
  cbn [prepare enumerate List.length seq combine map].
  tstep.
  destruct (nth_error (scale (cargs cfg)) (tr_idx_scale it)) as [s|]; tstep;
    [|reflexivity].
  batch_cases cfg batch; reflexivity.
Qed.

Lemma train_loop_epoch_part cfg (items : list (nat * train_item)) :
  forall t,
    epoch_part
      (snd (for_each items (fun '(batch, it) => train_batch cfg batch it) t)) =
    epoch_part t.
Proof.
  induction items as [|[batch it] items IH]; intros t; [reflexivity|].
  cbn [for_each]. unfold bind.
  pose proof (train_batch_epoch_part cfg batch it t) as Hb.
  destruct (train_batch cfg batch it t) as [[[]|e] t1]; cbn [snd] in *.
  - now rewrite IH.
  - exact Hb.
Qed.

(** X14.  However [train] ends, it has stepped the scheduler exactly once
    ([last_epoch] is one more than before) and has left [ckp.log] as it
    was. *)
Theorem train_advances_one_epoch cfg t :
  last_epoch (snd (train cfg t)) = last_epoch t + 1 /\
  ckp_log (snd (train cfg t)) = ckp_log t.
Proof.
  destruct t as [p g o le lm el log ix tr].
  unfold train, scheduler_step. tstep.
  match goal with
  | |- context [for_each ?l ?f ?t0] =>
      pose proof (train_loop_epoch_part cfg l t0) as Hloop;
      destruct (for_each l f t0) as [[[]|e] t1]
  end; tstep; destruct t1 as [p1 g1 o1 le1 lm1 el1 log1 ix1 tr1];
    unfold epoch_part in Hloop; tstep;
    cbn [last_epoch ckp_log idx_scale snd] in *;
    injection Hloop as -> -> ->; split; reflexivity.
Qed.

(** X15.  For a batch whose loss is strictly below
    [args.skip_threshold * error_last], the loop body zeroes the gradients,
    backpropagates the loss and steps the optimiser, in this order and once
    each: the gradient the step uses is the one of this loss alone, and the
    new parameters are those the optimiser computes from it. *)
Theorem train_batch_applies_update cfg batch it t loss_ :
  batch_loss cfg t it = Some loss_ ->
  flt (loss_data0 loss_) (fmul (skip_threshold (cargs cfg)) (error_last t)) = true ->
  let gradient := autograd (params t) loss_ (zero_grad (grads t)) in
  exists evs,
    (optimizer (snd (train_batch cfg batch it t)),
     params (snd (train_batch cfg batch it t))) =
      optimizer_step (optimizer t) gradient (params t) /\
    grads (snd (train_batch cfg batch it t)) = gradient /\
    trace (snd (train_batch cfg batch it t)) =
      trace t ++ [ZeroGrad; Backward loss_; Step] ++ evs /\
    forall e, In e evs -> updates_model e = false.
Proof.
  intros Hloss Htake gradient. subst gradient.
  destruct t as [p g o le lm el log ix tr].
  unfold batch_loss in Hloss. unfold train_batch.
  cbn [params grads optimizer last_epoch loss error_last ckp_log idx_scale trace
       prepare enumerate List.length seq combine map] in *.
  destruct (nth_error (scale (cargs cfg)) (tr_idx_scale it)) as [s|]; [|discriminate].
  injection Hloss as Hloss. revert Hloss.
  tstep.
  match goal with
  | |- context [loss_call ?a ?b ?c] => destruct (loss_call a b c) as [l lm'] eqn:Hcall
  end.
  cbn [fst]. intros ->. tstep. rewrite Htake. tstep.
  destruct (optimizer_step o (autograd p loss_ (zero_grad g)) p) as [o' p'].
  tstep.
  destruct (print_every (cargs cfg) =? 0); tstep.
  - exists []. repeat split; try reflexivity.
    + rewrite <- !app_assoc. reflexivity.
    + intros e [].
  - destruct ((Z.of_nat batch + 1) mod print_every (cargs cfg) =? 0); tstep.
    + eexists. repeat split; try reflexivity.
      * rewrite <- !app_assoc. cbn [app]. reflexivity.
      * intros e Hin. cbn in Hin. intuition (subst; reflexivity).
    + exists []. repeat split; try reflexivity.
      * rewrite <- !app_assoc. reflexivity.
      * intros e [].
Qed.

(** X16.  A batch whose scale index is outside [args.scale] raises
    [IndexError] after the gradients were zeroed and before the model is
    run: parameters and optimiser are as before. *)
Theorem train_batch_bad_scale_index cfg batch it t :
  nth_error (scale (cargs cfg)) (tr_idx_scale it) = None ->
  exists t',
    train_batch cfg batch it t = (inr IndexError, t') /\
    params t' = params t /\
    optimizer t' = optimizer t /\
    grads t' = zero_grad (grads t) /\
    trace t' = trace t ++ [ZeroGrad].
Proof.
  intros Hidx. destruct t as [p g o le lm el log ix tr].
  unfold train_batch.
  cbn [prepare enumerate List.length seq combine map]. rewrite Hidx. tstep.
  eexists. repeat split.
Qed.


Lemma count_events_app p a b :
  count_events p (a ++ b) = (count_events p a + count_events p b)%nat.
Proof. unfold count_events. now rewrite filter_app, length_app. Qed.

Lemma train_batch_done_counts cfg batch it t t' :
  train_batch cfg batch it t = (inl tt, t') ->
  exists evs,
    trace t' = trace t ++ evs /\
    count_events is_zero_grad evs = 1%nat /\
    (count_events is_step evs + count_events is_skip evs = 1)%nat /\
    count_events is_backward evs = count_events is_step evs.
Proof.
  destruct t as [p g o le lm el log ix tr].
  unfold train_batch.
  cbn [prepare enumerate List.length seq combine map].
  tstep.
  destruct (nth_error (scale (cargs cfg)) (tr_idx_scale it)) as [s|]; tstep;
    [|discriminate].
  batch_cases cfg batch; intros [= <-]; tstep;
    eexists; (split; [rewrite <- ?app_assoc; reflexivity|]);
    repeat split.
Qed.

Lemma train_loop_done_counts cfg (items : list (nat * train_item)) :
  forall t t',
    for_each items (fun '(batch, it) => train_batch cfg batch it) t = (inl tt, t') ->
    exists evs,
      trace t' = trace t ++ evs /\
      count_events is_zero_grad evs = List.length items /\
      (count_events is_step evs + count_events is_skip evs = List.length items)%nat /\
      count_events is_backward evs = count_events is_step evs.
Proof.
  induction items as [|[batch it] items IH]; intros t t'.
  - cbn. intros [= <-]. exists []. rewrite app_nil_r. repeat split.
  - cbn [for_each]. unfold bind.
    destruct (train_batch cfg batch it t) as [[[]|e] t1] eqn:Hb; [|discriminate].
    intros Hrest.
    destruct (train_batch_done_counts cfg batch it t t1 Hb)
      as (ev1 & Htr1 & Hz1 & Hs1 & Hb1).
    destruct (IH t1 t' Hrest) as (ev2 & Htr2 & Hz2 & Hs2 & Hb2).
    exists (ev1 ++ ev2). rewrite !count_events_app. cbn [List.length].
    split; [now rewrite Htr2, Htr1, app_assoc|]. lia.
Qed.

Lemma train_done_counts cfg t t' :
  train cfg t = (inl tt, t') ->
  exists evs,
    trace t' = trace t ++ evs /\
    count_events is_zero_grad evs = List.length (loader_train cfg) /\
    (count_events is_step evs + count_events is_skip evs =
     List.length (loader_train cfg))%nat /\
    count_events is_backward evs = count_events is_step evs.
Proof.
  destruct t as [p g o le lm el log ix tr].
  unfold train, scheduler_step. tstep.
  match goal with
  | |- context [for_each ?l ?f ?t0] =>
      destruct (for_each l f t0) as [[[]|e] t1] eqn:Hloop
  end; tstep; [|discriminate].
  destruct (train_loop_done_counts cfg _ _ _ Hloop) as (evs & Htr & Hz & Hs & Hb).
  unfold enumerate in Hz, Hs. rewrite length_combine, length_seq, Nat.min_id in Hz, Hs.
  destruct t1 as [p1 g1 o1 le1 lm1 el1 log1 ix1 tr1]. tstep.
  intros [= <-]. cbn [trace] in *.
  exists ([SchedulerStep; LossStep;
           WriteLog (MsgEpoch (le + 1 + 1) (get_lr0 (le + 1)));
           LossStartLog; ModelTrain]
          ++ evs ++ [LossEndLog (List.length (loader_train cfg))]).
  rewrite !count_events_app.
  split; [rewrite Htr, <- !app_assoc; reflexivity|].
  cbn [count_events filter is_zero_grad is_step is_skip is_backward List.length].
  unfold count_events in *. cbn [filter List.length] in *.
  repeat split; lia.
Qed.

(** X17.  In an epoch that completes, the gradients are zeroed once per
    batch, every batch is either applied (one [optimizer.step()]) or
    reported as skipped (one [print]), never both, and there are as many
    calls of [backward] as of [step]. *)
Theorem train_batches_applied_or_skipped cfg t :
  fst (train cfg t) = inl tt ->
  exists evs,
    trace (snd (train cfg t)) = trace t ++ evs /\
    count_events is_zero_grad evs = List.length (loader_train cfg) /\
    (count_events is_step evs + count_events is_skip evs =
     List.length (loader_train cfg))%nat /\
    count_events is_backward evs = count_events is_step evs.
Proof.
  intros Hdone.
  destruct (train cfg t) as [[[]|e] t'] eqn:Hrun; [|discriminate].
  exact (train_done_counts cfg t t' Hrun).
Qed.

Lemma train_batch_print_every_zero cfg batch it t s :
  print_every (cargs cfg) = 0 ->
  nth_error (scale (cargs cfg)) (tr_idx_scale it) = Some s ->
  exists t' evs,
    train_batch cfg batch it t = (inr ZeroDivisionError, t') /\
    error_last t' = error_last t /\
    trace t' = trace t ++ evs /\
    count_events is_zero_grad evs = 1%nat.
Proof.
  intros Hpe Hidx. destruct t as [p g o le lm el log ix tr].
  unfold train_batch.
  cbn [prepare enumerate List.length seq combine map]. rewrite Hidx, Hpe. tstep.
  match goal with
  | |- context [loss_call ?a ?b ?c] => destruct (loss_call a b c) as [l lm']
  end. tstep.
  match goal with
  | |- context [flt ?a ?b] => destruct (flt a b)
  end; tstep.
  - match goal with
    | |- context [optimizer_step ?a ?b ?c] =>
        destruct (optimizer_step a b c) as [o' p']
    end. tstep.
    do 2 eexists. split; [reflexivity|]. tstep.
    split; [reflexivity|]. split; [rewrite <- ?app_assoc; reflexivity|reflexivity].
  - do 2 eexists. split; [reflexivity|]. tstep.
    split; [reflexivity|]. split; [rewrite <- ?app_assoc; reflexivity|reflexivity].
Qed.

(** X18.  With [args.print_every = 0] and a training loader that has a
    batch (of a valid scale index), [train] raises [ZeroDivisionError] in
    the first batch, at the modulo after the update: only that batch was
    run, and [error_last] is not updated. *)
Theorem train_print_every_zero cfg t it rest s :
  print_every (cargs cfg) = 0 ->
  loader_train cfg = it :: rest ->
  nth_error (scale (cargs cfg)) (tr_idx_scale it) = Some s ->
  exists t' evs,
    train cfg t = (inr ZeroDivisionError, t') /\
    error_last t' = error_last t /\
    trace t' = trace t ++ evs /\
    count_events is_zero_grad evs = 1%nat.
Proof.
  intros Hpe Hloader Hidx. destruct t as [p g o le lm el log ix tr].
  unfold train, scheduler_step, enumerate. rewrite Hloader.
  cbn [List.length seq combine for_each]. tstep.
  match goal with
  | |- context [train_batch cfg ?b it ?t0] =>
      destruct (train_batch_print_every_zero cfg b it t0 s Hpe Hidx)
        as (t1 & evs & Hrun & Hel & Htr & Hz)
  end.
  rewrite Hrun. destruct t1 as [p1 g1 o1 le1 lm1 el1 log1 ix1 tr1].
  tstep. cbn [error_last trace] in *.
  eexists. eexists. split; [reflexivity|]. split; [exact Hel|].
  split; [rewrite Htr, <- !app_assoc; reflexivity|].
  rewrite !count_events_app, Hz. reflexivity.
Qed.

(** *** prepare *)

Lemma prepare_from a volatile l :
  forall k i x,
    nth_error l i = Some x ->
    nth_error (map (fun '(i, _l) => _prepare a volatile i _l)
                   (combine (seq k (List.length l)) l)) i =
    Some (_prepare a volatile (k + i) x).
Proof.
  induction l as [|y l IH]; intros k i x Hi; [destruct i; discriminate|].
  destruct i as [|i]; cbn in *.
  - injection Hi as <-. now rewrite Nat.add_0_r.
  - rewrite (IH (S k) i x Hi). f_equal. f_equal. lia.
Qed.

(** X19.  [prepare] returns as many tensors as it is given, the one at
    index [i] being [_prepare(i, .)] of the one given at [i]; only the first
    can be volatile: from index 1 on the result does not depend on
    [volatile]. *)
Theorem prepare_keeps_shape a l volatile :
  List.length (prepare a l volatile) = List.length l /\
  (forall i x, nth_error l i = Some x ->
     nth_error (prepare a l volatile) i = Some (_prepare a volatile i x)) /\
  (forall i x, (0 < i)%nat -> _prepare a volatile i x = _prepare a false i x).
Proof.
  unfold prepare, enumerate. split; [|split].
  - now rewrite length_map, length_combine, length_seq, Nat.min_id.
  - intros i x Hi. exact (prepare_from a volatile l 0 i x Hi).
  - intros i x Hi. unfold _prepare.
    destruct i; [lia|]. now rewrite andb_false_r.
Qed.

(** X20.  After [train], [error_last] is the last logged loss if the epoch
    completed, and what it was before if the epoch raised. *)
Theorem train_error_last cfg t :
  error_last (snd (train cfg t)) =
  match fst (train cfg t) with
  | inl _ => loss_log_last (loss (snd (train cfg t)))
  | inr _ => error_last t
  end.
Proof.
  destruct t as [p g o le lm el log ix tr].
  unfold train, scheduler_step. tstep.
  match goal with
  | |- context [for_each ?l ?f ?t0] =>
      pose proof (train_loop_error_last cfg l t0) as Hloop;
      destruct (for_each l f t0) as [[[]|e] t1]
  end; destruct t1 as [p1 g1 o1 le1 lm1 el1 log1 ix1 tr1]; tstep;
    cbn [error_last snd] in Hloop; [reflexivity|exact Hloop].
Qed.

(** X21.  With [args.load == '.'], the constructor loads nothing and does
    not step the scheduler, whatever the checkpoint's log holds: optimiser
    and scheduler are as [make_optimizer] and [make_scheduler] built them,
    and [error_last] is [1e8]. *)
Theorem init_without_resume cfg my_model my_loss ckp t :
  load (cargs cfg) = "." ->
  exists t',
    __init__ cfg my_model my_loss ckp t = (inl tt, t') /\
    trace t' = trace t /\
    (optimizer t', last_epoch t') = make_scheduler (make_optimizer my_model) /\
    (params t', loss t', ckp_log t') = (my_model, my_loss, ckp) /\
    error_last t' = F_of_Z 100000000.
Proof.
  intros Hload. destruct t as [p g o le lm el log ix tr].
  unfold __init__. rewrite Hload.
  destruct (make_scheduler (make_optimizer my_model)) as [o0 e0].
  cbn [String.eqb Ascii.eqb Bool.eqb negb andb]. tstep.
  eexists. repeat split.
Qed.

End WithCollaborators.

(** ** The theorems at the example trainer *)

#[local] Existing Instance Q_collaborators.

Lemma test_appends_one_row_witness :
  exists t' row,
    test (example_config false ".") (example_trainer 1) = (inl tt, t') /\
    ckp_log t' = ckp_log (example_trainer 1) ++ [row] /\
    List.length row = List.length (scale (cargs (example_config false "."))).
Proof.
  exact (test_appends_one_row (example_config false ".") (example_trainer 1)
           (example_loaders_nonempty false ".") (example_scale_nonempty false ".")
           eq_refl).
Defined.

Lemma unlabelled_loaders_nonempty i :
  lt i (List.length
          (scale (cargs (example_config_with [2; 3] 100
                                             (fun _ => unlabelled_images) true)))) ->
  loader_test (example_config_with [2; 3] 100 (fun _ => unlabelled_images) true) i
  <> [].
Proof. intros _. discriminate. Defined.

Lemma unlabelled_everywhere (idx : nat) it :
  In it (loader_test
           (example_config_with [2; 3] 100 (fun _ => unlabelled_images) true) idx) ->
  te_hr it = None.
Proof. intros [<-|[<-|[]]]; reflexivity. Defined.

Lemma test_without_ground_truth_witness :
  log_get_last
    (ckp_log
       (snd (test (example_config_with [2; 3] 100 (fun _ => unlabelled_images) true)
                  (example_trainer 1)))) 1 =
  Some (float32 (fdiv (F_of_Z 0) (F_of_Z 2))).
Proof.
  exact (test_without_ground_truth
           (example_config_with [2; 3] 100 (fun _ => unlabelled_images) true)
           (example_trainer 1) 1%nat 3 unlabelled_loaders_nonempty eq_refl eq_refl
           (unlabelled_everywhere 1)).
Defined.

Lemma unlabelled_current_loader_nonempty :
  loader_test (example_config_with [] 100 (fun _ => unlabelled_images) false)
              (idx_scale (example_trainer 1)) <> [].
Proof. discriminate. Defined.

(** X12 at a log without rows, which takes the empty line, and at the log
    of the example trainer, whose row has two entries and refuses it. *)
Lemma test_without_scales_witness :
  let cfg := example_config_with [] 100 (fun _ => unlabelled_images) false in
  (exists t',
     test cfg (example_trainer_logged []) = (inr (UnboundLocalError "best"), t') /\
     ckp_log t' = [[]] /\
     trace t' = [WriteLog MsgEvaluation; ModelEval; WriteLog MsgTotalTime]) /\
  (exists t',
     test cfg (example_trainer 1) =
       (inr (RuntimeError "Sizes of tensors must match except in dimension 0"),
        t') /\
     ckp_log t' = [[30; 28]]%Q /\
     trace t' = [WriteLog MsgEvaluation]).
Proof.
  intros cfg. split.
  - exact (proj1 (test_without_scales cfg (example_trainer_logged []) eq_refl
                    unlabelled_current_loader_nonempty) eq_refl).
  - exact (proj2 (test_without_scales cfg (example_trainer 1) eq_refl
                    unlabelled_current_loader_nonempty)
                 [30; 28]%Q [] eq_refl ltac:(discriminate)).
Defined.

Lemma test_with_empty_loader_witness :
  exists t',
    test (example_config_with [2; 3] 100 (fun _ => []) false) (example_trainer 1) =
      (inr ZeroDivisionError, t') /\
    ckp_log t' = ckp_log (example_trainer 1) ++ [repeat (F_of_Z 0) 2] /\
    trace t' =
      trace (example_trainer 1) ++ [WriteLog MsgEvaluation; ModelEval; SetScale 0].
Proof.
  exact (test_with_empty_loader
           (example_config_with [2; 3] 100 (fun _ => []) false)
           (example_trainer 1) 2 [3] eq_refl eq_refl eq_refl).
Defined.

Lemma train_batch_applies_update_witness :
  let cfg := example_config false "." in
  let it := {| tr_lr := 1%Q; tr_hr := 2%Q; tr_idx_scale := 0%nat |} in
  let t := example_trainer 1 in
  let gradient := autograd (params t) 0%Q (zero_grad (grads t)) in
  exists evs,
    (optimizer (snd (train_batch cfg 0 it t)), params (snd (train_batch cfg 0 it t))) =
      optimizer_step (optimizer t) gradient (params t) /\
    grads (snd (train_batch cfg 0 it t)) = gradient /\
    trace (snd (train_batch cfg 0 it t)) =
      trace t ++ [ZeroGrad; Backward 0%Q; Step] ++ evs /\
    forall e, In e evs -> updates_model e = false.
Proof.
  exact (train_batch_applies_update (example_config false ".") 0%nat
           {| tr_lr := 1%Q; tr_hr := 2%Q; tr_idx_scale := 0%nat |}
           (example_trainer 1) 0%Q eq_refl eq_refl).
Defined.

Lemma train_batch_bad_scale_index_witness :
  let it := {| tr_lr := 1%Q; tr_hr := 2%Q; tr_idx_scale := 2%nat |} in
  exists t',
    train_batch (example_config false ".") 0 it (example_trainer 1) =
      (inr IndexError, t') /\
    params t' = params (example_trainer 1) /\
    optimizer t' = optimizer (example_trainer 1) /\
    grads t' = zero_grad (grads (example_trainer 1)) /\
    trace t' = trace (example_trainer 1) ++ [ZeroGrad].
Proof.
  exact (train_batch_bad_scale_index (example_config false ".") 0%nat
           {| tr_lr := 1%Q; tr_hr := 2%Q; tr_idx_scale := 2%nat |}
           (example_trainer 1) eq_refl).
Defined.

Lemma train_batches_applied_or_skipped_witness :
  let cfg := example_config false "." in
  exists evs,
    trace (snd (train cfg (example_trainer 1))) = trace (example_trainer 1) ++ evs /\
    count_events is_zero_grad evs = List.length (loader_train cfg) /\
    (count_events is_step evs + count_events is_skip evs =
     List.length (loader_train cfg))%nat /\
    count_events is_backward evs = count_events is_step evs.
Proof.
  exact (train_batches_applied_or_skipped (example_config false ".")
           (example_trainer 1) eq_refl).
Defined.

Lemma train_print_every_zero_witness :
  exists t' evs,
    train (example_config_with [2; 3] 0 (fun _ => unlabelled_images) false)
          (example_trainer 1) = (inr ZeroDivisionError, t') /\
    error_last t' = error_last (example_trainer 1) /\
    trace t' = trace (example_trainer 1) ++ evs /\
    count_events is_zero_grad evs = 1%nat.
Proof.
  exact (train_print_every_zero
           (example_config_with [2; 3] 0 (fun _ => unlabelled_images) false)
           (example_trainer 1)
           {| tr_lr := 1%Q; tr_hr := 2%Q; tr_idx_scale := 0%nat |}
           [ {| tr_lr := 1%Q; tr_hr := 1000000%Q; tr_idx_scale := 0%nat |} ]
           2 eq_refl eq_refl eq_refl).
Defined.

Lemma prepare_keeps_shape_witness :
  nth_error (prepare (example_args true ".") [5%Q; 7%Q] true) 1 =
    Some (_prepare (example_args true ".") true 1 7%Q) /\
  _prepare (example_args true ".") true 1 7%Q =
    _prepare (example_args true ".") false 1 7%Q.
Proof.
  split.
  - exact (proj1 (proj2 (prepare_keeps_shape (example_args true ".")
                           [5%Q; 7%Q] true)) 1%nat 7%Q eq_refl).
  - exact (proj2 (proj2 (prepare_keeps_shape (example_args true ".")
                           [5%Q; 7%Q] true)) 1%nat 7%Q (le_n 1)).
Defined.

Lemma init_without_resume_witness :
  exists t',
    __init__ (example_config false ".") 2%Q [] [[30%Q; 28%Q]] (example_trainer 7) =
      (inl tt, t') /\
    trace t' = trace (example_trainer 7) /\
    (optimizer t', last_epoch t') = make_scheduler (make_optimizer 2%Q) /\
    (params t', loss t', ckp_log t') = (2%Q, [], [[30%Q; 28%Q]]) /\
    error_last t' = F_of_Z 100000000.
Proof.
  exact (init_without_resume (example_config false ".") 2%Q [] [[30%Q; 28%Q]]
           (example_trainer 7) eq_refl).
Defined.

End Trainer_More.
